(** * SciTrace: dataset synchronisation and workflow graph synthesis

    A shallow embedding of the parts of SciTrace that talk to git and
    DataLad and that build the stage graph:

    - [routes/api/dataflow_api.py]       : [save_all_changes]
    - [services/git_operations.py]       : [get_commit_history],
      [get_detailed_git_log], [restore_file_to_commit],
      [check_file_exists_in_commit]
    - [services/file_operations.py]      : [get_file_tree], [get_stage_files]
    - [services/metadata_operations.py]  : [create_dataflow_from_dataset]

    Python text is modelled by [string] (characters are code points below
    256), integers by [Z], lists by [list], and dictionaries whose iteration
    order matters by association lists kept in insertion order. *)

From Stdlib Require Import ZArith List String Ascii Bool Arith Lia.
From Stdlib Require Import DecimalString.
Import ListNotations.

Set Warnings "-register-all".
Local Open Scope list_scope.
Local Open Scope string_scope.

(* ===================================================================== *)
(** ** Python string methods used by the code *)
(* ===================================================================== *)

Module PyStr.

(** The newline character, written ['\n'] in the source. *)
Definition nl : string := String (ascii_of_nat 10) "".

(** The double quote character. *)
Definition dq : string := String (ascii_of_nat 34) "".

(** [str.isspace] on one character. *)
Definition is_space (c : ascii) : bool :=
  let n := nat_of_ascii c in
  (((9 <=? n) && (n <=? 13)) || ((28 <=? n) && (n <=? 32))
   || (n =? 133) || (n =? 160))%nat.

(** Truth value of a string: [if s:] holds for the non-empty ones. *)
Definition truthy (s : string) : bool :=
  match s with "" => false | _ => true end.

Fixpoint lstrip (s : string) : string :=
  match s with
  | "" => ""
  | String c s' => if is_space c then lstrip s' else s
  end.

Fixpoint rstrip (s : string) : string :=
  match s with
  | "" => ""
  | String c s' =>
      match rstrip s' with
      | "" => if is_space c then "" else String c ""
      | r => String c r
      end
  end.

(** [s.strip()] *)
Definition strip (s : string) : string := rstrip (lstrip s).

(** [s.startswith(p)] *)
Definition startswith (p s : string) : bool := prefix p s.

(** [sub in s] *)
Fixpoint contains (sub s : string) : bool :=
  prefix sub s ||
  match s with
  | "" => false
  | String _ s' => contains sub s'
  end.

Fixpoint rev_acc (acc s : string) : string :=
  match s with
  | "" => acc
  | String c s' => rev_acc (String c acc) s'
  end.

(** The scanning loop of [s.split(sep)] for a non-empty [sep]: [cur] is
    the piece being read (reversed), [skip] counts the characters of a
    separator just found that are still to be passed over. *)
Fixpoint split_aux (sep : string) (skip : nat) (cur s : string)
  : list string :=
  match s with
  | "" => [rev_acc "" cur]
  | String c s' =>
      match skip with
      | S k => split_aux sep k cur s'
      | O =>
          if prefix sep s
          then rev_acc "" cur :: split_aux sep (String.length sep - 1) "" s'
          else split_aux sep 0 (String c cur) s'
      end
  end.

(** [s.split(sep)] for a non-empty separator. *)
Definition split (sep s : string) : list string := split_aux sep 0 "" s.

(** Drop the first [n] characters. *)
Fixpoint drop (n : nat) (s : string) : string :=
  match n, s with
  | O, _ => s
  | S k, String _ s' => drop k s'
  | S _, "" => ""
  end.

(** The scanning loop of [s.split(sep, 1)]. *)
Fixpoint split1_aux (sep cur s : string) : list string :=
  if prefix sep s
  then [rev_acc "" cur; drop (String.length sep) s]
  else match s with
       | "" => [rev_acc "" cur]
       | String c s' => split1_aux sep (String c cur) s'
       end.

(** [s.split(sep, 1)] for a non-empty separator. *)
Definition split1 (sep s : string) : list string := split1_aux sep "" s.

(** [sep.join(parts)] *)
Definition join (sep : string) (parts : list string) : string :=
  String.concat sep parts.

(** [str(n)] for an integer. *)
Definition str_of_Z (z : Z) : string := NilZero.string_of_int (Z.to_int z).

(** [str(n)] for a count. *)
Definition str_of_nat (n : nat) : string :=
  NilZero.string_of_uint (Nat.to_uint n).

(** [os.path.join(a, b)] of [posixpath]. *)
Definition path_join (a b : string) : string :=
  if startswith "/" b then b
  else if negb (truthy a) then b
  else if startswith "/" (rev_acc "" a) then a ++ b
  else a ++ "/" ++ b.

(** [os.path.basename(p)] of [posixpath]: what follows the last slash. *)
Definition basename (p : string) : string := last (split "/" p) "".

End PyStr.

Arguments PyStr.strip : simpl never.
Arguments PyStr.split : simpl never.
Arguments PyStr.split1 : simpl never.
Arguments PyStr.contains : simpl never.
Arguments PyStr.path_join : simpl never.
Arguments PyStr.str_of_Z : simpl never.
Arguments PyStr.str_of_nat : simpl never.

(* ===================================================================== *)
(** ** The Python runtime as the code sees it *)
(* ===================================================================== *)

Module Py.

(** What a call leaves behind: an external command started by
    [subprocess.run(argv, cwd=...)], or a line written by [print]. *)
Inductive event : Type :=
| Run (argv : list string) (cwd : string)
| Print (msg : string).

(** What [subprocess.run] meets: the process ran to an exit code, or it
    could not be started at all (an [OSError] such as
    [FileNotFoundError], with its text). *)
Inductive response : Type :=
| Completed (rc : Z) (out err : string)
| OSFailure (msg : string).

(** [subprocess.CompletedProcess] with [capture_output=True, text=True]. *)
Record CompletedProcess : Type := mkCompleted
  { returncode : Z; stdout : string; stderr : string }.

(** The exceptions that travel through the modelled code. [PyError]
    stands for the built-in ones ([OSError], [IndexError], [KeyError])
    and carries [str(e)]. *)
Inductive exn : Type :=
| CalledProcessError (cmd : list string) (rc : Z) (out err : string)
| PyError (msg : string)
| GitOperationError (msg : string)
| DatasetError (msg : string).

(** The environment of one call. Answers may depend on everything that
    happened before (the list of events so far, oldest first), so a
    command may fail at first and succeed when repeated, and a file may
    exist only after a checkout. [cpe_str] is [str(e)] of a
    [CalledProcessError], which the standard library formats. *)
Record world : Type := mkWorld
  { respond : list event -> list string -> string -> response;
    path_exists : list event -> string -> bool;
    cpe_str : list string -> Z -> string }.

(** [str(e)] *)
Definition exn_str (w : world) (e : exn) : string :=
  match e with
  | CalledProcessError cmd rc _ _ => cpe_str w cmd rc
  | PyError msg => msg
  | GitOperationError msg => msg
  | DatasetError msg => msg
  end.

Inductive outcome (A : Type) : Type :=
| Return (a : A)
| Raise (e : exn).
Arguments Return {A} a.
Arguments Raise {A} e.

Section Monad.
(** [L] holds the local variables that an exception handler reads
    after the body that changed them was left. *)
Context {L : Type}.

Definition M (A : Type) : Type :=
  L -> list event -> outcome A * L * list event.

Definition ret {A} (a : A) : M A := fun l h => (Return a, l, h).

Definition raise {A} (e : exn) : M A := fun l h => (Raise e, l, h).

Definition bind {A B} (m : M A) (k : A -> M B) : M B :=
  fun l h =>
    match m l h with
    | (Return a, l', h') => k a l' h'
    | (Raise e, l', h') => (Raise e, l', h')
    end.

(** [try: body except ...: handler]; the handler answers [None] for
    an exception its [except] clauses do not name. *)
Definition try_except {A} (body : M A) (handler : exn -> option (M A))
  : M A :=
  fun l h =>
    match body l h with
    | (Return a, l', h') => (Return a, l', h')
    | (Raise e, l', h') =>
        match handler e with
        | Some k => k l' h'
        | None => (Raise e, l', h')
        end
    end.

Definition get_local : M L := fun l h => (Return l, l, h).
Definition set_local (l' : L) : M unit := fun _ h => (Return tt, l', h).

Definition print (msg : string) : M unit :=
  fun l h => (Return tt, l, (h ++ [Print msg])%list).

(** [os.path.exists(p)] *)
Definition os_path_exists (w : world) (p : string) : M bool :=
  fun l h => (Return (path_exists w h p), l, h).

(** [subprocess.run(argv, cwd=cwd, capture_output=True, text=True,
    check=check)] *)
Definition subprocess_run (w : world) (check : bool)
    (argv : list string) (cwd : string) : M CompletedProcess :=
  fun l h =>
    let h' := (h ++ [Run argv cwd])%list in
    match respond w h argv cwd with
    | OSFailure msg => (Raise (PyError msg), l, h')
    | Completed rc out err =>
        if check && negb (rc =? 0)%Z
        then (Raise (CalledProcessError argv rc out err), l, h')
        else (Return (mkCompleted rc out err), l, h')
    end.

End Monad.

Arguments M L A : clear implicits.

(** [except subprocess.CalledProcessError as e:] *)
Definition except_CalledProcessError {L A}
    (k : list string -> Z -> string -> string -> M L A)
  : exn -> option (M L A) :=
  fun e => match e with
           | CalledProcessError cmd rc out err => Some (k cmd rc out err)
           | _ => None
           end.

(** [except Exception as e:] *)
Definition except_Exception {L A} (k : exn -> M L A)
  : exn -> option (M L A) :=
  fun e => Some (k e).

(** The commands that change a dataset: checkout, staging, commit and
    DataLad save. Status, show, log and ls-files only read. *)
Definition is_write (e : event) : bool :=
  match e with
  | Run ("git" :: "checkout" :: _) _ => true
  | Run ("git" :: "add" :: _) _ => true
  | Run ("git" :: "commit" :: _) _ => true
  | Run ("datalad" :: "save" :: _) _ => true
  | _ => false
  end.

Definition is_run (e : event) : bool :=
  match e with Run _ _ => true | Print _ => false end.

(** A call made by a fresh request: no local state, nothing happened
    yet. *)
Definition call {L A} (m : M L A) (l0 : L) : outcome A * list event :=
  let '(r, _, h) := m l0 [] in (r, h).

End Py.

Declare Scope py_scope.
Delimit Scope py_scope with py.
Notation "x <- m ;; k" := (Py.bind m (fun x => k))
  (at level 100, m at next level, right associativity) : py_scope.
Notation "m ;;; k" := (Py.bind m (fun _ => k))
  (at level 100, right associativity) : py_scope.

(** JSON values as the routes and services build them. *)
Inductive json : Type :=
| JStr (s : string)
| JBool (b : bool)
| JInt (z : Z)
| JStrs (l : list string).

(** A dictionary literal, keys in source order. *)
Definition jobject : Type := list (string * json).

(* ===================================================================== *)
(** ** [routes/api/dataflow_api.py]: [save_all_changes] *)
(* ===================================================================== *)

Module DataflowApi.
Import Py.
Local Open Scope py_scope.

(** A Flask response: the JSON body and the HTTP status. *)
Definition http_response : Type := (jobject * Z)%type.

Definition jsonify (o : jobject) : http_response := (o, 200%Z).

(** Where the cascade stands when its [try] blocks are left: a
    [return] was executed, or control reaches the statement after them
    with the variable [result]. *)
Inductive flow : Type :=
| Returned (r : http_response)
| Continue (result : option CompletedProcess).

(** The local [save_attempts]: [None] until [save_attempts = []] ran. *)
Definition locals : Type := option (list string).

(** [save_attempts.append(s)] *)
Definition append_attempt (s : string) : M locals unit :=
  l <- get_local ;;
  set_local (Some (match l with Some a => a | None => [] end ++ [s])%list).

(** [save_attempts if 'save_attempts' in locals() else []] *)
Definition attempts_or_empty (l : locals) : list string :=
  match l with Some a => a | None => [] end.

(** [xs[i]], raising [IndexError] out of range. *)
Definition index (xs : list string) (i : nat) : M locals string :=
  match nth_error xs i with
  | Some x => ret x
  | None => raise (PyError "list index out of range")
  end.

(** Lines 443-446: the names of the modified subdatasets in the status
    report. *)
Fixpoint subdataset_changes (status_lines : list string)
  : M locals (list string) :=
  match status_lines with
  | [] => ret []
  | line :: rest =>
      if PyStr.contains "modified:" line && PyStr.contains "(dataset)" line
      then
        after <- index (PyStr.split "modified:" line) 1 ;;
        before <- index (PyStr.split "(dataset)" after) 0 ;;
        names <- subdataset_changes rest ;;
        ret (PyStr.strip before :: names)
      else subdataset_changes rest
  end.

Section Cascade.
Variable w : world.
Variable dataset_path : string.
Variable commit_message : string.

(** Lines 449-463: one round of the loop over the subdatasets. *)
Definition save_subdataset (subdataset : string) : M locals unit :=
  try_except
    (let subdataset_path := PyStr.path_join dataset_path subdataset in
     ex <- os_path_exists w subdataset_path ;;
     if ex then
       _r <- subprocess_run w true
               ["datalad"; "save"; "-m"; commit_message] subdataset_path ;;
       append_attempt ("Subdataset " ++ subdataset ++ " save: SUCCESS")
     else ret tt)
    (except_CalledProcessError (fun _ _ _ _ =>
       try_except
         (_r <- subprocess_run w true
                  ["datalad"; "save"; "-m"; commit_message; subdataset]
                  dataset_path ;;
          append_attempt
            ("Subdataset " ++ subdataset ++ " reference save: SUCCESS"))
         (except_CalledProcessError (fun _ _ _ _ =>
            append_attempt
              ("Subdataset " ++ subdataset ++ " save: FAILED"))))).

Fixpoint save_subdatasets (subs : list string) : M locals unit :=
  match subs with
  | [] => ret tt
  | s :: rest => save_subdataset s ;;; save_subdatasets rest
  end.

(** Lines 465-484: the forced git add and commit of [r4], and the
    degraded answer when they fail. *)
Definition force_git (status_stdout : string) : M locals flow :=
  if PyStr.contains "r4" status_stdout then
    try_except
      (_a <- subprocess_run w true ["git"; "add"; "r4"] dataset_path ;;
       _c <- subprocess_run w true
               ["git"; "commit"; "-m";
                "Force save subdataset reference: " ++ commit_message]
               dataset_path ;;
       append_attempt "Force git add/commit for r4: SUCCESS" ;;;
       ret (Continue None))
      (except_CalledProcessError (fun _ _ _ err =>
         append_attempt ("Force git add/commit for r4: FAILED - " ++ err) ;;;
         l <- get_local ;;
         ret (Returned (jsonify
           [("success", JBool true);
            ("message", JStr "Some changes may not have been saved due to persistent subdataset issues. The dataset should be usable.");
            ("commit_message", JStr commit_message);
            ("warning", JStr "Persistent r4 subdataset changes detected");
            ("save_attempts", JStrs (attempts_or_empty l));
            ("detailed_status", JStr status_stdout);
            ("suggestion", JStr "You may need to manually resolve subdataset issues")]))))
  else ret (Continue None).

(** Lines 437-493: approach 3 and what follows it. *)
Definition individual_saves (status_stdout : string) : M locals flow :=
  try_except
    (let status_lines := PyStr.split PyStr.nl (PyStr.strip status_stdout) in
     subs <- subdataset_changes status_lines ;;
     save_subdatasets subs ;;;
     force_git status_stdout)
    (except_Exception (fun e3 =>
       append_attempt
         ("Individual subdataset save: FAILED - " ++ exn_str w e3) ;;;
       l <- get_local ;;
       ret (Returned
         ([("error", JStr ("All save attempts failed: " ++ exn_str w e3));
           ("save_attempts", JStrs (attempts_or_empty l));
           ("detailed_status", JStr status_stdout);
           ("suggestion", JStr "Try manual datalad save commands")],
          500%Z)))).

(** Lines 429-493: approach 2, entered when the recursive save
    failed. *)
Definition regular_save (status_stdout : string) : M locals flow :=
  try_except
    (r <- subprocess_run w true
            ["datalad"; "save"; "-m"; commit_message] dataset_path ;;
     append_attempt "Regular save: SUCCESS" ;;;
     ret (Continue (Some r)))
    (except_CalledProcessError (fun _ _ _ err2 =>
       append_attempt ("Regular save: FAILED - " ++ err2) ;;;
       individual_saves status_stdout)).

(** Lines 421-493: approach 1 and the cascade behind it. *)
Definition recursive_save (status_stdout : string) : M locals flow :=
  try_except
    (r <- subprocess_run w true
            ["datalad"; "save"; "-r"; "-m"; commit_message] dataset_path ;;
     append_attempt "Recursive save: SUCCESS" ;;;
     ret (Continue (Some r)))
    (except_CalledProcessError (fun _ _ _ err =>
       append_attempt ("Recursive save: FAILED - " ++ err) ;;;
       regular_save status_stdout)).

(** Lines 403-501, inside the outer [try]. *)
Definition save_all_changes_body : M locals http_response :=
  status_result <- subprocess_run w false ["datalad"; "status"]
                     dataset_path ;;
  if negb (returncode status_result =? 0)%Z then
    ret ([("error", JStr ("Failed to check dataset status: "
                          ++ stderr status_result))], 500%Z)
  else if negb (PyStr.truthy (PyStr.strip (stdout status_result))) then
    ret (jsonify [("success", JBool true);
                  ("message", JStr "No changes to save");
                  ("commit_message", JStr commit_message)])
  else
    set_local (Some []) ;;;
    f <- recursive_save (stdout status_result) ;;
    match f with
    | Returned r => ret r
    | Continue result =>
        l <- get_local ;;
        ret (jsonify
          [("success", JBool true);
           ("message", JStr "All changes have been saved to DataLad");
           ("commit_message", JStr commit_message);
           ("output", JStr (match result with
                            | Some r => stdout r
                            | None => "No output available"
                            end));
           ("save_attempts", JStrs (attempts_or_empty l))])
    end.

End Cascade.

(** [save_all_changes] from line 395 on: [dataset_path] is
    [dataflow.project.dataset_path] ([None] for a null column) and
    [commit_message] the value read at line 393. The lookup of the
    dataflow and the access check before it belong to the web layer. *)
Definition save_all_changes (w : world) (dataset_path : option string)
    (commit_message : string) : M locals http_response :=
  try_except
    (match dataset_path with
     | None => ret ([("error", JStr "No dataset path found")], 404%Z)
     | Some dp =>
         if negb (PyStr.truthy dp)
         then ret ([("error", JStr "No dataset path found")], 404%Z)
         else save_all_changes_body w dp commit_message
     end)
    (except_Exception (fun e =>
       l <- get_local ;;
       ret ([("error", JStr ("Unexpected error saving changes: "
                             ++ exn_str w e));
             ("save_attempts", JStrs (attempts_or_empty l))], 500%Z))).

(** One request: the function called with no locals and no history. *)
Definition commitAll (w : world) (dataset_path : option string)
    (commit_message : string) : outcome http_response * list event :=
  call (save_all_changes w dataset_path commit_message) None.

End DataflowApi.

(* ===================================================================== *)
(** ** [routes/api_old.py]: the earlier [save_all_changes] *)
(* ===================================================================== *)

Module ApiOld.
Import Py.
Import DataflowApi.
Local Open Scope py_scope.

Section Cascade.
Variable w : world.
Variable dataset_path : string.
Variable commit_message : string.

(** Lines 1199-1218: one round of the loop over the status lines that
    mention a dataset. Both saves are tried for every modified unit. *)
Definition save_subdataset_line (line : string) : M locals unit :=
  if PyStr.contains "modified:" line then
    after <- index (PyStr.split "modified:" line) 1 ;;
    before <- index (PyStr.split "(dataset)" after) 0 ;;
    let subdataset_name := PyStr.strip before in
    let message := "Subdataset " ++ subdataset_name ++ ": " ++ commit_message in
    try_except
      (let subdataset_path := PyStr.path_join dataset_path subdataset_name in
       _r <- subprocess_run w true ["datalad"; "save"; "-m"; message]
               subdataset_path ;;
       append_attempt
         ("Subdataset " ++ subdataset_name ++ " internal save succeeded"))
      (except_CalledProcessError (fun _ _ _ err =>
         append_attempt
           ("Subdataset " ++ subdataset_name ++ " internal save failed: "
            ++ err))) ;;;
    try_except
      (_r <- subprocess_run w true
               ["datalad"; "save"; "-m"; message; subdataset_name]
               dataset_path ;;
       append_attempt
         ("Subdataset " ++ subdataset_name ++ " reference save succeeded"))
      (except_CalledProcessError (fun _ _ _ err =>
         append_attempt
           ("Subdataset " ++ subdataset_name ++ " reference save failed: "
            ++ err)))
  else ret tt.

Fixpoint save_subdataset_lines (lines : list string) : M locals unit :=
  match lines with
  | [] => ret tt
  | line :: rest =>
      save_subdataset_line line ;;; save_subdataset_lines rest
  end.

(** Lines 1228-1263: the forced save of [r4] and, when it fails, the
    answer with a warning. The body of the [try] at line 1250 appends to
    a list and builds the answer, so its handler is never entered. *)
Definition force_save : M locals flow :=
  try_except
    (_s <- subprocess_run w true
             ["datalad"; "save"; "-m";
              "Subdataset r4: " ++ commit_message]
             (PyStr.path_join dataset_path "r4") ;;
     append_attempt "Subdataset r4 internal save succeeded" ;;;
     _a <- subprocess_run w true ["git"; "add"; "r4"] dataset_path ;;
     append_attempt "Force add subdataset reference succeeded" ;;;
     force_commit <- subprocess_run w true
                       ["git"; "commit"; "-m";
                        "Force save subdataset reference: " ++ commit_message]
                       dataset_path ;;
     append_attempt "Force commit subdataset reference succeeded" ;;;
     ret (Continue (Some force_commit)))
    (except_CalledProcessError (fun _ _ _ err =>
       append_attempt ("Force save failed: " ++ err) ;;;
       append_attempt "Attempting to proceed despite subdataset changes" ;;;
       l <- get_local ;;
       ret (Returned (jsonify
         [("success", JBool true);
          ("message", JStr "Changes saved with warnings. Some subdataset changes may persist.");
          ("commit_message", JStr commit_message);
          ("warning", JStr "Subdataset r4 shows persistent changes. This may be a DataLad configuration issue.");
          ("save_attempts", JStrs (attempts_or_empty l));
          ("suggestion", JStr "The dataset should be usable for running scripts despite the subdataset warning.")])))).

(** Lines 1194-1276: approach 3, the flat save tried once more after it,
    and what follows when that fails too. *)
Definition subdataset_saves (status_result status_detailed : CompletedProcess)
  : M locals flow :=
  try_except
    (let subdataset_lines :=
       filter (PyStr.contains "dataset")
         (PyStr.split PyStr.nl (stdout status_result)) in
     save_subdataset_lines subdataset_lines ;;;
     try_except
       (r <- subprocess_run w true
               ["datalad"; "save"; "-m"; commit_message] dataset_path ;;
        append_attempt "Final regular save succeeded" ;;;
        ret (Continue (Some r)))
       (except_CalledProcessError (fun _ _ _ err =>
          append_attempt ("Final regular save failed: " ++ err) ;;;
          force_save)))
    (except_CalledProcessError (fun _ _ _ _ =>
       l <- get_local ;;
       ret (Returned
         ([("error", JStr ("All save attempts failed. Attempts: "
                           ++ PyStr.join "; " (attempts_or_empty l)));
           ("status_output", JStr (stdout status_result));
           ("detailed_status",
            JStr (if (returncode status_detailed =? 0)%Z
                  then stdout status_detailed else stderr status_detailed));
           ("save_attempts", JStrs (attempts_or_empty l));
           ("suggestion",
            JStr ("Try manually running: datalad save -r -m " ++ PyStr.dq
                  ++ "commit message" ++ PyStr.dq
                  ++ " in the dataset directory"))],
          500%Z)))).

(** Lines 1178-1276: approaches 1 and 2 and the cascade behind them. *)
Definition save_cascade (status_result status_detailed : CompletedProcess)
  : M locals flow :=
  try_except
    (r <- subprocess_run w true
            ["datalad"; "save"; "-r"; "-m"; commit_message] dataset_path ;;
     append_attempt "Recursive save succeeded" ;;;
     ret (Continue (Some r)))
    (except_CalledProcessError (fun _ _ _ err =>
       append_attempt ("Recursive save failed: " ++ err) ;;;
       try_except
         (r <- subprocess_run w true
                 ["datalad"; "save"; "-m"; commit_message] dataset_path ;;
          append_attempt "Regular save succeeded" ;;;
          ret (Continue (Some r)))
         (except_CalledProcessError (fun _ _ _ err2 =>
            append_attempt ("Regular save failed: " ++ err2) ;;;
            subdataset_saves status_result status_detailed)))).

(** Lines 1158-1284, inside the outer [try]. Every path that reaches
    the last [return] has assigned [result]. *)
Definition save_all_changes_body : M locals http_response :=
  status_result <- subprocess_run w false ["datalad"; "status"]
                     dataset_path ;;
  if negb (returncode status_result =? 0)%Z then
    ret ([("error", JStr ("Failed to check dataset status: "
                          ++ stderr status_result))], 500%Z)
  else if negb (PyStr.truthy (PyStr.strip (stdout status_result))) then
    ret (jsonify [("success", JBool true);
                  ("message",
                   JStr "No changes to save - dataset is already clean");
                  ("commit_message", JStr commit_message)])
  else
    status_detailed <- subprocess_run w false
                         ["datalad"; "status"; "--annex"] dataset_path ;;
    set_local (Some []) ;;;
    f <- save_cascade status_result status_detailed ;;
    match f with
    | Returned r => ret r
    | Continue result =>
        l <- get_local ;;
        ret (jsonify
          [("success", JBool true);
           ("message", JStr "All changes have been saved to DataLad");
           ("commit_message", JStr commit_message);
           ("output", JStr (match result with
                            | Some r => stdout r
                            | None => ""
                            end));
           ("save_attempts", JStrs (attempts_or_empty l))])
    end.

End Cascade.

(** [save_all_changes] of [api_old.py] from line 1150 on. *)
Definition save_all_changes (w : world) (dataset_path : option string)
    (commit_message : string) : M locals http_response :=
  try_except
    (match dataset_path with
     | None => ret ([("error", JStr "No dataset path found")], 404%Z)
     | Some dp =>
         if negb (PyStr.truthy dp)
         then ret ([("error", JStr "No dataset path found")], 404%Z)
         else save_all_changes_body w dp commit_message
     end)
    (fun e =>
       match e with
       | CalledProcessError _ _ _ err =>
           Some (ret ([("error", JStr ("Failed to save changes: " ++ err));
                       ("raw_error", JStr err)], 500%Z))
       | _ =>
           Some (ret ([("error", JStr ("Unexpected error saving changes: "
                                       ++ exn_str w e))], 500%Z))
       end).

Definition commitAll (w : world) (dataset_path : option string)
    (commit_message : string) : outcome http_response * list event :=
  call (save_all_changes w dataset_path commit_message) None.

End ApiOld.

(* ===================================================================== *)
(** ** [services/git_operations.py] *)
(* ===================================================================== *)

Module GitOperations.
Import Py.
Local Open Scope py_scope.

(** These methods keep no local that a handler reads later. *)
Definition G (A : Type) : Type := M unit A.

(** *** History queries *)

(** An entry of [get_commit_history]. *)
Module Oneline.
Record commit : Type := mk
  { hash : string; message : string; full_hash : string }.
End Oneline.

(** An entry of [get_detailed_git_log]. The source also stores
    [formatted_date] and [relative_date]; both are computed from [date]
    and the clock inside a [try] with a bare [except], so they decide
    neither which entries are appended nor their order. *)
Record CommitRecord : Type := mkCommitRecord
  { full_hash : string;
    short_hash : string;
    author_name : string;
    author_email : string;
    date : string;
    message : string;
    body : string }.

(** [_get_full_hash] *)
Definition _get_full_hash (w : world) (dataset_path short : string)
  : G string :=
  try_except
    (result <- subprocess_run w true ["git"; "rev-parse"; short]
                 dataset_path ;;
     ret (PyStr.strip (stdout result)))
    (except_CalledProcessError (fun _ _ _ _ => ret short)).

(** Lines 51-62: the loop over the lines of [git log --oneline]. *)
Fixpoint oneline_commits (w : world) (dataset_path : string)
    (lines : list string) : G (list Oneline.commit) :=
  match lines with
  | [] => ret []
  | line :: rest =>
      if PyStr.truthy (PyStr.strip line) then
        match PyStr.split1 " " line with
        | [commit_hash; msg] =>
            full <- _get_full_hash w dataset_path commit_hash ;;
            commits <- oneline_commits w dataset_path rest ;;
            ret (Oneline.mk commit_hash msg full :: commits)
        | _ => oneline_commits w dataset_path rest
        end
      else oneline_commits w dataset_path rest
  end.

(** [get_commit_history] *)
Definition get_commit_history (w : world) (dataset_path : string)
    (file_path : option string) (limit : Z) : G (list Oneline.commit) :=
  ex <- os_path_exists w dataset_path ;;
  if negb ex then
    raise (DatasetError ("Dataset path does not exist: " ++ dataset_path))
  else
    let cmd :=
      match file_path with
      | Some (String c p) =>
          ["git"; "log"; "--oneline"; "--follow"; "--"; String c p]
      | _ => ["git"; "log"; "--oneline"; "-n"; PyStr.str_of_Z limit]
      end in
    try_except
      (result <- subprocess_run w true cmd dataset_path ;;
       oneline_commits w dataset_path
         (PyStr.split PyStr.nl (PyStr.strip (stdout result))))
      (except_CalledProcessError (fun _ _ _ err =>
         raise (GitOperationError
                  ("Failed to get commit history: " ++ err)))).

(** Lines 100-130: one line of the detailed log. *)
Definition detailed_commit (line : string) : option CommitRecord :=
  match PyStr.split "|" line with
  | p0 :: p1 :: p2 :: p3 :: p4 :: p5 :: more =>
      Some (mkCommitRecord p0 p1 p2 p3 p4 p5
              (match more with p6 :: _ => p6 | [] => "" end))
  | _ => None
  end.

(** Lines 97-130: the loop over the lines of the detailed log. *)
Fixpoint detailed_commits (lines : list string) : list CommitRecord :=
  match lines with
  | [] => []
  | line :: rest =>
      if PyStr.truthy (PyStr.strip line) then
        match detailed_commit line with
        | Some c => c :: detailed_commits rest
        | None => detailed_commits rest
        end
      else detailed_commits rest
  end.

(** The argument vector of the detailed log, lines 88-93. *)
Definition detailed_log_cmd (limit : Z) : list string :=
  ["git"; "log"; "--pretty=format:%H|%h|%an|%ae|%ad|%s|%b"; "--date=iso";
   "-n"; PyStr.str_of_Z limit].

(** [get_detailed_git_log] *)
Definition get_detailed_git_log (w : world) (dataset_path : string)
    (limit : Z) : G (list CommitRecord) :=
  ex <- os_path_exists w dataset_path ;;
  if negb ex then
    raise (DatasetError ("Dataset path does not exist: " ++ dataset_path))
  else
    try_except
      (result <- subprocess_run w true (detailed_log_cmd limit)
                   dataset_path ;;
       ret (detailed_commits
              (PyStr.split PyStr.nl (PyStr.strip (stdout result)))))
      (except_CalledProcessError (fun _ _ _ err =>
         raise (GitOperationError
                  ("Failed to get detailed git log: " ++ err)))).

(** *** Restoring a file *)

(** [check_file_exists_in_commit] *)
Definition check_file_exists_in_commit (w : world)
    (dataset_path file_path commit_hash : string) : G bool :=
  ex <- os_path_exists w dataset_path ;;
  if negb ex then ret false
  else
    try_except
      (result <- subprocess_run w false
                   ["git"; "show"; commit_hash ++ ":" ++ file_path]
                   dataset_path ;;
       ret (returncode result =? 0)%Z)
      (except_Exception (fun _ => ret false)).

(** [a or b] on strings *)
Definition str_or (a b : string) : string :=
  if PyStr.truthy a then a else b.

(** The dictionary returned on success, lines 273-278. *)
Definition restored (file_path commit_hash : string) : jobject :=
  [("success", JBool true);
   ("message", JStr ("File " ++ file_path ++ " restored from commit "
                     ++ commit_hash));
   ("commit_hash", JStr commit_hash);
   ("file_path", JStr file_path)].

(** [restore_file_to_commit] *)
Definition restore_file_to_commit (w : world)
    (dataset_path file_path commit_hash : string)
    (commit_message : option string) : G jobject :=
  ex <- os_path_exists w dataset_path ;;
  if negb ex then
    raise (DatasetError ("Dataset path does not exist: " ++ dataset_path))
  else
    try_except
      (present <- check_file_exists_in_commit w dataset_path file_path
                    commit_hash ;;
       if negb present then
         raise (GitOperationError
                  ("File " ++ file_path ++ " does not exist in commit "
                   ++ commit_hash))
       else
       print ("Attempting to restore " ++ file_path ++ " from commit "
              ++ commit_hash) ;;;
       result <- subprocess_run w false
                   ["git"; "checkout"; commit_hash; "--"; file_path]
                   dataset_path ;;
       if negb (returncode result =? 0)%Z then
         let error_msg :=
           str_or (stderr result) (str_or (stdout result) "Unknown error") in
         raise (GitOperationError
                  ("Failed to restore file " ++ file_path ++ " from commit "
                   ++ commit_hash ++ ": " ++ error_msg))
       else
       let restored_file_path := PyStr.path_join dataset_path file_path in
       there <- os_path_exists w restored_file_path ;;
       if negb there then
         raise (GitOperationError
                  ("File " ++ file_path ++ " was not restored to "
                   ++ restored_file_path))
       else
       print ("Adding " ++ file_path ++ " to git") ;;;
       add_result <- subprocess_run w false ["git"; "add"; file_path]
                       dataset_path ;;
       (if negb (returncode add_result =? 0)%Z
        then print ("Warning: git add failed: " ++ stderr add_result)
        else ret tt) ;;;
       status_result <- subprocess_run w false
                          ["git"; "status"; "--porcelain"] dataset_path ;;
       print ("Git status before commit: " ++ stdout status_result) ;;;
       let commit_msg :=
         str_or (match commit_message with Some m => m | None => "" end)
                ("Restore " ++ file_path ++ " from commit " ++ commit_hash) in
       print ("Committing restoration with message: " ++ commit_msg) ;;;
       (if negb (PyStr.truthy (PyStr.strip (stdout status_result))) then
          print "No staged changes to commit, skipping commit step"
        else
          commit_result <- subprocess_run w false
                             ["git"; "commit"; "-m"; commit_msg]
                             dataset_path ;;
          if negb (returncode commit_result =? 0)%Z
          then print ("Warning: git commit failed: " ++ stderr commit_result)
          else ret tt) ;;;
       tracked <- os_path_exists w (PyStr.path_join dataset_path ".datalad") ;;
       (if tracked then
          print ("Saving to DataLad with message: " ++ commit_msg) ;;;
          try_except
            (datalad_result <- subprocess_run w false
                                 ["datalad"; "save"; "-m"; commit_msg]
                                 dataset_path ;;
             if negb (returncode datalad_result =? 0)%Z
             then print ("Warning: datalad save failed: "
                         ++ stderr datalad_result)
             else ret tt)
            (except_Exception (fun e =>
               print ("Warning: datalad save failed with exception: "
                      ++ exn_str w e)))
        else ret tt) ;;;
       ret (restored file_path commit_hash))
      (except_CalledProcessError (fun cmd rc out err =>
         let error_msg :=
           str_or err (str_or out (cpe_str w cmd rc)) in
         raise (GitOperationError ("Failed to restore file: " ++ error_msg)))).

(** One call of [restore_file_to_commit] by a fresh request. *)
Definition restore (w : world) (dataset_path file_path commit_hash : string)
    (commit_message : option string) : outcome jobject * list event :=
  call (restore_file_to_commit w dataset_path file_path commit_hash
          commit_message) tt.

End GitOperations.

(* ===================================================================== *)
(** ** [services/file_operations.py]: the directory tree and the per-stage
       status counts *)
(* ===================================================================== *)

Module FileOperations.
Import Py.

(** What lies below the dataset root: regular files and directories, in
    the order [os.listdir] gives them. A directory that cannot be listed
    has [readable = false]. *)
Inductive fs_entry : Type :=
| FsFile (name : string) (size : Z)
| FsDir (name : string) (readable : bool) (children : list fs_entry).

Definition entry_name (e : fs_entry) : string :=
  match e with FsFile n _ => n | FsDir n _ _ => n end.

(** Graph synthesis only reads. During one synthesis the dataset does
    not change (one operation per dataset at a time), so the answer to a
    query depends on the query alone: [dataset] is the listing of the
    dataset root ([None] when the path does not exist) and [query argv]
    answers a command run with the dataset root as working directory. *)
Record snapshot : Type := mkSnapshot
  { dataset : option (list fs_entry);
    query : list string -> response }.

(** An entry of the list [get_file_tree] returns. *)
Inductive tree_item : Type :=
| ItemFile (name path : string) (size : Z)
| ItemDir (name path : string) (children : list tree_item).

Definition is_file (i : tree_item) : bool :=
  match i with ItemFile _ _ _ => true | ItemDir _ _ _ => false end.

Definition str_in (s : string) (l : list string) : bool :=
  existsb (String.eqb s) l.

(** One round of the loop of [build_tree], lines 348-374: [None] for an
    entry that is skipped. An unreadable directory raises
    [PermissionError] in the recursive call, which returns the empty
    tree. *)
Fixpoint build_item (relative_path : string) (e : fs_entry)
  : option tree_item :=
  let item := entry_name e in
  let relative_item_path :=
    if PyStr.truthy relative_path
    then PyStr.path_join relative_path item else item in
  match e with
  | FsDir _ readable children =>
      if str_in item [".git"; ".datalad"] then None
      else
        Some (ItemDir item relative_item_path
                (if readable then
                   (fix build (l : list fs_entry) : list tree_item :=
                      match l with
                      | [] => []
                      | c :: l' =>
                          match build_item relative_item_path c with
                          | Some i => i :: build l'
                          | None => build l'
                          end
                      end) children
                 else []))
  | FsFile _ size =>
      if String.eqb item ".DS_Store" then None
      else Some (ItemFile item relative_item_path size)
  end.

(** [build_tree(dataset_path)] on the listing of a readable directory. *)
Fixpoint build_tree (relative_path : string) (entries : list fs_entry)
  : list tree_item :=
  match entries with
  | [] => []
  | e :: rest =>
      match build_item relative_path e with
      | Some i => i :: build_tree relative_path rest
      | None => build_tree relative_path rest
      end
  end.

(** [get_file_tree] *)
Definition get_file_tree (s : snapshot) (dataset_path : string)
  : outcome (list tree_item) :=
  match dataset s with
  | None =>
      Raise (DatasetError ("Dataset path does not exist: " ++ dataset_path))
  | Some entries => Return (build_tree "" entries)
  end.

(** [os.path.relpath] of a file below the walked directory. *)
Definition rel_join (rel name : string) : string :=
  if PyStr.truthy rel then rel ++ "/" ++ name else name.

(** The files [os.walk] meets below a directory, as paths relative to
    it: first the files of the directory itself, then those of each
    subdirectory in turn. A directory that cannot be listed is passed
    over. [.DS_Store] is skipped by the loop at lines 194-196. *)
Fixpoint walk_files (rel : string) (e : fs_entry) : list string :=
  match e with
  | FsFile _ _ => []
  | FsDir _ readable children =>
      if readable then
        (flat_map (fun c => match c with
                            | FsFile n _ =>
                                if String.eqb n ".DS_Store" then []
                                else [rel_join rel n]
                            | FsDir _ _ _ => []
                            end) children
         ++ (fix below (l : list fs_entry) : list string :=
               match l with
               | [] => []
               | c :: l' =>
                   (walk_files (rel_join rel (entry_name c)) c ++ below l')%list
               end) children)%list
      else []
  end.

(** [_check_file_in_git] *)
Definition _check_file_in_git (s : snapshot) (file_path : string) : bool :=
  match query s ["git"; "ls-files"; "--error-unmatch"; file_path] with
  | Completed rc _ _ => (rc =? 0)%Z
  | OSFailure _ => false
  end.

(** An entry of the list [_get_deleted_files] returns. *)
Record deleted_file : Type := mkDeleted
  { deleted_name : string; deleted_path : string }.

(** Lines 309-322: one line of the status report. *)
Definition deleted_of_line (line0 : string) : option deleted_file :=
  let line := PyStr.strip line0 in
  if PyStr.startswith "deleted:" line then
    match PyStr.split1 ":" line with
    | _ :: rest :: _ =>
        let file_info := PyStr.strip rest in
        let file_info :=
          if PyStr.contains "(" file_info
          then PyStr.strip (hd "" (PyStr.split "(" file_info))
          else file_info in
        Some (mkDeleted (PyStr.basename file_info) file_info)
    | _ => None
    end
  else None.

Fixpoint deleted_of_lines (lines : list string) : list deleted_file :=
  match lines with
  | [] => []
  | line :: rest =>
      match deleted_of_line line with
      | Some d => d :: deleted_of_lines rest
      | None => deleted_of_lines rest
      end
  end.

(** [_get_deleted_files] *)
Definition _get_deleted_files (s : snapshot) (stage_name : string)
  : list deleted_file :=
  match query s ["datalad"; "status"; stage_name] with
  | Completed rc out _ =>
      if (rc =? 0)%Z
      then deleted_of_lines (PyStr.split PyStr.nl (PyStr.strip out))
      else []
  | OSFailure _ => []
  end.

(** The counts in [metadata] of a stage that exists. The sizes, the
    modification time and the sorted file list next to them are not
    read by the graph synthesis. *)
Record stage_metadata : Type := mkMetadata
  { file_count : nat;
    tracked_files : nat;
    untracked_files : nat;
    deleted_files : nat }.

(** What [get_stage_files] returns when the dataset exists: for a
    missing stage directory a [metadata] without the tracking counts,
    otherwise a [metadata] with them. *)
Inductive stage_data : Type :=
| StageAbsent
| StagePresent (deleted : list deleted_file) (metadata : stage_metadata).

(** The entry at [os.path.join(dataset_path, stage_name)] for a stage
    name that is one path component. *)
Definition find_entry (entries : list fs_entry) (stage_name : string)
  : option fs_entry :=
  find (fun e => String.eqb (entry_name e) stage_name) entries.

(** The files counted for a stage, as the paths given to git: for ['.']
    the files directly in the root, otherwise every file below the
    stage directory. *)
Definition stage_git_paths (entries : list fs_entry) (stage_name : string)
    (stage : fs_entry) : list string :=
  if String.eqb stage_name "." then
    flat_map (fun c => match c with
                       | FsFile n _ =>
                           if String.eqb n ".DS_Store" then [] else [n]
                       | FsDir _ _ _ => []
                       end) entries
  else map (PyStr.path_join stage_name) (walk_files "" stage).

(** [get_stage_files]: [None] when the dataset path does not exist. The
    status text fetched at line 173 is not used afterwards. In this model
    [os.stat] and [os.walk] cannot fail on what the listing shows, so the
    [except Exception] at line 235 is never entered. *)
Definition get_stage_files (s : snapshot) (stage_name : string)
  : option stage_data :=
  match dataset s with
  | None => None
  | Some entries =>
      let stage :=
        if String.eqb stage_name "."
        then Some (FsDir "." true entries)
        else find_entry entries stage_name in
      match stage with
      | None => Some StageAbsent
      | Some st =>
          let deleted := _get_deleted_files s stage_name in
          let tracked :=
            map (_check_file_in_git s) (stage_git_paths entries stage_name st) in
          Some (StagePresent deleted
                  (mkMetadata
                     (List.length tracked)
                     (List.length (filter (fun b => b) tracked))
                     (List.length (filter negb tracked))
                     (List.length deleted)))
      end
  end.

End FileOperations.

(* ===================================================================== *)
(** ** [services/metadata_operations.py]: [create_dataflow_from_dataset] *)
(* ===================================================================== *)

Module MetadataOperations.
Import Py.
Import FileOperations.

(** The keys only a node of an existing directory has. *)
Record tracking : Type := mkTracking
  { tracked_files : nat;
    untracked_files : nat;
    deleted_files : nat;
    has_untracked : bool;
    has_deleted : bool }.

(** A node dictionary. [tracking_info] is [None] for the root and for
    the placeholders, whose dictionaries lack those keys. *)
Record StageNode : Type := mkNode
  { id : nat;
    label : string;
    type : string;
    path : string;
    color : string;
    description : string;
    file_count : nat;
    tracking_info : option tracking;
    is_central : bool }.

(** An edge dictionary. *)
Record StageEdge : Type := mkEdge
  { from : nat;
    to : nat;
    arrows : string;
    edge_label : string;
    edge_color : string }.

(** The [metadata] entry without [created_at], which is the clock. *)
Record graph_metadata : Type := mkGraphMetadata
  { dataset_path_of : string;
    workflow_type : string;
    total_stages : nat;
    total_connections : nat }.

Record dataflow : Type := mkDataflow
  { nodes : list StageNode;
    edges : list StageEdge;
    metadata : graph_metadata }.

(** A value of [directory_types] and of [missing_stages]. *)
Record stage_info : Type := mkInfo
  { info_color : string; info_type : string; info_description : string }.

(** Lines 173-179 *)
Definition directory_types : list (string * stage_info) :=
  [("raw_data", mkInfo "#87CEEB" "raw_data" "Raw data files");
   ("preprocessed", mkInfo "#90EE90" "preprocessed" "Preprocessed data files");
   ("scripts", mkInfo "#4CAF50" "scripts" "Analysis and processing scripts");
   ("results", mkInfo "#FFA07A" "results" "Final results and outputs");
   ("plots", mkInfo "#DDA0DD" "plots" "Generated visualizations")].

(** Lines 254-258 *)
Definition missing_stages : list (string * stage_info) :=
  [("scripts", mkInfo "#4CAF50" "scripts" "Analysis and processing scripts");
   ("results", mkInfo "#FFA07A" "results" "Final results and outputs");
   ("plots", mkInfo "#DDA0DD" "plots" "Generated visualizations")].

(** Line 289 *)
Definition basic_dirs : list string :=
  ["raw_data"; "preprocessed"; "scripts"; "results"; "plots"].

(** [d.get(k)] / [k in d] on a dictionary kept in insertion order. *)
Fixpoint dict_get {V} (k : string) (d : list (string * V)) : option V :=
  match d with
  | [] => None
  | (k', v) :: d' => if String.eqb k k' then Some v else dict_get k d'
  end.

(** [d[k] = v]: an existing key keeps its place, a new one goes last. *)
Fixpoint dict_set {V} (k : string) (v : V) (d : list (string * V))
  : list (string * V) :=
  match d with
  | [] => [(k, v)]
  | (k', v') :: d' =>
      if String.eqb k k' then (k, v) :: d' else (k', v') :: dict_set k v d'
  end.

Definition alert_color : string := "#FF6B6B".
Definition warning_color : string := "#FFA500".

(** Lines 211-218 *)
Definition node_color (base_color : string) (untracked_count deleted_count : nat)
  : string :=
  if (0 <? deleted_count)%nat then alert_color
  else if (0 <? untracked_count)%nat then warning_color
  else base_color.

(** Lines 220-232 *)
Definition node_label (name : string)
    (file_count untracked_count deleted_count : nat) : string :=
  let status_parts :=
    ((if (0 <? file_count)%nat
      then [(PyStr.str_of_nat file_count ++ " files")%string] else [])
     ++ (if (0 <? untracked_count)%nat
         then [(PyStr.str_of_nat untracked_count ++ " untracked")%string] else [])
     ++ (if (0 <? deleted_count)%nat
         then [(PyStr.str_of_nat deleted_count ++ " deleted")%string] else []))%list in
  match status_parts with
  | [] => name ++ PyStr.nl ++ "(0 files)"
  | _ => name ++ PyStr.nl ++ "(" ++ PyStr.join ", " status_parts ++ ")"
  end.

(** The variables the loops update: [nodes], [edges], [directory_nodes]
    and [node_id]. *)
Record builder : Type := mkBuilder
  { b_nodes : list StageNode;
    b_edges : list StageEdge;
    directory_nodes : list (string * nat);
    node_id : nat }.

(** Lines 207-209: the three counts read from [stage_data]; a
    [metadata] without them raises [KeyError]. *)
Definition stage_counts (sd : option stage_data)
  : outcome (nat * nat * nat) :=
  match sd with
  | None => Return (0, 0, 0)%nat
  | Some StageAbsent => Raise (PyError "'tracked_files'")
  | Some (StagePresent _ m) =>
      Return (FileOperations.tracked_files m,
              FileOperations.untracked_files m,
              FileOperations.deleted_files m)
  end.

(** Lines 199-251: one round of the loop over [file_tree]. *)
Definition directory_round (s : snapshot) (b : builder) (item : tree_item)
  : outcome builder :=
  match item with
  | ItemFile _ _ _ => Return b
  | ItemDir name item_path children =>
      match dict_get name directory_types with
      | None => Return b
      | Some dir_type =>
          let file_count := List.length (filter is_file children) in
          match stage_counts (get_stage_files s name) with
          | Raise e => Raise e
          | Return (tracked_count, untracked_count, deleted_count) =>
              let node :=
                mkNode (node_id b)
                  (node_label name file_count untracked_count deleted_count)
                  (info_type dir_type) item_path
                  (node_color (info_color dir_type)
                     untracked_count deleted_count)
                  (info_description dir_type) file_count
                  (Some (mkTracking tracked_count untracked_count
                           deleted_count (0 <? untracked_count)%nat
                           (0 <? deleted_count)%nat))
                  false in
              Return (mkBuilder (b_nodes b ++ [node])%list (b_edges b)
                        (dict_set name (node_id b) (directory_nodes b))
                        (S (node_id b)))
          end
      end
  end.

Fixpoint directory_loop (s : snapshot) (b : builder)
    (file_tree : list tree_item) : outcome builder :=
  match file_tree with
  | [] => Return b
  | item :: rest =>
      match directory_round s b item with
      | Raise e => Raise e
      | Return b' => directory_loop s b' rest
      end
  end.

(** The placeholder dictionary of lines 262-271 and 292-301. *)
Definition placeholder (node_id : nat) (stage_name : string)
    (info : stage_info) : StageNode :=
  mkNode node_id (stage_name ++ PyStr.nl ++ "(0 files)") (info_type info)
    (stage_name ++ "/") (info_color info) (info_description info) 0 None
    false.

(** Lines 260-274 *)
Fixpoint missing_loop (b : builder) (stages : list (string * stage_info))
  : builder :=
  match stages with
  | [] => b
  | (stage_name, info) :: rest =>
      match dict_get stage_name (directory_nodes b) with
      | Some _ => missing_loop b rest
      | None =>
          missing_loop
            (mkBuilder (b_nodes b ++ [placeholder (node_id b) stage_name info])%list
               (b_edges b)
               (dict_set stage_name (node_id b) (directory_nodes b))
               (S (node_id b)))
            rest
      end
  end.

(** The edge dictionary of lines 278-284 and 305-311. *)
Definition contains_edge (central_node_id dir_node_id : nat) : StageEdge :=
  mkEdge central_node_id dir_node_id "to" "contains" "#666".

(** Lines 277-285 *)
Definition connect (central_node_id : nat) (b : builder) : builder :=
  mkBuilder (b_nodes b)
    (b_edges b
     ++ map (fun kv => contains_edge central_node_id (snd kv))
          (directory_nodes b))%list
    (directory_nodes b) (node_id b).

(** Lines 288-313 *)
Fixpoint basic_loop (central_node_id : nat) (b : builder)
    (dirs : list string) : builder :=
  match dirs with
  | [] => b
  | dir_name :: rest =>
      let dir_info :=
        match dict_get dir_name directory_types with
        | Some i => i
        | None => mkInfo "#87CEEB" "raw_data" (dir_name ++ " directory")
        end in
      basic_loop central_node_id
        (mkBuilder (b_nodes b ++ [placeholder (node_id b) dir_name dir_info])%list
           (b_edges b ++ [contains_edge central_node_id (node_id b)])%list
           (directory_nodes b) (S (node_id b)))
        rest
  end.

(** Lines 182-191 *)
Definition central_node (node_id : nat) (dataset_path : string) : StageNode :=
  mkNode node_id "Dataset Root" "dataset_root" dataset_path "#4CAF50"
    "Root of the research dataset" 0 None true.

(** Lines 162-330, the body of the [try]. *)
Definition build_dataflow (s : snapshot) (dataset_path : string)
  : outcome dataflow :=
  match get_file_tree s dataset_path with
  | Raise e => Raise e
  | Return file_tree =>
      let node_id := 1%nat in
      let central_node_id := node_id in
      let b0 := mkBuilder [central_node node_id dataset_path] [] []
                  (S node_id) in
      match directory_loop s b0 file_tree with
      | Raise e => Raise e
      | Return b1 =>
          let b2 := missing_loop b1 missing_stages in
          let b3 := connect central_node_id b2 in
          let b4 :=
            if (List.length (b_nodes b3) =? 1)%nat
            then basic_loop central_node_id b3 basic_dirs else b3 in
          Return (mkDataflow (b_nodes b4) (b_edges b4)
                    (mkGraphMetadata dataset_path "spider_web_directory"
                       (List.length (b_nodes b4))
                       (List.length (b_edges b4))))
      end
  end.

(** [str(e)] of what the body can raise: a [KeyError] or a
    [DatasetError]. No command is run with [check=True] here, so a
    [CalledProcessError] does not occur. *)
Definition error_text (e : exn) : string :=
  match e with
  | CalledProcessError _ _ _ _ => ""
  | PyError msg => msg
  | GitOperationError msg => msg
  | DatasetError msg => msg
  end.

(** [create_dataflow_from_dataset]. The constructor call at line 164
    only probes for DataLad and keeps a flag that is not read here. *)
Definition create_dataflow_from_dataset (s : snapshot)
    (dataset_path : string) : outcome dataflow :=
  match dataset s with
  | None =>
      Raise (DatasetError ("Dataset path does not exist: " ++ dataset_path))
  | Some _ =>
      match build_dataflow s dataset_path with
      | Return g => Return g
      | Raise e =>
          Raise (DatasetError ("Failed to create dataflow from dataset: "
                               ++ error_text e))
      end
  end.

End MetadataOperations.

(* ===================================================================== *)
(** ** What the log command prints *)
(* ===================================================================== *)

Module GitLog.
Import GitOperations.

(** The format string of line 90, [%H|%h|%an|%ae|%ad|%s|%b], expanded
    for one commit: the seven placeholders with a bar between them. The
    body [%b] is the commit message below its subject line, as text of
    any number of lines. *)
Definition format_commit (c : CommitRecord) : string :=
  full_hash c ++ "|" ++ short_hash c ++ "|" ++ author_name c ++ "|"
  ++ author_email c ++ "|" ++ date c ++ "|" ++ message c ++ "|" ++ body c.

(** [git log --pretty=format:... -n limit] on a history given newest
    first: the first [limit] commits, one entry after the other with a
    newline between two entries. *)
Definition git_log (history : list CommitRecord) (limit : nat) : string :=
  PyStr.join PyStr.nl (map format_commit (firstn limit history)).


(** A line the loop turns into an entry: not blank, six fields or
    more. *)
Definition entry_line (line : string) : Prop :=
  PyStr.truthy (PyStr.strip line) = true
  /\ exists c, detailed_commit line = Some c.

(** No character of [s] is [c]. *)
Fixpoint free_of (c : ascii) (s : string) : bool :=
  match s with
  | "" => true
  | String x s' => negb (Ascii.eqb x c) && free_of c s'
  end.

Definition bar : ascii := "|"%char.
Definition newline : ascii := ascii_of_nat 10.

Definition tidy_field (s : string) : bool :=
  free_of bar s && free_of newline s.

(** A commit whose log entry is one line that splits back into its seven
    fields: no field holds a bar or a newline, the hash starts with a
    visible character and the body does not end in white space. *)
Definition tidy (c : CommitRecord) : Prop :=
  tidy_field (full_hash c) = true /\ tidy_field (short_hash c) = true
  /\ tidy_field (author_name c) = true /\ tidy_field (author_email c) = true
  /\ tidy_field (date c) = true /\ tidy_field (message c) = true
  /\ tidy_field (body c) = true
  /\ (exists x r, full_hash c = String x r /\ PyStr.is_space x = false)
  /\ PyStr.rstrip (body c) = body c.

(** The hash [get_commit_history] reads from one line of
    [git log --oneline], if it reads one. *)
Definition oneline_hash (line : string) : list string :=
  if PyStr.truthy (PyStr.strip line) then
    match PyStr.split1 " " line with
    | [commit_hash; _] => [commit_hash]
    | _ => []
    end
  else [].

End GitLog.

(* ===================================================================== *)
(** ** Concrete datasets and environments *)
(* ===================================================================== *)

Module Scenarios.
Import Py.

Definition argv_eqb (a b : list string) : bool :=
  if list_eq_dec string_dec a b then true else false.

(** An environment in which every path exists and a command is answered
    by the first rule for its argument vector, whatever happened
    before. *)
Fixpoint answer (rules : list (list string * response))
    (default : response) (argv : list string) : response :=
  match rules with
  | [] => default
  | (a, r) :: rules' =>
      if argv_eqb a argv then r else answer rules' default argv
  end.

Definition plain_cpe_str (cmd : list string) (rc : Z) : string :=
  "Command '" ++ PyStr.join " " cmd ++ "' returned non-zero exit status "
  ++ PyStr.str_of_Z rc ++ ".".

Definition scripted (rules : list (list string * response))
    (default : response) : world :=
  mkWorld (fun _ argv _ => answer rules default argv)
          (fun _ _ => true) plain_cpe_str.

Definition ds : string := "/tmp/ds".

(** A clean dataset: the status report is empty. *)
Definition clean_world : world :=
  scripted [(["datalad"; "status"], Completed 0 "" "")]
           (Completed 1 "" "unexpected command").

(** A dataset with one modified file whose recursive save fails and
    whose flat save succeeds. *)
Definition flat_only_world : world :=
  scripted
    [(["datalad"; "status"],
      Completed 0 (" modified: results/out.csv (file)" ++ PyStr.nl) "");
     (["datalad"; "save"; "-r"; "-m"; "Save all changes"],
      Completed 1 "" "recursive save refused");
     (["datalad"; "save"; "-m"; "Save all changes"],
      Completed 0 "save(ok): . (dataset)" "")]
    (Completed 1 "" "unexpected command").

(** Has a DataLad save been run inside the nested unit [sub1]? *)
Definition saved_inside (h : list event) : bool :=
  existsb (fun e => match e with
                    | Run ("datalad" :: "save" :: _) cwd =>
                        String.eqb cwd "/tmp/ds/sub1"
                    | _ => false
                    end) h.

(** A dataset with a modified nested unit [sub1]: saving at the top
    fails as long as [sub1] itself holds unsaved changes, saving inside
    [sub1] succeeds, and a flat save at the top would succeed after
    that. *)
Definition nested_world : world :=
  mkWorld
    (fun h argv cwd =>
       if argv_eqb (firstn 2 argv) ["datalad"; "status"] then
         Completed 0 (" modified: sub1 (dataset)" ++ PyStr.nl) ""
       else if String.eqb cwd "/tmp/ds/sub1" then
         Completed 0 "save(ok): . (dataset)" ""
       else if saved_inside h
               && argv_eqb argv ["datalad"; "save"; "-m"; "Save all changes"]
       then Completed 0 "save(ok): . (dataset)" ""
       else Completed 1 "" "sub1 has unsaved changes")
    (fun _ _ => true) plain_cpe_str.

(** A dataset in which [old.csv] is not part of revision [abc1234]. *)
Definition missing_file_world : world :=
  scripted
    [(["git"; "show"; "abc1234:old.csv"],
      Completed 128 "" "fatal: path 'old.csv' does not exist in 'abc1234'")]
    (Completed 0 "" "").

(** A DataLad dataset in which git works and [datalad save] fails. *)
Definition datalad_fails_world : world :=
  scripted
    [(["git"; "status"; "--porcelain"], Completed 0 "M  data.csv" "");
     (["datalad"; "save"; "-m"; "Restore data.csv from commit abc1234"],
      Completed 1 "" "save(error)")]
    (Completed 0 "" "").

(** A dataset in which the checkout works and both [git add] and
    [git commit] exit non-zero. *)
Definition git_fails_world : world :=
  scripted
    [(["git"; "add"; "data.csv"], Completed 128 "" "fatal: index locked");
     (["git"; "status"; "--porcelain"], Completed 0 " M data.csv" "");
     (["git"; "commit"; "-m"; "Restore data.csv from commit abc1234"],
      Completed 1 "" "nothing added to commit")]
    (Completed 0 "" "").

(** The events of the run in [datalad_fails_world] up to the
    DataLad save. *)
Definition before_datalad_save : list event :=
  [Run ["git"; "show"; "abc1234:data.csv"] "/tmp/ds";
   Print "Attempting to restore data.csv from commit abc1234";
   Run ["git"; "checkout"; "abc1234"; "--"; "data.csv"] "/tmp/ds";
   Print "Adding data.csv to git";
   Run ["git"; "add"; "data.csv"] "/tmp/ds";
   Run ["git"; "status"; "--porcelain"] "/tmp/ds";
   Print "Git status before commit: M  data.csv";
   Print "Committing restoration with message: Restore data.csv from commit abc1234";
   Run ["git"; "commit"; "-m"; "Restore data.csv from commit abc1234"]
     "/tmp/ds";
   Print "Saving to DataLad with message: Restore data.csv from commit abc1234"].

(** The dataset of the synthesis scenario: [results/] holds one tracked
    and one untracked file, no other stage directory exists. *)
Definition results_only_listing : list FileOperations.fs_entry :=
  [FileOperations.FsDir ".git" true [FileOperations.FsFile "HEAD" 23];
   FileOperations.FsDir ".datalad" true [FileOperations.FsFile "config" 60];
   FileOperations.FsDir "results" true
     [FileOperations.FsFile "summary.csv" 120;
      FileOperations.FsFile "draft.csv" 80]].

Definition results_only : FileOperations.snapshot :=
  FileOperations.mkSnapshot (Some results_only_listing)
    (answer
       [(["git"; "ls-files"; "--error-unmatch"; "results/summary.csv"],
         Completed 0 ("results/summary.csv" ++ PyStr.nl) "");
        (["datalad"; "status"; "results"],
         Completed 0 ("untracked: results/draft.csv (file)" ++ PyStr.nl) "")]
       (Completed 1 "" "error: pathspec did not match any file(s) known to git")).

(** A dataset whose [raw_data/] lost one tracked file and gained an
    untracked one. *)
Definition deleted_and_untracked : FileOperations.snapshot :=
  FileOperations.mkSnapshot
    (Some [FileOperations.FsDir "raw_data" true
             [FileOperations.FsFile "new.csv" 10]])
    (answer
       [(["datalad"; "status"; "raw_data"],
         Completed 0 ("  deleted: raw_data/old.csv (file)" ++ PyStr.nl
                      ++ "untracked: raw_data/new.csv (file)" ++ PyStr.nl) "")]
       (Completed 1 "" "error: pathspec did not match any file(s) known to git")).

(** The graph synthesized for [results_only]. *)
Definition results_only_graph : MetadataOperations.dataflow :=
  MetadataOperations.mkDataflow
    [MetadataOperations.central_node 1 ds;
     MetadataOperations.mkNode 2
       ("results" ++ PyStr.nl ++ "(2 files, 1 untracked)") "results"
       "results" "#FFA500" "Final results and outputs" 2
       (Some (MetadataOperations.mkTracking 1 1 0 true false)) false;
     MetadataOperations.placeholder 3 "scripts"
       (MetadataOperations.mkInfo "#4CAF50" "scripts"
          "Analysis and processing scripts");
     MetadataOperations.placeholder 4 "plots"
       (MetadataOperations.mkInfo "#DDA0DD" "plots"
          "Generated visualizations")]
    [MetadataOperations.contains_edge 1 2;
     MetadataOperations.contains_edge 1 3;
     MetadataOperations.contains_edge 1 4]
    (MetadataOperations.mkGraphMetadata ds "spider_web_directory" 4 3).

(** A history of five commits, newest first. The body of the newest
    one quotes a table row. *)
Definition five_commits : list GitOperations.CommitRecord :=
  [GitOperations.mkCommitRecord
     "9c1d5a7e3b2f4c6d8e0f1a2b3c4d5e6f7a8b9c0d" "9c1d5a7" "Ada Park"
     "ada@example.org" "2024-03-05 10:12:44 +0100" "Add summary table"
     ("Columns of results/table.md:" ++ PyStr.nl
      ++ "| run | n | mean | sd | p |" ++ PyStr.nl);
   GitOperations.mkCommitRecord
     "4b8e2f6a1c3d5e7f9a0b1c2d3e4f5a6b7c8d9e0f" "4b8e2f6" "Ada Park"
     "ada@example.org" "2024-03-04 16:40:02 +0100" "Fit the model" "";
   GitOperations.mkCommitRecord
     "e7a3c9b5d1f20468ace13579bdf02468ace13579" "e7a3c9b" "Ben Ito"
     "ben@example.org" "2024-03-03 09:05:31 +0100" "Clean raw data" "";
   GitOperations.mkCommitRecord
     "1f0e9d8c7b6a59483726150413f2e1d0c9b8a796" "1f0e9d8" "Ben Ito"
     "ben@example.org" "2024-03-02 18:22:10 +0100" "Import raw data" "";
   GitOperations.mkCommitRecord
     "a0b1c2d3e4f5061728394a5b6c7d8e9f00112233" "a0b1c2d" "Ada Park"
     "ada@example.org" "2024-03-01 08:00:00 +0100" "[DATALAD] new dataset"
     ""].

(** A dataset with the history [five_commits], asked for its three
    newest commits. *)
Definition history_world : world :=
  scripted
    [(GitOperations.detailed_log_cmd 3,
      Completed 0 (GitLog.git_log five_commits 3) "")]
    (Completed 128 "" "fatal: unexpected command").

End Scenarios.

(* ===================================================================== *)
(** ** Vocabulary of the statements *)
(* ===================================================================== *)

Module Traces.
Import Py.

(** The first event satisfying [p], with what came before and after. *)
Fixpoint split_at (p : event -> bool) (l : list event)
  : option (list event * event * list event) :=
  match l with
  | [] => None
  | e :: l' =>
      if p e then Some ([], e, l')
      else match split_at p l' with
           | Some (h, x, r) => Some (e :: h, x, r)
           | None => None
           end
  end.

Definition is_datalad_save (e : event) : bool :=
  match e with Run ("datalad" :: "save" :: _) _ => true | _ => false end.

Definition is_git_add (e : event) : bool :=
  match e with Run ("git" :: "add" :: _) _ => true | _ => false end.

Definition is_git_commit (e : event) : bool :=
  match e with Run ("git" :: "commit" :: _) _ => true | _ => false end.

(** The file is part of the revision: [git show revision:path], asked
    first, exits with 0. *)
Definition file_in_revision (w : world) (dp fp ch : string) : bool :=
  match respond w [] ["git"; "show"; ch ++ ":" ++ fp] dp with
  | Completed rc _ _ => (rc =? 0)%Z
  | OSFailure _ => false
  end.

(** Every command can be started: git and DataLad are installed and the
    working directory can be entered. What remains open is the exit
    code. *)
Definition always_launches (w : world) : Prop :=
  forall h argv cwd, exists rc out err,
    respond w h argv cwd = Completed rc out err.

End Traces.

Module Graphs.
Import MetadataOperations.

(** What the loops of [create_dataflow_from_dataset] keep true of their
    variables: the root comes first and is the only central node, ids
    count from 1 in list order, [node_id] is the next free id, and the
    ids recorded in [directory_nodes] are distinct ids of nodes after
    the root. *)
Record well_formed (dp : string) (b : builder) : Prop := mkWF
  { wf_root : exists rest,
      b_nodes b = central_node 1 dp :: rest
      /\ Forall (fun n => is_central n = false) rest;
    wf_ids : map id (b_nodes b) = seq 1 (List.length (b_nodes b));
    wf_next : node_id b = S (List.length (b_nodes b));
    wf_range : Forall (fun v => 2 <= v < node_id b)%nat
                 (map snd (directory_nodes b));
    wf_nodup : NoDup (map snd (directory_nodes b)) }.

(** The node a round of the directory loop adds for a known directory
    at path [p] whose status counts are [t], [u] and [d]. *)
Definition node_of_directory (n : StageNode) (p : string) (info : stage_info)
    (t u d : nat) : Prop :=
  path n = p /\ type n = info_type info /\ is_central n = false
  /\ tracking_info n = Some (mkTracking t u d (0 <? u)%nat (0 <? d)%nat)
  /\ color n = node_color (info_color info) u d.

End Graphs.

(* ===================================================================== *)
(** ** [services/git_operations.py]: further queries and operations *)
(* ===================================================================== *)

Module GitQueries.
Import Py.
Import GitOperations.
Local Open Scope py_scope.

(** Lines 161-172 and 179-190: the entries read from one [git log
    --oneline] run whose exit code is not checked. *)
Definition log_entries (w : world) (dataset_path : string)
    (result : CompletedProcess) : G (list Oneline.commit) :=
  if (returncode result =? 0)%Z && PyStr.truthy (PyStr.strip (stdout result))
  then oneline_commits w dataset_path
         (PyStr.split PyStr.nl (PyStr.strip (stdout result)))
  else ret [].

(** The two argument vectors of [get_file_commit_history]. *)
Definition follow_cmd (file_path : string) (limit : Z) : list string :=
  ["git"; "log"; "--oneline"; "--follow"; "-n"; PyStr.str_of_Z limit; "--";
   file_path].

Definition no_follow_cmd (file_path : string) (limit : Z) : list string :=
  ["git"; "log"; "--oneline"; "-n"; PyStr.str_of_Z limit; "--"; file_path].

(** [get_file_commit_history] *)
Definition get_file_commit_history (w : world)
    (dataset_path file_path : string) (limit : Z)
  : G (list Oneline.commit) :=
  ex <- os_path_exists w dataset_path ;;
  if negb ex then
    raise (DatasetError ("Dataset path does not exist: " ++ dataset_path))
  else
    try_except
      (result <- subprocess_run w false (follow_cmd file_path limit)
                   dataset_path ;;
       commits <- log_entries w dataset_path result ;;
       match commits with
       | [] =>
           result_no_follow <- subprocess_run w false
                                 (no_follow_cmd file_path limit)
                                 dataset_path ;;
           log_entries w dataset_path result_no_follow
       | _ :: _ => ret commits
       end)
      (except_Exception (fun e =>
         let text := exn_str w e in
         if PyStr.contains "does not exist" text
            || PyStr.contains "fatal: bad revision" text
         then ret []
         else raise (GitOperationError
                       ("Failed to get file commit history: " ++ text)))).

(** [get_file_content_at_commit] *)
Definition get_file_content_at_commit (w : world)
    (dataset_path commit_hash file_path : string) : G string :=
  ex <- os_path_exists w dataset_path ;;
  if negb ex then
    raise (DatasetError ("Dataset path does not exist: " ++ dataset_path))
  else
    try_except
      (result <- subprocess_run w true
                   ["git"; "show"; commit_hash ++ ":" ++ file_path]
                   dataset_path ;;
       ret (stdout result))
      (except_CalledProcessError (fun _ _ _ err =>
         raise (GitOperationError ("Failed to get file content: " ++ err)))).

(** An entry of [get_commit_files]. *)
Module FileChange.
Record t : Type := mk
  { path : string;
    status : string;
    change_type : string;
    size : option Z }.
End FileChange.

(** Lines 366-376 *)
Definition change_type_of (status : string) : string :=
  if String.eqb status "A" then "Added"
  else if String.eqb status "M" then "Modified"
  else if String.eqb status "D" then "Deleted"
  else if String.eqb status "R" then "Renamed"
  else status.

(** The tab character. *)
Definition tab : string := String (ascii_of_nat 9) "".

Section CommitFiles.
Variable w : world.

(** [os.path.getsize] of a path that exists, given what happened so
    far; the environment record does not hold sizes. *)
Variable getsize : list event -> string -> Z.

Definition os_path_getsize (p : string) : G Z :=
  fun l h => (Return (getsize h p), l, h).

(** Lines 359-390: the loop over the lines of [git show --name-status]. *)
Fixpoint commit_file_entries (dataset_path : string) (lines : list string)
  : G (list FileChange.t) :=
  match lines with
  | [] => ret []
  | line :: rest =>
      if PyStr.truthy (PyStr.strip line) then
        match PyStr.split tab line with
        | [status; file_path] =>
            file_size <-
              (if negb (String.eqb status "D") then
                 let full_path := PyStr.path_join dataset_path file_path in
                 ex <- os_path_exists w full_path ;;
                 if ex then
                   sz <- os_path_getsize full_path ;;
                   ret (Some sz)
                 else ret None
               else ret None) ;;
            files <- commit_file_entries dataset_path rest ;;
            ret (FileChange.mk file_path status (change_type_of status)
                   file_size :: files)
        | _ => commit_file_entries dataset_path rest
        end
      else commit_file_entries dataset_path rest
  end.

(** [get_commit_files] *)
Definition get_commit_files (dataset_path commit_hash : string)
  : G (list FileChange.t) :=
  ex <- os_path_exists w dataset_path ;;
  if negb ex then
    raise (DatasetError ("Dataset path does not exist: " ++ dataset_path))
  else
    try_except
      (result <- subprocess_run w true
                   ["git"; "show"; "--name-status"; "--pretty=format:";
                    commit_hash] dataset_path ;;
       commit_file_entries dataset_path
         (PyStr.split PyStr.nl (PyStr.strip (stdout result))))
      (except_CalledProcessError (fun _ _ _ err =>
         raise (GitOperationError ("Failed to get commit files: " ++ err)))).

End CommitFiles.

(** [revert_commit] *)
Definition revert_commit (w : world) (dataset_path commit_hash : string)
    (commit_message : option string) : G jobject :=
  ex <- os_path_exists w dataset_path ;;
  if negb ex then
    raise (DatasetError ("Dataset path does not exist: " ++ dataset_path))
  else
    try_except
      (result <- subprocess_run w true
                   ["git"; "revert"; "--no-edit"; commit_hash] dataset_path ;;
       (match commit_message with
        | Some (String c m) =>
            _r <- subprocess_run w true
                    ["git"; "commit"; "--amend"; "-m"; String c m]
                    dataset_path ;;
            ret tt
        | _ => ret tt
        end) ;;;
       ret [("success", JBool true);
            ("message", JStr ("Successfully reverted commit " ++ commit_hash));
            ("output", JStr (stdout result))])
      (except_CalledProcessError (fun _ _ _ err =>
         raise (GitOperationError ("Failed to revert commit: " ++ err)))).

(** [get_current_branch] *)
Definition get_current_branch (w : world) (dataset_path : string) : G string :=
  ex <- os_path_exists w dataset_path ;;
  if negb ex then
    raise (DatasetError ("Dataset path does not exist: " ++ dataset_path))
  else
    try_except
      (result <- subprocess_run w true ["git"; "branch"; "--show-current"]
                   dataset_path ;;
       ret (PyStr.strip (stdout result)))
      (except_CalledProcessError (fun _ _ _ _ =>
         try_except
           (result <- subprocess_run w true ["git"; "rev-parse"; "HEAD"]
                        dataset_path ;;
            ret ("HEAD (" ++ substring 0 8 (PyStr.strip (stdout result))
                 ++ ")"))
           (except_CalledProcessError (fun _ _ _ _ => ret "Unknown")))).

End GitQueries.

(* ===================================================================== *)
(** ** [routes/api/file_api.py]: [restore_file] *)
(* ===================================================================== *)

Module FileApi.
Import Py.
Import GitOperations.
Import DataflowApi.
Local Open Scope py_scope.

(** [d.get(k)] on a dictionary literal. *)
Fixpoint jget (k : string) (o : jobject) : option json :=
  match o with
  | [] => None
  | (k', v) :: o' => if String.eqb k k' then Some v else jget k o'
  end.

(** Truth value of what [d.get(k)] returns. *)
Definition jtruthy (v : option json) : bool :=
  match v with
  | None => false
  | Some (JStr s) => PyStr.truthy s
  | Some (JBool b) => b
  | Some (JInt z) => negb (z =? 0)%Z
  | Some (JStrs l) => match l with [] => false | _ => true end
  end.

(** Truth value of a request field: absent, null and empty are false. *)
Definition given (v : option string) : bool :=
  match v with Some s => PyStr.truthy s | None => false end.

Definition text_of (v : option string) : string :=
  match v with Some s => s | None => "" end.

(** [restore_file] from line 219 on, after the dataflow was found and
    the access check passed: [file_path] and [commit_hash] are the
    fields read from the request at lines 216-217, [dataset_path] is
    [dataflow.project.dataset_path]. *)
Definition restore_file (w : world) (file_path commit_hash : option string)
    (dataset_path : option string) : G http_response :=
  if negb (given file_path) || negb (given commit_hash) then
    ret ([("error", JStr "Both file_path and commit_hash are required")],
         400%Z)
  else
    try_except
      (if negb (given dataset_path) then
         ret ([("error", JStr "No dataset path found")], 404%Z)
       else
         result <- restore_file_to_commit w (text_of dataset_path)
                     (text_of file_path) (text_of commit_hash) None ;;
         if jtruthy (jget "success" result) then
           ret (jsonify
                  [("success", JBool true);
                   ("message",
                    JStr ("File " ++ text_of file_path
                          ++ " restored from commit " ++ text_of commit_hash));
                   ("output", match jget "output" result with
                              | Some v => v
                              | None => JStr ""
                              end)])
         else
           ret ([("error", match jget "error" result with
                           | Some v => v
                           | None => JStr "Failed to restore file"
                           end)], 500%Z))
      (except_Exception (fun e =>
         ret ([("error", JStr (exn_str w e))], 500%Z))).

(** One request to the route. *)
Definition restore_request (w : world) (file_path commit_hash : option string)
    (dataset_path : option string) : outcome http_response * list event :=
  call (restore_file w file_path commit_hash dataset_path) tt.

End FileApi.

(* ===================================================================== *)
(** ** Names in a file tree *)
(* ===================================================================== *)

Module TreeNames.
Import FileOperations.

(** The names of the directories of an item, at every depth. *)
Fixpoint item_dirs (i : tree_item) : list string :=
  match i with
  | ItemFile _ _ _ => []
  | ItemDir n _ children =>
      n :: (fix below (l : list tree_item) : list string :=
              match l with
              | [] => []
              | c :: l' => (item_dirs c ++ below l')%list
              end) children
  end.

(** The names of the files of an item, at every depth. *)
Fixpoint item_files (i : tree_item) : list string :=
  match i with
  | ItemFile n _ _ => [n]
  | ItemDir _ _ children =>
      (fix below (l : list tree_item) : list string :=
         match l with
         | [] => []
         | c :: l' => (item_files c ++ below l')%list
         end) children
  end.

(** The names of the directories at the top of a tree. *)
Definition top_dirs (tree : list tree_item) : list string :=
  flat_map (fun i => match i with
                     | ItemDir n _ _ => [n]
                     | ItemFile _ _ _ => []
                     end) tree.

(** None of the names the tree builder leaves out occurs in the item. *)
Definition clean_names (i : tree_item) : Prop :=
  ~ In ".git" (item_dirs i) /\ ~ In ".datalad" (item_dirs i)
  /\ ~ In ".DS_Store" (item_files i).

End TreeNames.

(* ===================================================================== *)
(** ** A second invariant of the graph builder *)
(* ===================================================================== *)

Module GraphsMore.
Import MetadataOperations.

(** The ids recorded in [directory_nodes] are the ids of the nodes
    after the root, in the same order. *)
Definition recorded (b : builder) : Prop :=
  b_nodes b <> []
  /\ map snd (directory_nodes b) = map id (tl (b_nodes b)).

End GraphsMore.

(* ===================================================================== *)
(** ** Further vocabulary *)
(* ===================================================================== *)

Module TracesMore.
Import Py.

Definition is_git_status (e : event) : bool :=
  match e with Run ("git" :: "status" :: _) _ => true | _ => false end.

Definition is_git_log (e : event) : bool :=
  match e with Run ("git" :: "log" :: _) _ => true | _ => false end.

(** Staging, committing and saving: what [restore_file_to_commit] does
    after the file was put back. *)
Definition is_persist (e : event) : bool :=
  Traces.is_git_add e || Traces.is_git_commit e || Traces.is_datalad_save e.

(** [commit_message or f"Restore {file_path} from commit {commit_hash}"] *)
Definition restore_message (msg : option string) (fp ch : string) : string :=
  match msg with
  | Some (String c s) => String c s
  | _ => "Restore " ++ fp ++ " from commit " ++ ch
  end.

End TracesMore.

(* ===================================================================== *)
(** ** Further concrete datasets and environments *)
(* ===================================================================== *)

Module ScenariosMore.
Import Py.
Import Scenarios.

(** A dataset in which the file is part of the revision and the
    checkout fails without a word. *)
Definition checkout_fails_world : world :=
  scripted
    [(["git"; "checkout"; "abc1234"; "--"; "data.csv"], Completed 1 "" "")]
    (Completed 0 "" "").

(** A dataset whose file already has the content of the revision: the
    status after staging is empty. *)
Definition unchanged_file_world : world :=
  scripted [] (Completed 0 "" "").

(** A directory that is no dataset: the status query fails. *)
Definition broken_status_world : world :=
  scripted
    [(["datalad"; "status"],
      Completed 1 "" "no installed dataset found")]
    (Completed 0 "" "").

(** A dataset with one modified file whose recursive save succeeds. *)
Definition recursive_ok_world : world :=
  scripted
    [(["datalad"; "status"],
      Completed 0 (" modified: results/out.csv (file)" ++ PyStr.nl) "")]
    (Completed 0 "save(ok): . (dataset)" "").

(** A dataset with a modified nested unit in which no save works. *)
Definition nothing_saves_world : world :=
  scripted
    [(["datalad"; "status"],
      Completed 0 (" modified: sub1 (dataset)" ++ PyStr.nl) "")]
    (Completed 1 "" "save(error)").

(** A dataset whose nested unit [r4] resists every save and the forced
    [git add] as well. *)
Definition stubborn_r4_world : world :=
  scripted
    [(["datalad"; "status"],
      Completed 0 (" modified: r4 (dataset)" ++ PyStr.nl) "");
     (["git"; "add"; "r4"],
      Completed 128 "" "fatal: in unpopulated submodule")]
    (Completed 1 "" "save(error)").

(** A directory without a git repository. *)
Definition not_a_repository : world :=
  scripted [] (Completed 128 "" "fatal: not a git repository").

(** A dataset with two commits in which [git rev-parse] fails. *)
Definition short_history : world :=
  scripted
    [(["git"; "log"; "--oneline"; "-n"; "10"],
      Completed 0 ("9c1d5a7 Add summary table" ++ PyStr.nl
                   ++ "4b8e2f6 Fit the model" ++ PyStr.nl) "")]
    (Completed 128 "" "fatal: ambiguous argument").

(** A dataset in which the revert goes through and rewording it does
    not. *)
Definition amend_fails_world : world :=
  scripted
    [(["git"; "commit"; "--amend"; "-m"; "Undo the rescaling"],
      Completed 1 "" "fatal: could not read commit message")]
    (Completed 0 "" "").

(** A checkout without a branch: [git branch --show-current] fails and
    [git rev-parse HEAD] prints the full hash. *)
Definition detached_world : world :=
  scripted
    [(["git"; "branch"; "--show-current"], Completed 128 "" "fatal");
     (["git"; "rev-parse"; "HEAD"],
      Completed 0 ("9c1d5a7e03b6f2a4d8c1e5b7a9f0d2c4e6b8a0c2" ++ PyStr.nl) "")]
    (Completed 0 "" "").

(** A file whose history is found by the first query. *)
Definition file_history_world : world :=
  scripted
    [(["git"; "log"; "--oneline"; "--follow"; "-n"; "10"; "--"; "data.csv"],
      Completed 0 ("9c1d5a7 Add summary table" ++ PyStr.nl) "")]
    (Completed 0 "" "").

(** A revision that deleted one file and added another. *)
Definition one_deletion : world :=
  scripted
    [(["git"; "show"; "--name-status"; "--pretty=format:"; "abc1234"],
      Completed 0 ("D" ++ GitQueries.tab ++ "old.csv" ++ PyStr.nl
                   ++ "A" ++ GitQueries.tab ++ "new.csv" ++ PyStr.nl) "")]
    (Completed 0 "" "").

(** A dataset with [scripts/] and [results/], a stray [.DS_Store] and
    the [.git] directory; every file is tracked. *)
Definition two_stages_listing : list FileOperations.fs_entry :=
  [FileOperations.FsDir ".git" true [FileOperations.FsFile "HEAD" 23];
   FileOperations.FsFile ".DS_Store" 6148;
   FileOperations.FsDir "scripts" true
     [FileOperations.FsFile "fit.py" 2048;
      FileOperations.FsFile ".DS_Store" 6148];
   FileOperations.FsDir "results" true
     [FileOperations.FsFile "out.csv" 120;
      FileOperations.FsDir ".git" true []]].

Definition two_stages : FileOperations.snapshot :=
  FileOperations.mkSnapshot (Some two_stages_listing)
    (fun argv =>
       match argv with
       | ["datalad"; "status"; "results"] =>
           Completed 0 (" deleted: results/old.csv (file)" ++ PyStr.nl) ""
       | _ => Completed 0 "" ""
       end).

End ScenariosMore.

(* ===================================================================== *)
(** * Properties *)
(* ===================================================================== *)

Example split_lines :
  PyStr.split PyStr.nl ("a" ++ PyStr.nl ++ PyStr.nl ++ "b") = ["a"; ""; "b"].
Proof. reflexivity. Qed.

Example split_word :
  PyStr.split "(dataset)" " r4 (dataset) x" = [" r4 "; " x"].
Proof. reflexivity. Qed.

Example split_empty : PyStr.split "|" "" = [""].
Proof. reflexivity. Qed.

Example split1_colon : PyStr.split1 ":" "deleted: a:b" = ["deleted"; " a:b"].
Proof. reflexivity. Qed.

Example split1_none : PyStr.split1 " " "abc1234" = ["abc1234"].
Proof. reflexivity. Qed.

Example strip_both : PyStr.strip ("  a b " ++ PyStr.nl) = "a b".
Proof. reflexivity. Qed.

Example join_paths :
  PyStr.path_join "/tmp/ds" "r4" = "/tmp/ds/r4"
  /\ PyStr.path_join "/tmp/ds/" "r4" = "/tmp/ds/r4"
  /\ PyStr.path_join "/tmp/ds" "/abs" = "/abs".
Proof. repeat split; reflexivity. Qed.

Example str_of_Z_ex : PyStr.str_of_Z 50 = "50" /\ PyStr.str_of_Z (-3) = "-3"
  /\ PyStr.str_of_Z 0 = "0".
Proof. repeat split; reflexivity. Qed.

(* ===================================================================== *)
(** ** ChangeSetCommitter: [save_all_changes] *)
(* ===================================================================== *)

Module CommitterProofs.
Import Py DataflowApi.

(** C1. When the status query succeeds with an empty report,
    [commitAll] answers [success: True] with the message "No changes to
    save", and the status query is the only command it runs: no save,
    add or commit is invoked. *)
Theorem commitAll_nothing_to_save (w : world) (dp msg out err : string) :
  PyStr.truthy dp = true ->
  respond w [] ["datalad"; "status"] dp = Completed 0 out err ->
  PyStr.strip out = "" ->
  commitAll w (Some dp) msg =
    (Return (jsonify [("success", JBool true);
                      ("message", JStr "No changes to save");
                      ("commit_message", JStr msg)]),
     [Run ["datalad"; "status"] dp])
  /\ filter is_write (snd (commitAll w (Some dp) msg)) = [].
Proof.
  intros Hdp Hst Hblank.
  assert (E : commitAll w (Some dp) msg =
    (Return (jsonify [("success", JBool true);
                      ("message", JStr "No changes to save");
                      ("commit_message", JStr msg)]),
     [Run ["datalad"; "status"] dp])).
  { unfold commitAll, call, save_all_changes, try_except.
    rewrite Hdp. cbn [negb].
    unfold save_all_changes_body, bind, subprocess_run.
    rewrite Hst. cbn. rewrite Hblank. reflexivity. }
  split; [exact E | rewrite E; reflexivity].
Qed.

Lemma commitAll_nothing_to_save_witness :
  commitAll Scenarios.clean_world (Some Scenarios.ds) "nightly" =
    (Return (jsonify [("success", JBool true);
                      ("message", JStr "No changes to save");
                      ("commit_message", JStr "nightly")]),
     [Run ["datalad"; "status"] Scenarios.ds])
  /\ filter is_write
       (snd (commitAll Scenarios.clean_world (Some Scenarios.ds) "nightly"))
     = [].
Proof.
  apply (commitAll_nothing_to_save Scenarios.clean_world Scenarios.ds
           "nightly" "" "");
    reflexivity.
Defined.

(** C2. When the recursive save fails and the flat save that follows
    succeeds, [commitAll] answers [success: True] and its attempt log
    has exactly two entries: the failure of the recursive stage, then
    the success of the flat stage. *)
Theorem commitAll_flat_after_recursive (w : world)
    (dp msg out err out1 err1 out2 err2 : string) (rc1 : Z) :
  PyStr.truthy dp = true ->
  respond w [] ["datalad"; "status"] dp = Completed 0 out err ->
  PyStr.truthy (PyStr.strip out) = true ->
  respond w [Run ["datalad"; "status"] dp]
    ["datalad"; "save"; "-r"; "-m"; msg] dp = Completed rc1 out1 err1 ->
  rc1 <> 0%Z ->
  respond w [Run ["datalad"; "status"] dp;
             Run ["datalad"; "save"; "-r"; "-m"; msg] dp]
    ["datalad"; "save"; "-m"; msg] dp = Completed 0 out2 err2 ->
  commitAll w (Some dp) msg =
    (Return (jsonify
       [("success", JBool true);
        ("message", JStr "All changes have been saved to DataLad");
        ("commit_message", JStr msg);
        ("output", JStr out2);
        ("save_attempts",
         JStrs ["Recursive save: FAILED - " ++ err1;
                "Regular save: SUCCESS"])]),
     [Run ["datalad"; "status"] dp;
      Run ["datalad"; "save"; "-r"; "-m"; msg] dp;
      Run ["datalad"; "save"; "-m"; msg] dp]).
Proof.
  intros Hdp Hst Hdirty Hrec Hrc Hflat.
  apply Z.eqb_neq in Hrc.
  unfold commitAll, call, save_all_changes, try_except.
  rewrite Hdp. cbn [negb].
  unfold save_all_changes_body, bind, subprocess_run.
  rewrite Hst. cbn. rewrite Hdirty. cbn.
  unfold recursive_save, try_except, bind, subprocess_run. cbn.
  rewrite Hrec. cbn. rewrite Hrc. cbn.
  unfold regular_save, try_except, bind, subprocess_run. cbn.
  rewrite Hflat. cbn. reflexivity.
Qed.

Lemma commitAll_flat_after_recursive_witness :
  commitAll Scenarios.flat_only_world (Some Scenarios.ds) "Save all changes" =
    (Return (jsonify
       [("success", JBool true);
        ("message", JStr "All changes have been saved to DataLad");
        ("commit_message", JStr "Save all changes");
        ("output", JStr "save(ok): . (dataset)");
        ("save_attempts",
         JStrs ["Recursive save: FAILED - recursive save refused";
                "Regular save: SUCCESS"])]),
     [Run ["datalad"; "status"] Scenarios.ds;
      Run ["datalad"; "save"; "-r"; "-m"; "Save all changes"] Scenarios.ds;
      Run ["datalad"; "save"; "-m"; "Save all changes"] Scenarios.ds]).
Proof.
  apply (commitAll_flat_after_recursive Scenarios.flat_only_world
           Scenarios.ds "Save all changes"
           (" modified: results/out.csv (file)" ++ PyStr.nl) ""
           "" "recursive save refused" "save(ok): . (dataset)" "" 1%Z);
    try reflexivity.
  discriminate.
Defined.

(** C3. In [Scenarios.nested_world] the recursive and the flat save
    fail, the save inside the modified nested unit succeeds, and a flat
    save repeated after it would succeed. [commitAll] runs four
    commands and stops: the flat save is not tried again after the
    nested units were processed, the attempt log has no entry for such
    a retry, and the answer is [success: True] with no output. *)
Theorem commitAll_no_flat_retry :
  commitAll Scenarios.nested_world (Some Scenarios.ds) "Save all changes" =
    (Return (jsonify
       [("success", JBool true);
        ("message", JStr "All changes have been saved to DataLad");
        ("commit_message", JStr "Save all changes");
        ("output", JStr "No output available");
        ("save_attempts",
         JStrs ["Recursive save: FAILED - sub1 has unsaved changes";
                "Regular save: FAILED - sub1 has unsaved changes";
                "Subdataset sub1 save: SUCCESS"])]),
     [Run ["datalad"; "status"] "/tmp/ds";
      Run ["datalad"; "save"; "-r"; "-m"; "Save all changes"] "/tmp/ds";
      Run ["datalad"; "save"; "-m"; "Save all changes"] "/tmp/ds";
      Run ["datalad"; "save"; "-m"; "Save all changes"] "/tmp/ds/sub1"])
  /\ respond Scenarios.nested_world
       (snd (commitAll Scenarios.nested_world (Some Scenarios.ds)
               "Save all changes"))
       ["datalad"; "save"; "-m"; "Save all changes"] Scenarios.ds
     = Completed 0 "save(ok): . (dataset)" "".
Proof. split; vm_compute; reflexivity. Qed.

(** On the same dataset the earlier implementation in [api_old.py] does
    repeat the flat save after the nested units, and that save succeeds. *)
Lemma api_old_retries_flat_save :
  ApiOld.commitAll Scenarios.nested_world (Some Scenarios.ds)
    "Save all changes" =
    (Return (jsonify
       [("success", JBool true);
        ("message", JStr "All changes have been saved to DataLad");
        ("commit_message", JStr "Save all changes");
        ("output", JStr "save(ok): . (dataset)");
        ("save_attempts",
         JStrs ["Recursive save failed: sub1 has unsaved changes";
                "Regular save failed: sub1 has unsaved changes";
                "Subdataset sub1 internal save succeeded";
                "Subdataset sub1 reference save failed: sub1 has unsaved changes";
                "Final regular save succeeded"])]),
     [Run ["datalad"; "status"] "/tmp/ds";
      Run ["datalad"; "status"; "--annex"] "/tmp/ds";
      Run ["datalad"; "save"; "-r"; "-m"; "Save all changes"] "/tmp/ds";
      Run ["datalad"; "save"; "-m"; "Save all changes"] "/tmp/ds";
      Run ["datalad"; "save"; "-m"; "Subdataset sub1: Save all changes"]
        "/tmp/ds/sub1";
      Run ["datalad"; "save"; "-m"; "Subdataset sub1: Save all changes";
           "sub1"] "/tmp/ds";
      Run ["datalad"; "save"; "-m"; "Save all changes"] "/tmp/ds"]).
Proof. vm_compute. reflexivity. Qed.

End CommitterProofs.

(* ===================================================================== *)
(** ** FileRestorer: [restore_file_to_commit] *)
(* ===================================================================== *)

Module RestorerProofs.
Import Py GitOperations Traces.

#[local] Arguments str_or : simpl never.
#[local] Arguments String.append : simpl never.

Lemma split_at_unique (p : event -> bool) (l h rest : list event)
    (e : event) :
  l = (h ++ e :: rest)%list -> p e = true ->
  (List.length (filter p l) <= 1)%nat ->
  split_at p l = Some (h, e, rest).
Proof.
  intros -> He. induction h as [|x h IH]; cbn; intros Hlen.
  - now rewrite He.
  - destruct (p x) eqn:Hx.
    + exfalso. cbn in Hlen. rewrite filter_app in Hlen. cbn in Hlen.
      rewrite He in Hlen. rewrite length_app in Hlen. cbn in Hlen. lia.
    + rewrite IH; auto.
Qed.

Ltac unfold_restore :=
  unfold restore, call, restore_file_to_commit, check_file_exists_in_commit,
    try_except, bind, os_path_exists, subprocess_run, print, ret, raise,
    except_Exception, except_CalledProcessError; cbn.

(** Decide, one after the other, every answer of the environment the
    run depends on. *)
Ltac case_world :=
  repeat match goal with
  | |- context [match respond ?w ?h ?a ?c with _ => _ end] =>
      let E := fresh "Hresp" in destruct (respond w h a c) eqn:E; cbn
  | |- context [if ?c then _ else _] =>
      let E := fresh "Hif" in destruct c eqn:E; cbn
  end.

Ltac no_os_failure HL :=
  match goal with
  | H : respond ?w ?h ?a ?d = OSFailure _ |- _ =>
      exfalso; destruct (HL h a d) as (?rc & ?out & ?err & ?HC); congruence
  end.

Ltac same_response :=
  match goal with
  | H1 : respond ?w ?h ?a ?d = _, H2 : respond ?w ?h ?a ?d = _ |- _ =>
      rewrite H1 in H2; inversion H2; subst
  end.

Ltac exit_code_clash :=
  match goal with
  | H : negb (?r =? 0)%Z = false, N : ?r <> 0%Z |- _ =>
      apply negb_false_iff, Z.eqb_eq in H; congruence
  end.

(** [check_file_exists_in_commit] on an existing dataset is the exit
    code of [git show]. *)
Lemma check_file_exists_in_commit_spec (w : world) (dp fp ch : string) :
  path_exists w [] dp = true ->
  call (check_file_exists_in_commit w dp fp ch) tt =
    (Return (file_in_revision w dp fp ch),
     [Run ["git"; "show"; ch ++ ":" ++ fp] dp]).
Proof.
  intros Hex. unfold file_in_revision, call, check_file_exists_in_commit,
    try_except, bind, os_path_exists, subprocess_run. cbn.
  rewrite Hex. cbn.
  destruct (respond w [] ["git"; "show"; ch ++ ":" ++ fp] dp); reflexivity.
Qed.

(** C4. When the file is not part of the revision, [restore] raises the
    error "File ... does not exist in commit ..." after the read-only
    [git show] alone: no checkout, add, commit or save is run, so
    working tree, index and history are as before. *)
Theorem restore_file_not_in_revision (w : world) (dp fp ch : string)
    (msg : option string) :
  path_exists w [] dp = true ->
  file_in_revision w dp fp ch = false ->
  restore w dp fp ch msg =
    (Raise (GitOperationError
              ("File " ++ fp ++ " does not exist in commit " ++ ch)),
     [Run ["git"; "show"; ch ++ ":" ++ fp] dp])
  /\ filter is_write (snd (restore w dp fp ch msg)) = [].
Proof.
  unfold file_in_revision. intros Hex Hrev.
  unfold_restore. rewrite Hex. cbn. rewrite Hex. cbn.
  destruct (respond w [] ["git"; "show"; ch ++ ":" ++ fp] dp); cbn.
  - rewrite Hrev. cbn. split; reflexivity.
  - split; reflexivity.
Qed.

Lemma restore_file_not_in_revision_witness :
  restore Scenarios.missing_file_world Scenarios.ds "old.csv" "abc1234" None =
    (Raise (GitOperationError
              "File old.csv does not exist in commit abc1234"),
     [Run ["git"; "show"; "abc1234:old.csv"] Scenarios.ds])
  /\ filter is_write
       (snd (restore Scenarios.missing_file_world Scenarios.ds "old.csv"
               "abc1234" None)) = [].
Proof.
  apply (restore_file_not_in_revision Scenarios.missing_file_world
           Scenarios.ds "old.csv" "abc1234" None);
    reflexivity.
Defined.

(** C5. Whenever [restore] reaches the DataLad save, it returns the
    success dictionary whatever that command does. The checkout and the
    staging were run before it, no command is run after it (nothing is
    rolled back), and a failure, by exit code or by exception, leaves
    one warning line behind. *)
Theorem restore_survives_datalad_failure (w : world) (dp fp ch : string)
    (msg : option string) (h rest : list event) (m : string) :
  snd (restore w dp fp ch msg)
    = (h ++ Run ["datalad"; "save"; "-m"; m] dp :: rest)%list ->
  fst (restore w dp fp ch msg) = Return (restored fp ch)
  /\ In (Run ["git"; "checkout"; ch; "--"; fp] dp) h
  /\ In (Run ["git"; "add"; fp] dp) h
  /\ filter is_run rest = []
  /\ (forall rc out err,
        respond w h ["datalad"; "save"; "-m"; m] dp = Completed rc out err ->
        rc <> 0%Z ->
        rest = [Print ("Warning: datalad save failed: " ++ err)])
  /\ (forall text,
        respond w h ["datalad"; "save"; "-m"; m] dp = OSFailure text ->
        rest = [Print ("Warning: datalad save failed with exception: "
                       ++ text)]).
Proof.
  intros H. revert H. unfold_restore. case_world; intros H;
    (apply (split_at_unique is_datalad_save) in H;
     [ cbn in H; try discriminate H; inversion H; subst; clear H
     | reflexivity | cbn; lia ]).
  all: repeat split; cbn; auto 10.
  all: intros; try congruence.
  all: try same_response.
  all: try reflexivity.
  all: try exit_code_clash.
  all: try (cbn in *; discriminate).
Qed.

Lemma restore_survives_datalad_failure_witness :
  respond Scenarios.datalad_fails_world Scenarios.before_datalad_save
    ["datalad"; "save"; "-m"; "Restore data.csv from commit abc1234"]
    Scenarios.ds = Completed 1 "" "save(error)"
  /\ fst (restore Scenarios.datalad_fails_world Scenarios.ds "data.csv"
            "abc1234" None)
     = Return (restored "data.csv" "abc1234").
Proof.
  split; [reflexivity|].
  apply (restore_survives_datalad_failure Scenarios.datalad_fails_world
           Scenarios.ds "data.csv" "abc1234" None Scenarios.before_datalad_save
           [Print "Warning: datalad save failed: save(error)"]
           "Restore data.csv from commit abc1234").
  reflexivity.
Defined.

(** C10. Where every command can be started, [restore] returns the
    success dictionary whenever it reaches the staging step, whatever
    the exit codes of [git add] and [git commit]: a non-zero exit of
    either only leaves a warning line. A success result therefore does
    not tell that a commit was made. *)
Theorem restore_survives_git_failures (w : world) (dp fp ch : string)
    (msg : option string) (h rest : list event) :
  always_launches w ->
  snd (restore w dp fp ch msg) = (h ++ Run ["git"; "add"; fp] dp :: rest)%list ->
  fst (restore w dp fp ch msg) = Return (restored fp ch)
  /\ (forall rc out err,
        respond w h ["git"; "add"; fp] dp = Completed rc out err ->
        rc <> 0%Z ->
        In (Print ("Warning: git add failed: " ++ err)) rest)
  /\ (forall h2 rest2 m rc out err,
        rest = (h2 ++ Run ["git"; "commit"; "-m"; m] dp :: rest2)%list ->
        respond w (h ++ Run ["git"; "add"; fp] dp :: h2)
          ["git"; "commit"; "-m"; m] dp = Completed rc out err ->
        rc <> 0%Z ->
        In (Print ("Warning: git commit failed: " ++ err)) rest2).
Proof.
  intros HL H. revert H. unfold_restore. case_world; intros H;
    try no_os_failure HL;
    (apply (split_at_unique is_git_add) in H;
     [ cbn in H; try discriminate H; inversion H; subst; clear H
     | reflexivity | cbn; lia ]).
  all: split; [reflexivity|]; split.
  all: try (intros rc' out' err' HR Hne; same_response;
            try exit_code_clash; cbn; auto 10).
  all: intros h2 rest2 m rc' out' err' Hsplit HR Hne;
    apply (split_at_unique is_git_commit) in Hsplit;
    [ cbn in Hsplit; try discriminate Hsplit; inversion Hsplit; subst;
      clear Hsplit
    | reflexivity | cbn; lia ].
  all: cbn in HR; same_response; try exit_code_clash; cbn; auto 10.
Qed.

Lemma scripted_always_launches rules rc out err :
  (forall a r, In (a, r) rules -> exists rc' out' err', r = Completed rc' out' err') ->
  always_launches (Scenarios.scripted rules (Completed rc out err)).
Proof.
  intros Hrules h argv cwd. cbn. clear h cwd.
  induction rules as [|[a r] rules IH]; cbn.
  - eauto.
  - destruct (Scenarios.argv_eqb a argv).
    + apply (Hrules a r). now left.
    + apply IH. intros a' r' Hin. apply (Hrules a' r'). now right.
Defined.

Lemma restore_survives_git_failures_witness :
  always_launches Scenarios.git_fails_world
  /\ In (Run ["git"; "commit"; "-m"; "Restore data.csv from commit abc1234"]
           Scenarios.ds)
        (snd (restore Scenarios.git_fails_world Scenarios.ds "data.csv"
                "abc1234" None))
  /\ fst (restore Scenarios.git_fails_world Scenarios.ds "data.csv"
            "abc1234" None)
     = Return (restored "data.csv" "abc1234").
Proof.
  assert (HL : always_launches Scenarios.git_fails_world).
  { apply scripted_always_launches. cbn. intros a r H.
    repeat (destruct H as [H|H]; [inversion H; subst; eauto|]).
    destruct H. }
  split; [exact HL|]. split; [vm_compute; tauto|].
  apply (restore_survives_git_failures Scenarios.git_fails_world
           Scenarios.ds "data.csv" "abc1234" None
           [Run ["git"; "show"; "abc1234:data.csv"] "/tmp/ds";
            Print "Attempting to restore data.csv from commit abc1234";
            Run ["git"; "checkout"; "abc1234"; "--"; "data.csv"] "/tmp/ds";
            Print "Adding data.csv to git"]
           [Print "Warning: git add failed: fatal: index locked";
            Run ["git"; "status"; "--porcelain"] "/tmp/ds";
            Print "Git status before commit:  M data.csv";
            Print "Committing restoration with message: Restore data.csv from commit abc1234";
            Run ["git"; "commit"; "-m"; "Restore data.csv from commit abc1234"]
              "/tmp/ds";
            Print "Warning: git commit failed: nothing added to commit";
            Print "Saving to DataLad with message: Restore data.csv from commit abc1234";
            Run ["datalad"; "save"; "-m"; "Restore data.csv from commit abc1234"]
              "/tmp/ds"]);
    [exact HL | reflexivity].
Defined.

End RestorerProofs.

(* ===================================================================== *)
(** ** WorkflowGraphSynthesizer: [create_dataflow_from_dataset] *)
(* ===================================================================== *)

Module SynthesizerProofs.
Import Py FileOperations MetadataOperations Graphs.

(** *** Dictionaries in insertion order *)

Lemma dict_get_set_same {V} k (v : V) d : dict_get k (dict_set k v d) = Some v.
Proof.
  induction d as [|[k' v'] d IH]; cbn.
  - now rewrite String.eqb_refl.
  - destruct (String.eqb k k') eqn:E; cbn; rewrite ?String.eqb_refl, ?E; auto.
Qed.

Lemma dict_get_set_other {V} k k' (v : V) d :
  k <> k' -> dict_get k (dict_set k' v d) = dict_get k d.
Proof.
  intros Hne. induction d as [|[k2 v2] d IH]; cbn.
  - destruct (String.eqb_spec k k'); congruence.
  - destruct (String.eqb_spec k' k2); cbn.
    + subst. destruct (String.eqb_spec k k2); congruence.
    + destruct (String.eqb_spec k k2); auto.
Qed.

Lemma dict_set_values {V} k (v : V) d x :
  In x (map snd (dict_set k v d)) -> x = v \/ In x (map snd d).
Proof.
  induction d as [|[k' v'] d IH]; cbn.
  - intuition.
  - destruct (String.eqb k k'); cbn; intuition.
Qed.

Lemma dict_set_nodup {V} k (v : V) d :
  NoDup (map snd d) -> ~ In v (map snd d) -> NoDup (map snd (dict_set k v d)).
Proof.
  induction d as [|[k' v'] d IH]; cbn; intros Hnd Hnin.
  - constructor; auto.
  - inversion Hnd; subst. destruct (String.eqb k k'); cbn.
    + constructor; auto.
    + constructor.
      * intros Hin. apply dict_set_values in Hin. intuition.
      * apply IH; auto.
Qed.

Lemma dict_get_in {V} k (v : V) d : dict_get k d = Some v -> In v (map snd d).
Proof.
  induction d as [|[k' v'] d IH]; cbn; [discriminate|].
  destruct (String.eqb k k'); [intros [= ->]; auto | auto].
Qed.

(** *** The invariant of the loops *)

Lemma well_formed_start dp :
  well_formed dp (mkBuilder [central_node 1 dp] [] [] 2).
Proof.
  constructor; cbn; auto.
  - exists []. auto.
  - constructor.
Qed.

(** Appending a non-central node with the next id and recording it. *)
Lemma well_formed_push dp b n k :
  well_formed dp b -> id n = node_id b -> is_central n = false ->
  well_formed dp
    (mkBuilder (b_nodes b ++ [n])%list (b_edges b)
       (dict_set k (node_id b) (directory_nodes b)) (S (node_id b))).
Proof.
  intros [Hroot Hids Hnext Hrange Hnodup] Hid Hc.
  destruct Hroot as (rest & Hnodes & Hrest).
  assert (Hlen : (1 <= List.length (b_nodes b))%nat)
    by (rewrite Hnodes; cbn; lia).
  constructor; cbn.
  - exists (rest ++ [n])%list. rewrite Hnodes.
    split; [reflexivity|]. apply Forall_app; split; auto.
  - rewrite map_app, length_app, seq_app, Hids. cbn.
    rewrite Hid, Hnext. reflexivity.
  - rewrite length_app, Hnext. cbn. lia.
  - apply Forall_forall. intros x Hx. apply dict_set_values in Hx.
    destruct Hx as [-> | Hx].
    + rewrite Hnext. lia.
    + rewrite Forall_forall in Hrange. specialize (Hrange x Hx). lia.
  - apply dict_set_nodup; auto. intros Hin.
    rewrite Forall_forall in Hrange. specialize (Hrange _ Hin). lia.
Qed.

Lemma directory_round_wf s dp b item b' :
  well_formed dp b -> directory_round s b item = Return b' ->
  well_formed dp b'.
Proof.
  intros Hwf. unfold directory_round.
  destruct item as [n p sz | n p ch]; [intros [= <-]; auto|].
  destruct (dict_get n directory_types); [|intros [= <-]; auto].
  destruct (stage_counts (get_stage_files s n)) as [[[t u] d]|]; [|discriminate].
  intros [= <-]. apply well_formed_push; auto.
Qed.

Lemma directory_loop_wf s dp tree : forall b b',
  well_formed dp b -> directory_loop s b tree = Return b' ->
  well_formed dp b'.
Proof.
  induction tree as [|item tree IH]; cbn; intros b b' Hwf.
  - intros [= <-]; auto.
  - destruct (directory_round s b item) eqn:E; [|discriminate].
    intros H. eapply IH; [|exact H]. eapply directory_round_wf; eauto.
Qed.

Lemma missing_loop_wf dp stages : forall b,
  well_formed dp b -> well_formed dp (missing_loop b stages).
Proof.
  induction stages as [|[name info] stages IH]; cbn; intros b Hwf; auto.
  destruct (dict_get name (directory_nodes b)); auto.
  apply IH. apply well_formed_push; auto.
Qed.

(** The edge loops leave [b_edges] alone until [connect]. *)
Lemma directory_round_edges s b item b' :
  directory_round s b item = Return b' -> b_edges b' = b_edges b.
Proof.
  unfold directory_round.
  destruct item as [n p sz | n p ch]; [intros [= <-]; auto|].
  destruct (dict_get n directory_types); [|intros [= <-]; auto].
  destruct (stage_counts (get_stage_files s n)) as [[[t u] d]|]; [|discriminate].
  intros [= <-]. reflexivity.
Qed.

Lemma directory_loop_edges s tree : forall b b',
  directory_loop s b tree = Return b' -> b_edges b' = b_edges b.
Proof.
  induction tree as [|item tree IH]; cbn; intros b b'.
  - intros [= <-]; auto.
  - destruct (directory_round s b item) eqn:E; [|discriminate].
    intros H. rewrite (IH _ _ H). eapply directory_round_edges; eauto.
Qed.

Lemma missing_loop_edges stages : forall b,
  b_edges (missing_loop b stages) = b_edges b.
Proof.
  induction stages as [|[name info] stages IH]; cbn; intros b; auto.
  destruct (dict_get name (directory_nodes b)); auto.
  rewrite IH. reflexivity.
Qed.

(** After the placeholder loop every stage it went through is recorded. *)
Lemma missing_loop_records stages : forall b name,
  In name (map fst stages) \/ dict_get name (directory_nodes b) <> None ->
  dict_get name (directory_nodes (missing_loop b stages)) <> None.
Proof.
  induction stages as [|[k info] stages IH]; cbn; intros b name H.
  - destruct H as [[]|H]; auto.
  - destruct (dict_get k (directory_nodes b)) eqn:E.
    + apply IH. destruct H as [[<-|H]|H]; auto. right. congruence.
    + apply IH. destruct H as [[<-|H]|H]; auto.
      * right. cbn. rewrite dict_get_set_same. discriminate.
      * right. cbn. destruct (string_dec name k) as [->|Hne].
        -- rewrite dict_get_set_same. discriminate.
        -- rewrite dict_get_set_other; auto.
Qed.

(** What the body of the [try] returns: the nodes and the dictionary of
    the placeholder loop, one edge per dictionary entry. The fallback
    of lines 288-313 is never entered. *)
Lemma build_dataflow_shape s dp g :
  build_dataflow s dp = Return g ->
  exists b,
    well_formed dp b
    /\ nodes g = b_nodes b
    /\ edges g = map (fun kv => contains_edge 1 (snd kv)) (directory_nodes b)
    /\ (exists tree b1,
          get_file_tree s dp = Return tree
          /\ directory_loop s (mkBuilder [central_node 1 dp] [] [] 2) tree
             = Return b1
          /\ b = missing_loop b1 missing_stages).
Proof.
  unfold build_dataflow.
  destruct (get_file_tree s dp) as [tree|] eqn:Etree; [|discriminate].
  destruct (directory_loop s _ tree) as [b1|] eqn:Eloop; [|discriminate].
  pose proof (directory_loop_wf _ _ _ _ _ (well_formed_start dp) Eloop) as Hwf1.
  pose proof (missing_loop_wf dp missing_stages b1 Hwf1) as Hwf2.
  pose proof (directory_loop_edges _ _ _ _ Eloop) as Hed1.
  pose proof (missing_loop_edges missing_stages b1) as Hed2.
  remember (missing_loop b1 missing_stages) as b2 eqn:Eb2.
  assert (Hlen : (2 <= List.length (b_nodes b2))%nat).
  { assert (Hrec : dict_get "scripts" (directory_nodes b2) <> None).
    { rewrite Eb2. apply missing_loop_records. left. cbn. auto. }
    destruct (dict_get "scripts" (directory_nodes b2)) as [v|] eqn:E;
      [|congruence].
    apply dict_get_in in E. destruct Hwf2 as [_ _ Hnext Hrange _].
    rewrite Forall_forall in Hrange. specialize (Hrange _ E). lia. }
  cbn [connect b_nodes b_edges].
  destruct (Nat.eqb_spec (List.length (b_nodes b2)) 1) as [E1|_]; [lia|].
  intros [= <-]. exists b2. cbn.
  split; [exact Hwf2|]. split; [reflexivity|]. split.
  - rewrite Hed2, Hed1. reflexivity.
  - exists tree, b1. auto.
Qed.

Lemma create_dataflow_shape s dp g :
  create_dataflow_from_dataset s dp = Return g -> build_dataflow s dp = Return g.
Proof.
  unfold create_dataflow_from_dataset.
  destruct (dataset s); [|discriminate].
  destruct (build_dataflow s dp); [auto|discriminate].
Qed.

Lemma filter_none {A} (f : A -> bool) l :
  Forall (fun x => f x = false) l -> filter f l = [].
Proof.
  induction 1 as [|x l Hx _ IH]; cbn; [reflexivity|]. now rewrite Hx.
Qed.

(** C8. Every graph [create_dataflow_from_dataset] returns is a star:
    exactly one node is central, it comes first and has id 1; the ids
    are 1, 2, 3, ... in list order, hence distinct; every edge starts at
    the root and ends at a node that is not the root; no two edges end
    at the same node. *)
Theorem synthesize_star (s : snapshot) (dp : string) (g : dataflow) :
  create_dataflow_from_dataset s dp = Return g ->
  List.length (filter is_central (nodes g)) = 1%nat
  /\ (exists root rest,
        nodes g = root :: rest /\ is_central root = true /\ id root = 1%nat)
  /\ map id (nodes g) = seq 1 (List.length (nodes g))
  /\ NoDup (map id (nodes g))
  /\ (forall e, In e (edges g) ->
        from e = 1%nat
        /\ exists n, In n (nodes g) /\ id n = to e /\ is_central n = false)
  /\ NoDup (map to (edges g)).
Proof.
  intros H. apply create_dataflow_shape, build_dataflow_shape in H.
  destruct H as (b & [Hroot Hids Hnext Hrange Hnodup] & Hn & He & _).
  rewrite Hn, He. destruct Hroot as (rest & Hnodes & Hrest).
  repeat split.
  - rewrite Hnodes. cbn. now rewrite (filter_none _ _ Hrest).
  - exists (central_node 1 dp), rest. auto.
  - exact Hids.
  - rewrite Hids. apply seq_NoDup.
  - apply in_map_iff in H as ([k v] & <- & _). reflexivity.
  - apply in_map_iff in H as ([k v] & <- & Hin). cbn.
    assert (Hv : In v (map snd (directory_nodes b))).
    { apply in_map_iff. exists (k, v). auto. }
    rewrite Forall_forall in Hrange. specialize (Hrange _ Hv).
    assert (Hseq : In v (map id (b_nodes b))).
    { rewrite Hids. apply in_seq. lia. }
    apply in_map_iff in Hseq as (n & Hidn & Hinn).
    exists n. repeat split; auto.
    rewrite Hnodes in Hinn. destruct Hinn as [<-|Hinn].
    + cbn in Hidn. lia.
    + rewrite Forall_forall in Hrest. auto.
  - rewrite map_map. cbn. exact Hnodup.
Qed.

(** *** Nodes of the stage directories *)

Lemma directory_loop_nodes s tree : forall b b',
  directory_loop s b tree = Return b' ->
  exists added,
    b_nodes b' = (b_nodes b ++ added)%list
    /\ forall name p children info,
         In (ItemDir name p children) tree ->
         dict_get name directory_types = Some info ->
         exists n t u d,
           In n added
           /\ stage_counts (get_stage_files s name) = Return (t, u, d)
           /\ node_of_directory n p info t u d.
Proof.
  induction tree as [|item tree IH]; cbn [directory_loop In]; intros b b'.
  - intros [= <-]. exists []. rewrite app_nil_r. split; [reflexivity|].
    intros ? ? ? ? [].
  - destruct (directory_round s b item) as [b1|] eqn:E; [|discriminate].
    intros H. destruct (IH _ _ H) as (added & Hadd & Hall).
    unfold directory_round in E.
    destruct item as [n p sz | n p ch].
    { injection E as <-. exists added. split; [exact Hadd|].
      intros name p' ch' info [Hin|Hin] Hk; [discriminate|eauto]. }
    destruct (dict_get n directory_types) as [info0|] eqn:Ek.
    2:{ injection E as <-. exists added. split; [exact Hadd|].
        intros name p' ch' info [Hin|Hin] Hk; [|eauto].
        injection Hin as E1 E2 E3. subst. congruence. }
    destruct (stage_counts (get_stage_files s n)) as [[[t u] d]|] eqn:Ec;
      [|discriminate].
    injection E as <-. cbn in Hadd. rewrite <- app_assoc in Hadd.
    eexists. split; [exact Hadd|].
    intros name p' ch' info [Hin|Hin] Hk.
    + injection Hin as E1 E2 E3. subst. rewrite Ek in Hk.
      injection Hk as E1. subst.
      eexists _, t, u, d. split; [left; reflexivity|].
      split; [exact Ec|]. repeat split.
    + destruct (Hall _ _ _ _ Hin Hk) as (n' & t' & u' & d' & Hin' & Hrest).
      exists n', t', u', d'. split; [right; exact Hin'|exact Hrest].
Qed.

Lemma missing_loop_nodes stages : forall b,
  exists added, b_nodes (missing_loop b stages) = (b_nodes b ++ added)%list.
Proof.
  induction stages as [|[name info] stages IH]; cbn; intros b.
  - exists []. now rewrite app_nil_r.
  - destruct (dict_get name (directory_nodes b)); [apply IH|].
    destruct (IH (mkBuilder
                    (b_nodes b ++ [placeholder (node_id b) name info])%list
                    (b_edges b)
                    (dict_set name (node_id b) (directory_nodes b))
                    (S (node_id b)))) as (added & ->).
    cbn. rewrite <- app_assoc. eauto.
Qed.

(** *** Placeholders *)

Lemma directory_loop_keys s tree : forall b b' k,
  directory_loop s b tree = Return b' ->
  dict_get k (directory_nodes b') <> None ->
  dict_get k (directory_nodes b) <> None
  \/ exists p c, In (ItemDir k p c) tree.
Proof.
  induction tree as [|item tree IH]; cbn; intros b b' k.
  - intros [= <-]. auto.
  - destruct (directory_round s b item) as [b1|] eqn:E; [|discriminate].
    intros H Hk. destruct (IH _ _ _ H Hk) as [Hb1|(p & c & Hin)]; [|eauto].
    unfold directory_round in E.
    destruct item as [n p sz | n p ch]; [injection E as <-; auto|].
    destruct (dict_get n directory_types); [|injection E as <-; auto].
    destruct (stage_counts (get_stage_files s n)) as [[[t u] d]|];
      [|discriminate].
    injection E as <-. cbn in Hb1.
    destruct (string_dec k n) as [->|Hne]; [eauto|].
    rewrite dict_get_set_other in Hb1; auto.
Qed.

Lemma build_tree_directories rel entries k p c :
  In (ItemDir k p c) (build_tree rel entries) ->
  exists r ch, In (FsDir k r ch) entries.
Proof.
  induction entries as [|e entries IH]; cbn; [intros []|].
  destruct (build_item rel e) as [i|] eqn:E.
  - intros [Hi|Hin].
    + subst i. destruct e as [n sz|n r ch]; cbn in E;
        match type of E with
        | (if ?c then _ else _) = _ => destruct c; try discriminate
        end.
      injection E as E1 _ _. subst. eauto.
    + destruct (IH Hin) as (r & ch & H). eauto.
  - intros Hin. destruct (IH Hin) as (r & ch & H). eauto.
Qed.

Lemma dict_get_pair {V} k (v : V) d : dict_get k d = Some v -> In (k, v) d.
Proof.
  induction d as [|[k' v'] d IH]; cbn; [discriminate|].
  destruct (String.eqb_spec k k'); [intros [= ->]; subst; auto | auto].
Qed.

Lemma missing_loop_keeps stages : forall b k v,
  dict_get k (directory_nodes b) = Some v ->
  dict_get k (directory_nodes (missing_loop b stages)) = Some v.
Proof.
  induction stages as [|[name info] stages IH]; cbn; intros b k v H; auto.
  destruct (dict_get name (directory_nodes b)) eqn:E; auto.
  apply IH. cbn. rewrite dict_get_set_other; auto. congruence.
Qed.

Lemma missing_loop_placeholder stages : forall b name info,
  NoDup (map fst stages) -> In (name, info) stages ->
  dict_get name (directory_nodes b) = None ->
  exists i,
    In (placeholder i name info) (b_nodes (missing_loop b stages))
    /\ dict_get name (directory_nodes (missing_loop b stages)) = Some i.
Proof.
  induction stages as [|[k ki] stages IH]; cbn; intros b name info Hnd Hin Hnone.
  - destruct Hin.
  - inversion Hnd as [|? ? Hk Hnd']; subst. destruct Hin as [Heq|Hin].
    + injection Heq as -> ->. rewrite Hnone.
      exists (node_id b). split.
      * match goal with |- In _ (b_nodes (missing_loop ?b0 _)) =>
          destruct (missing_loop_nodes stages b0) as (added & ->) end.
        cbn. apply in_or_app. left. apply in_or_app. right. now left.
      * apply missing_loop_keeps. cbn. apply dict_get_set_same.
    + assert (Hne : name <> k).
      { intros ->. apply Hk. apply in_map_iff. exists (k, info). auto. }
      destruct (dict_get k (directory_nodes b)); [apply IH; auto|].
      apply IH; auto. cbn. rewrite dict_get_set_other; auto.
Qed.

Lemma placeholders_general (s : snapshot) (dp : string) (g : dataflow)
    (entries : list fs_entry) :
  dataset s = Some entries ->
  create_dataflow_from_dataset s dp = Return g ->
  forall name info,
    In (name, info) missing_stages ->
    (forall r ch, ~ In (FsDir name r ch) entries) ->
    exists i,
      In (placeholder i name info) (nodes g)
      /\ In (contains_edge 1 i) (edges g).
Proof.
  intros Hds H name info Hin Habsent.
  apply create_dataflow_shape, build_dataflow_shape in H.
  destruct H as (b & _ & Hn & He & tree & b1 & Htree & Hloop & ->).
  unfold get_file_tree in Htree. rewrite Hds in Htree. injection Htree as <-.
  assert (Hnone : dict_get name (directory_nodes b1) = None).
  { destruct (dict_get name (directory_nodes b1)) eqn:E; [|reflexivity].
    exfalso.
    destruct (directory_loop_keys _ _ _ _ name Hloop) as [Hk|(p & c & Hk)].
    - congruence.
    - cbn in Hk. congruence.
    - apply build_tree_directories in Hk as (r & ch & Hk).
      exact (Habsent _ _ Hk). }
  destruct (missing_loop_placeholder missing_stages b1 name info)
    as (i & Hi & Hd); auto.
  { cbn. repeat constructor; cbn; intuition discriminate. }
  exists i. rewrite Hn, He. split; [exact Hi|].
  apply dict_get_pair in Hd.
  apply in_map_iff. exists (name, i). auto.
Qed.

(** C7. For every directory of the dataset root that is a known stage,
    the graph has a node carrying the status counts of that directory,
    and its colour follows the priority deleted, untracked, clean: the
    alert colour when files were deleted, else the warning colour when
    files are untracked, else the base colour of the stage. *)
Theorem stage_node_color_priority (s : snapshot) (dp : string)
    (g : dataflow) (entries : list fs_entry) :
  dataset s = Some entries ->
  create_dataflow_from_dataset s dp = Return g ->
  forall name p children info,
    In (ItemDir name p children) (build_tree "" entries) ->
    dict_get name directory_types = Some info ->
    exists n t u d,
      In n (nodes g)
      /\ path n = p /\ type n = info_type info
      /\ stage_counts (get_stage_files s name) = Return (t, u, d)
      /\ tracking_info n = Some (mkTracking t u d (0 <? u)%nat (0 <? d)%nat)
      /\ ((0 < d)%nat -> color n = alert_color)
      /\ (d = 0%nat -> (0 < u)%nat -> color n = warning_color)
      /\ (d = 0%nat -> u = 0%nat -> color n = info_color info).
Proof.
  intros Hds H name p children info Hin Hk.
  apply create_dataflow_shape, build_dataflow_shape in H.
  destruct H as (b & _ & Hn & _ & tree & b1 & Htree & Hloop & ->).
  unfold get_file_tree in Htree. rewrite Hds in Htree. injection Htree as <-.
  destruct (directory_loop_nodes _ _ _ _ Hloop) as (added & Hadd & Hall).
  destruct (Hall _ _ _ _ Hin Hk)
    as (n & t & u & d & Hinn & Hc & Hp & Hty & _ & Htr & Hcol).
  exists n, t, u, d.
  split.
  { rewrite Hn. destruct (missing_loop_nodes missing_stages b1) as (more & ->).
    rewrite Hadd. apply in_or_app. left. apply in_or_app. now right. }
  repeat (split; [assumption|]).
  unfold node_color in Hcol.
  repeat split.
  - intros Hd. destruct d; [lia | exact Hcol].
  - intros -> Hu. destruct u; [lia | exact Hcol].
  - intros -> ->. exact Hcol.
Qed.

Lemma synthesize_star_witness :
  List.length (filter is_central (nodes Scenarios.results_only_graph)) = 1%nat
  /\ NoDup (map to (edges Scenarios.results_only_graph)).
Proof.
  destruct (synthesize_star Scenarios.results_only Scenarios.ds
              Scenarios.results_only_graph)
    as (H1 & _ & _ & _ & _ & H6).
  - reflexivity.
  - split; [exact H1 | exact H6].
Defined.

Lemma stage_node_color_priority_witness :
  exists n,
    In n [central_node 1 Scenarios.ds;
          mkNode 2 ("raw_data" ++ PyStr.nl
                    ++ "(1 files, 1 untracked, 1 deleted)")
            "raw_data" "raw_data" alert_color "Raw data files" 1
            (Some (mkTracking 0 1 1 true true)) false]
    /\ path n = "raw_data" /\ color n = alert_color.
Proof.
  destruct (stage_node_color_priority Scenarios.deleted_and_untracked
              Scenarios.ds
              (mkDataflow
                 [central_node 1 Scenarios.ds;
                  mkNode 2 ("raw_data" ++ PyStr.nl
                            ++ "(1 files, 1 untracked, 1 deleted)")
                    "raw_data" "raw_data" alert_color "Raw data files" 1
                    (Some (mkTracking 0 1 1 true true)) false;
                  placeholder 3 "scripts"
                    (mkInfo "#4CAF50" "scripts"
                       "Analysis and processing scripts");
                  placeholder 4 "results"
                    (mkInfo "#FFA07A" "results" "Final results and outputs");
                  placeholder 5 "plots"
                    (mkInfo "#DDA0DD" "plots" "Generated visualizations")]
                 [contains_edge 1 2; contains_edge 1 3; contains_edge 1 4;
                  contains_edge 1 5]
                 (mkGraphMetadata Scenarios.ds "spider_web_directory" 5 4))
              [FsDir "raw_data" true [FsFile "new.csv" 10]]
              eq_refl eq_refl
              "raw_data" "raw_data" [ItemFile "new.csv" "raw_data/new.csv" 10]
              (mkInfo "#87CEEB" "raw_data" "Raw data files"))
    as (n & t & u & d & Hin & Hp & _ & Hc & _ & Hdel & _).
  - cbn. left. reflexivity.
  - reflexivity.
  - exists n. vm_compute in Hc. injection Hc as Ht Hu Hd. subst t u d.
    split; [|split; [exact Hp | apply Hdel; lia]].
    cbn in Hin. destruct Hin as [<-|[<-|[<-|[<-|[<-|[]]]]]];
      try discriminate Hp; cbn; auto.
Defined.

(** C6 as it stands fails on its own scenario: with [results/] alone
    the graph has three edges, not two, since [scripts] receives a
    placeholder as well. Nor does every absent stage get a placeholder:
    no node stands for [raw_data]. *)
Lemma synthesize_results_only_not_two_edges :
  exists g,
    create_dataflow_from_dataset Scenarios.results_only Scenarios.ds
      = Return g
    /\ List.length (edges g) = 3%nat
    /\ List.length (edges g) <> 2%nat
    /\ In (placeholder 3 "scripts"
             (mkInfo "#4CAF50" "scripts" "Analysis and processing scripts"))
          (nodes g)
    /\ Forall (fun n => type n <> "raw_data") (nodes g).
Proof.
  exists Scenarios.results_only_graph.
  split; [reflexivity|]. split; [reflexivity|]. split; [discriminate|].
  split; [cbn; auto|].
  repeat constructor; discriminate.
Qed.

(** C6, amended. For each of the stages [scripts], [results] and
    [plots] that has no directory in the dataset root, the graph holds
    a placeholder node with [file_count] 0 and an edge from the root to
    it. For the dataset with [results/] alone (one tracked, one
    untracked file) the graph is: the root, the [results] node with
    [tracked_files] 1 and [untracked_files] 1, the placeholders of
    [scripts] and [plots], and three edges, all from the root. *)
Theorem synthesize_placeholders :
  (forall (s : snapshot) (dp : string) (g : dataflow)
          (entries : list fs_entry),
      dataset s = Some entries ->
      create_dataflow_from_dataset s dp = Return g ->
      forall name info,
        In (name, info) missing_stages ->
        (forall r ch, ~ In (FsDir name r ch) entries) ->
        exists i,
          In (placeholder i name info) (nodes g)
          /\ file_count (placeholder i name info) = 0%nat
          /\ In (contains_edge 1 i) (edges g))
  /\ create_dataflow_from_dataset Scenarios.results_only Scenarios.ds
     = Return Scenarios.results_only_graph.
Proof.
  split; [|reflexivity].
  intros s dp g entries Hds Hg name info Hin Habsent.
  destruct (placeholders_general s dp g entries Hds Hg name info Hin Habsent)
    as (i & Hn & He).
  exists i. repeat split; assumption.
Qed.

Lemma synthesize_placeholders_witness :
  exists i,
    In (placeholder i "plots"
          (mkInfo "#DDA0DD" "plots" "Generated visualizations"))
       (nodes Scenarios.results_only_graph)
    /\ In (contains_edge 1 i) (edges Scenarios.results_only_graph).
Proof.
  destruct (proj1 synthesize_placeholders Scenarios.results_only
              Scenarios.ds Scenarios.results_only_graph
              Scenarios.results_only_listing eq_refl eq_refl
              "plots" (mkInfo "#DDA0DD" "plots" "Generated visualizations"))
    as (i & Hn & _ & He).
  - cbn. auto.
  - intros r ch H. cbn in H.
    repeat (destruct H as [H|H]; [discriminate H|]). exact H.
  - exists i. split; assumption.
Defined.

End SynthesizerProofs.

(* ===================================================================== *)
(** ** Facts about [split] and [strip] *)
(* ===================================================================== *)

Module StrFacts.
Import PyStr GitLog.

Lemma append_nil_r s : s ++ "" = s.
Proof. induction s as [|x s IH]; cbn; [reflexivity | now rewrite IH]. Qed.

Lemma append_assoc a b c : (a ++ b) ++ c = a ++ (b ++ c).
Proof. induction a as [|x a IH]; cbn; [reflexivity | now rewrite IH]. Qed.

Lemma rev_acc_app acc s : rev_acc acc s = rev_acc "" s ++ acc.
Proof.
  revert acc. induction s as [|x s IH]; intros acc; cbn; [reflexivity|].
  rewrite (IH (String x acc)), (IH (String x "")).
  rewrite append_assoc. reflexivity.
Qed.

Lemma rev_acc_involutive cur a : rev_acc "" (rev_acc cur a) = rev_acc "" cur ++ a.
Proof.
  revert cur. induction a as [|x a IH]; intros cur; cbn.
  - now rewrite append_nil_r.
  - rewrite IH. cbn. rewrite (rev_acc_app (String x "") cur).
    rewrite append_assoc. reflexivity.
Qed.

Lemma prefix_char_same c s : prefix (String c "") (String c s) = true.
Proof. cbn. destruct (ascii_dec c c); [|congruence]. now destruct s. Qed.

Lemma prefix_char_other c x s : Ascii.eqb x c = false -> prefix (String c "") (String x s) = false.
Proof.
  intros H. cbn. destruct (ascii_dec c x) as [->|]; [|reflexivity].
  now rewrite Ascii.eqb_refl in H.
Qed.

Lemma split_aux_piece c cur a rest :
  free_of c a = true ->
  split_aux (String c "") 0 cur (a ++ String c rest)
  = (rev_acc "" cur ++ a) :: split_aux (String c "") 0 "" rest.
Proof.
  revert cur. induction a as [|x a IH]; intros cur Hfree.
  - cbn [append]. cbn [split_aux]. rewrite prefix_char_same. cbn.
    now rewrite append_nil_r.
  - cbn in Hfree. apply andb_prop in Hfree as [Hx Ha].
    apply negb_true_iff in Hx.
    cbn [append split_aux]. rewrite (prefix_char_other _ _ _ Hx).
    rewrite (IH _ Ha). cbn. rewrite (rev_acc_app (String x "") cur).
    rewrite append_assoc. reflexivity.
Qed.

Lemma split_aux_last c cur a :
  free_of c a = true ->
  split_aux (String c "") 0 cur a = [rev_acc "" cur ++ a].
Proof.
  revert cur. induction a as [|x a IH]; intros cur Hfree.
  - cbn. now rewrite append_nil_r.
  - cbn in Hfree. apply andb_prop in Hfree as [Hx Ha].
    apply negb_true_iff in Hx.
    cbn [split_aux]. rewrite (prefix_char_other _ _ _ Hx).
    rewrite (IH _ Ha). cbn. rewrite (rev_acc_app (String x "") cur).
    rewrite append_assoc. reflexivity.
Qed.

Lemma split_piece c a rest :
  free_of c a = true ->
  split (String c "") (a ++ String c rest) = a :: split (String c "") rest.
Proof. intros H. unfold split. now rewrite split_aux_piece. Qed.

Lemma split_last c a :
  free_of c a = true -> split (String c "") a = [a].
Proof. intros H. unfold split. now rewrite split_aux_last. Qed.


Lemma append_length a b :
  String.length (a ++ b) = (String.length a + String.length b)%nat.
Proof. induction a as [|x a IH]; cbn; [reflexivity | now rewrite IH]. Qed.

Lemma free_of_app c a b : free_of c (a ++ b) = free_of c a && free_of c b.
Proof.
  induction a as [|x a IH]; cbn; [reflexivity|].
  now rewrite IH, andb_assoc.
Qed.

(** A string whose last character exists and is no white space keeps its
    end under [rstrip], whatever is put before it. *)
Lemma rstrip_app a b : rstrip b <> "" -> rstrip (a ++ b) = a ++ rstrip b.
Proof.
  intros Hb. induction a as [|x a IH]; cbn; [reflexivity|].
  rewrite IH. destruct (a ++ rstrip b) eqn:E; [|reflexivity].
  exfalso. destruct a; cbn in E; [congruence | discriminate].
Qed.

Lemma lstrip_keep x r : is_space x = false -> lstrip (String x r) = String x r.
Proof. intros H. cbn. now rewrite H. Qed.

Lemma rstrip_nonspace x r : is_space x = false -> rstrip (String x r) <> "".
Proof. intros H. cbn. destruct (rstrip r); [rewrite H|]; discriminate. Qed.

End StrFacts.

(* ===================================================================== *)
(** ** History queries: [get_detailed_git_log] *)
(* ===================================================================== *)

Module HistoryProofs.
Import Py PyStr GitOperations GitLog StrFacts.

(** The loop keeps the order of the lines and adds nothing of its own:
    when every line is an entry line, the result has one record per
    line, in the order of the lines. *)
Lemma detailed_commits_one_per_line (lines : list string) :
  Forall entry_line lines ->
  map Some (detailed_commits lines) = map detailed_commit lines.
Proof.
  induction 1 as [|line lines [Hblank [c Hc]] _ IH]; cbn; [reflexivity|].
  rewrite Hblank, Hc. cbn. now rewrite IH.
Qed.

Lemma detailed_commits_length (lines : list string) :
  Forall entry_line lines ->
  List.length (detailed_commits lines) = List.length lines.
Proof.
  intros H. apply detailed_commits_one_per_line in H.
  apply (f_equal (@List.length _)) in H. now rewrite !length_map in H.
Qed.

(** No record is invented between two lines or moved: the records are
    those of the lines that yield one, in the order of the lines. *)
Lemma detailed_commits_in_order (lines : list string) :
  detailed_commits lines =
    flat_map (fun line =>
                if PyStr.truthy (PyStr.strip line)
                then match detailed_commit line with
                     | Some c => [c]
                     | None => []
                     end
                else []) lines.
Proof.
  induction lines as [|line lines IH]; cbn; [reflexivity|].
  destruct (PyStr.truthy (PyStr.strip line)); cbn; [|exact IH].
  destruct (detailed_commit line); cbn; now rewrite IH.
Qed.

(** *** Logs that hold one line per commit *)

Lemma tidy_field_bar s : tidy_field s = true -> free_of bar s = true.
Proof. unfold tidy_field. intros H. now apply andb_prop in H. Qed.

Lemma tidy_field_newline s : tidy_field s = true -> free_of newline s = true.
Proof. unfold tidy_field. intros H. now apply andb_prop in H. Qed.

Lemma detailed_commit_format c : tidy c -> detailed_commit (format_commit c) = Some c.
Proof.
  intros (H0 & H1 & H2 & H3 & H4 & H5 & H6 & _).
  apply tidy_field_bar in H0, H1, H2, H3, H4, H5, H6.
  unfold detailed_commit, format_commit.
  cbn [append]. change "|" with (String bar "").
  rewrite !split_piece, split_last by assumption.
  now destruct c.
Qed.

Lemma format_commit_newline c : tidy c -> free_of newline (format_commit c) = true.
Proof.
  intros (H0 & H1 & H2 & H3 & H4 & H5 & H6 & _).
  apply tidy_field_newline in H0, H1, H2, H3, H4, H5, H6.
  unfold format_commit. rewrite !free_of_app.
  rewrite H0, H1, H2, H3, H4, H5, H6. reflexivity.
Qed.

Lemma format_commit_head c :
  tidy c -> exists x r, format_commit c = String x r /\ is_space x = false.
Proof.
  intros (_ & _ & _ & _ & _ & _ & _ & (x & r & Hh & Hx) & _).
  unfold format_commit. rewrite Hh. cbn. eauto.
Qed.

Lemma format_commit_rstrip c :
  tidy c -> rstrip (format_commit c) = format_commit c
            /\ rstrip (format_commit c) <> "".
Proof.
  intros (_ & _ & _ & _ & _ & _ & _ & _ & Hb).
  assert (Hend : rstrip ("|" ++ body c) = "|" ++ body c
                 /\ rstrip ("|" ++ body c) <> "").
  { cbn. rewrite Hb. destruct (body c); split; vm_compute; congruence. }
  destruct Hend as [He Hne].
  unfold format_commit.
  rewrite <- !append_assoc. rewrite (append_assoc _ "|" (body c)).
  rewrite (rstrip_app _ _ Hne), He.
  split; [reflexivity|].
  intros E. apply (f_equal String.length) in E.
  rewrite !append_length in E. cbn in E. lia.
Qed.

Lemma split_join_lines lines :
  lines <> [] ->
  Forall (fun l => free_of newline l = true) lines ->
  split nl (join nl lines) = lines.
Proof.
  intros Hne H. induction H as [|x rest Hx Hrest IH]; [congruence|].
  destruct rest as [|y rest].
  - cbn. now apply split_last.
  - change (join nl (x :: y :: rest))
      with (x ++ String newline (join nl (y :: rest))).
    change nl with (String newline "").
    rewrite split_piece by assumption.
    f_equal. apply IH. discriminate.
Qed.

Lemma format_commit_strip c : tidy c -> strip (format_commit c) = format_commit c.
Proof.
  intros Ht. unfold strip.
  destruct (format_commit_head c Ht) as (x & r & Hh & Hx).
  rewrite Hh, (lstrip_keep _ _ Hx), <- Hh.
  apply format_commit_rstrip, Ht.
Qed.

Lemma format_commit_not_blank c :
  tidy c -> truthy (strip (format_commit c)) = true.
Proof.
  intros Ht. rewrite (format_commit_strip c Ht).
  destruct (format_commit_head c Ht) as (x & r & -> & _). reflexivity.
Qed.

Lemma rstrip_log commits :
  commits <> [] -> Forall tidy commits ->
  rstrip (join nl (map format_commit commits))
    = join nl (map format_commit commits)
  /\ rstrip (join nl (map format_commit commits)) <> "".
Proof.
  intros Hne H. induction H as [|c rest Hc Hrest IH]; [congruence|].
  destruct rest as [|d rest].
  - cbn. now apply format_commit_rstrip.
  - change (join nl (map format_commit (c :: d :: rest)))
      with (format_commit c ++ nl ++ join nl (map format_commit (d :: rest))).
    destruct IH as [IH1 IH2]; [discriminate|].
    rewrite <- append_assoc.
    rewrite (rstrip_app _ _ IH2), IH1. split; [reflexivity|].
    intros E. apply (f_equal String.length) in E.
    rewrite !append_length in E. cbn in E. lia.
Qed.

Lemma strip_log commits :
  Forall tidy commits ->
  strip (join nl (map format_commit commits))
    = join nl (map format_commit commits).
Proof.
  intros H. destruct commits as [|c rest]; [reflexivity|].
  unfold strip.
  assert (Hl : lstrip (join nl (map format_commit (c :: rest)))
               = join nl (map format_commit (c :: rest))).
  { inversion H as [|? ? Hc Hrest]; subst.
    destruct (format_commit_head c Hc) as (x & r & Hh & Hx).
    destruct rest as [|d rest].
    - cbn. rewrite Hh. now apply lstrip_keep.
    - change (join nl (map format_commit (c :: d :: rest)))
        with (format_commit c ++ nl ++ join nl (map format_commit (d :: rest))).
      rewrite Hh. cbn [append]. now apply lstrip_keep. }
  rewrite Hl. apply rstrip_log; [discriminate | assumption].
Qed.

Lemma detailed_commits_format commits :
  Forall tidy commits ->
  detailed_commits (map format_commit commits) = commits.
Proof.
  induction 1 as [|c rest Hc _ IH]; cbn; [reflexivity|].
  rewrite (format_commit_not_blank c Hc), (detailed_commit_format c Hc), IH.
  reflexivity.
Qed.

(** The loop reads a log of tidy commits back as it was written. *)
Lemma detailed_commits_of_log commits :
  Forall tidy commits ->
  detailed_commits (split nl (strip (join nl (map format_commit commits))))
  = commits.
Proof.
  intros H. rewrite (strip_log commits H).
  destruct commits as [|c rest]; [reflexivity|].
  rewrite split_join_lines.
  - now apply detailed_commits_format.
  - discriminate.
  - apply Forall_map. eapply Forall_impl; [|exact H].
    intros a Ha. now apply format_commit_newline.
Qed.

(** On a history whose newest [n] commits are tidy, the history query
    with limit [n] returns exactly those commits, newest first, after one
    log command. *)
Lemma detailed_log_tidy (w : world) (dp : string) (history : list CommitRecord)
    (n : nat) (err : string) :
  path_exists w [] dp = true ->
  respond w [] (detailed_log_cmd (Z.of_nat n)) dp
    = Completed 0 (git_log history n) err ->
  Forall tidy (firstn n history) ->
  call (get_detailed_git_log w dp (Z.of_nat n)) tt
    = (Return (firstn n history),
       [Run (detailed_log_cmd (Z.of_nat n)) dp]).
Proof.
  intros Hex Hresp Ht.
  unfold call, get_detailed_git_log, try_except, bind, os_path_exists,
    subprocess_run. cbn.
  rewrite Hex. cbn. rewrite Hresp. cbn.
  unfold git_log. now rewrite (detailed_commits_of_log _ Ht).
Qed.

Lemma detailed_log_tidy_count (w : world) (dp : string)
    (history : list CommitRecord) (n : nat) (err : string) :
  (n <= List.length history)%nat ->
  path_exists w [] dp = true ->
  respond w [] (detailed_log_cmd (Z.of_nat n)) dp
    = Completed 0 (git_log history n) err ->
  Forall tidy (firstn n history) ->
  exists records,
    fst (call (get_detailed_git_log w dp (Z.of_nat n)) tt) = Return records
    /\ List.length records = n
    /\ records = firstn n history.
Proof.
  intros Hn Hex Hresp Ht. exists (firstn n history).
  rewrite (detailed_log_tidy w dp history n err Hex Hresp Ht). cbn.
  repeat split. apply firstn_length_le, Hn.
Qed.
Lemma detailed_log_tidy_example :
  call (get_detailed_git_log
          (Scenarios.scripted
             [(detailed_log_cmd 3,
               Completed 0 (git_log (tl Scenarios.five_commits) 3) "")]
             (Completed 128 "" "fatal: unexpected command"))
          Scenarios.ds 3) tt
  = (Return (firstn 3 (tl Scenarios.five_commits)),
     [Run (detailed_log_cmd 3) Scenarios.ds]).
Proof.
  apply (detailed_log_tidy _ Scenarios.ds (tl Scenarios.five_commits) 3 "");
    try reflexivity.
  repeat constructor; try reflexivity;
    eexists _, _; split; reflexivity.
Qed.

(** *** The short history *)

(** [get_commit_history] reads the hashes in the order of the lines. *)
Lemma oneline_commits_in_order (w : world) (dp : string) (lines : list string) :
  forall l h res l' h',
    oneline_commits w dp lines l h = (Return res, l', h') ->
    map Oneline.hash res = flat_map oneline_hash lines.
Proof.
  induction lines as [|line lines IH]; intros l h res l' h'.
  - cbn. intros [= <- _ _]. reflexivity.
  - cbn [oneline_commits flat_map]. unfold oneline_hash at 1.
    destruct (PyStr.truthy (PyStr.strip line)); [|apply IH].
    destruct (PyStr.split1 " " line) as [|a [|b [|c rest]]]; try apply IH.
    unfold bind at 1.
    destruct (_get_full_hash w dp a l h) as [[[full|e] l1] h1]; [|discriminate].
    unfold bind at 1.
    destruct (oneline_commits w dp lines l1 h1) as [[[commits|e] l2] h2] eqn:E;
      [|discriminate].
    cbn. intros [= <- _ _]. cbn. f_equal. eapply IH, E.
Qed.
(** C9. On a dataset with five commits whose newest commit quotes a
    table row in its body, the history query with limit 3 returns four
    records: the second one is made of the pieces of that body line and
    is no commit of the dataset. *)
Theorem detailed_log_extra_record :
  (3 <= List.length Scenarios.five_commits)%nat
  /\ exists r1 bogus r2 r3,
       call (get_detailed_git_log Scenarios.history_world Scenarios.ds 3) tt
         = (Return [r1; bogus; r2; r3],
            [Run (detailed_log_cmd 3) Scenarios.ds])
       /\ map full_hash [r1; r2; r3]
          = map full_hash (firstn 3 Scenarios.five_commits)
       /\ bogus = mkCommitRecord "" " run " " n " " mean " " sd " " p " ""
       /\ ~ In (full_hash bogus) (map full_hash Scenarios.five_commits).
Proof.
  split; [cbn; lia|].
  do 4 eexists. split; [vm_compute; reflexivity|].
  split; [reflexivity|]. split; [reflexivity|].
  cbn. intros H. repeat (destruct H as [H|H]; [discriminate H|]). exact H.
Qed.

End HistoryProofs.

(* ===================================================================== *)
(** ** More on [restore_file_to_commit] and its route *)
(* ===================================================================== *)

Module RestorerMore.
Import Py GitOperations Traces TracesMore RestorerProofs.

#[local] Arguments str_or : simpl never.
#[local] Arguments String.append : simpl never.

(** X1. When the checkout exits non-zero, [restore] raises "Failed to
    restore file ..." with the error text taken from stderr, else from
    stdout, else "Unknown error", and stops: nothing is staged or
    committed. *)
Theorem restore_checkout_failure (w : world) (dp fp ch : string)
    (msg : option string) (rc : Z) (out err : string) :
  path_exists w [] dp = true ->
  file_in_revision w dp fp ch = true ->
  respond w [Run ["git"; "show"; ch ++ ":" ++ fp] dp;
             Print ("Attempting to restore " ++ fp ++ " from commit " ++ ch)]
    ["git"; "checkout"; ch; "--"; fp] dp = Completed rc out err ->
  rc <> 0%Z ->
  restore w dp fp ch msg =
    (Raise (GitOperationError
       ("Failed to restore file " ++ fp ++ " from commit " ++ ch ++ ": "
        ++ (if PyStr.truthy err then err
            else if PyStr.truthy out then out else "Unknown error"))),
     [Run ["git"; "show"; ch ++ ":" ++ fp] dp;
      Print ("Attempting to restore " ++ fp ++ " from commit " ++ ch);
      Run ["git"; "checkout"; ch; "--"; fp] dp]).
Proof.
  unfold file_in_revision. intros Hex Hrev Hco Hrc.
  apply Z.eqb_neq in Hrc.
  unfold_restore. rewrite Hex. cbn. rewrite Hex. cbn.
  destruct (respond w [] ["git"; "show"; ch ++ ":" ++ fp] dp); [|discriminate].
  cbn. rewrite Hrev. cbn. rewrite Hco. cbn. rewrite Hrc. cbn.
  reflexivity.
Qed.

Lemma restore_checkout_failure_witness :
  restore ScenariosMore.checkout_fails_world Scenarios.ds "data.csv" "abc1234"
    None =
    (Raise (GitOperationError
       "Failed to restore file data.csv from commit abc1234: Unknown error"),
     [Run ["git"; "show"; "abc1234:data.csv"] Scenarios.ds;
      Print "Attempting to restore data.csv from commit abc1234";
      Run ["git"; "checkout"; "abc1234"; "--"; "data.csv"] Scenarios.ds]).
Proof.
  apply (restore_checkout_failure ScenariosMore.checkout_fails_world
           Scenarios.ds "data.csv" "abc1234" None 1%Z "" "");
    try reflexivity.
  discriminate.
Defined.

(** X2. Whenever [restore] raises a [GitOperationError], no staging,
    commit or DataLad save was run: the fatal errors of a restoration
    all come before its persist steps. *)
Theorem restore_error_before_staging (w : world) (dp fp ch : string)
    (msg : option string) (text : string) :
  fst (restore w dp fp ch msg) = Raise (GitOperationError text) ->
  filter is_persist (snd (restore w dp fp ch msg)) = [].
Proof.
  unfold_restore. case_world; cbn; intros H; try discriminate H; reflexivity.
Qed.

Lemma restore_error_before_staging_witness :
  filter is_persist
    (snd (restore ScenariosMore.checkout_fails_world Scenarios.ds "data.csv"
            "abc1234" None)) = [].
Proof.
  apply (restore_error_before_staging ScenariosMore.checkout_fails_world
           Scenarios.ds "data.csv" "abc1234" None
           "Failed to restore file data.csv from commit abc1234: Unknown error").
  reflexivity.
Defined.

(** X3. After [git status --porcelain]: when its output is blank, no
    commit is run and the skip is printed; when it is not, [git commit]
    is run with the supplied message or, without one, with "Restore
    <file> from commit <revision>". *)
Theorem restore_skips_empty_commit (w : world) (dp fp ch : string)
    (msg : option string) (h rest : list event) (rc : Z) (out err : string) :
  snd (restore w dp fp ch msg)
    = (h ++ Run ["git"; "status"; "--porcelain"] dp :: rest)%list ->
  respond w h ["git"; "status"; "--porcelain"] dp = Completed rc out err ->
  (PyStr.strip out = "" ->
     filter is_git_commit rest = []
     /\ In (Print "No staged changes to commit, skipping commit step") rest)
  /\ (PyStr.truthy (PyStr.strip out) = true ->
      In (Run ["git"; "commit"; "-m"; restore_message msg fp ch] dp) rest).
Proof.
  intros H. revert H. unfold_restore. case_world; intros H;
    (apply (split_at_unique is_git_status) in H;
     [ cbn in H; try discriminate H; inversion H; subst; clear H
     | reflexivity | cbn; lia ]).
  all: intros HR; same_response.
  all: split; intros Hs.
  all: try (rewrite Hs in *; cbn in *; discriminate).
  all: try (split; [reflexivity | cbn; auto 12]).
  all: try (destruct msg as [[|c s]|]; cbn; auto 12).
Qed.

Lemma restore_skips_empty_commit_witness :
  filter is_git_commit
    [Print "Git status before commit: ";
     Print "Committing restoration with message: Restore data.csv from commit abc1234";
     Print "No staged changes to commit, skipping commit step";
     Print "Saving to DataLad with message: Restore data.csv from commit abc1234";
     Run ["datalad"; "save"; "-m"; "Restore data.csv from commit abc1234"]
       Scenarios.ds] = [].
Proof.
  apply (restore_skips_empty_commit ScenariosMore.unchanged_file_world
           Scenarios.ds "data.csv" "abc1234" None
           [Run ["git"; "show"; "abc1234:data.csv"] Scenarios.ds;
            Print "Attempting to restore data.csv from commit abc1234";
            Run ["git"; "checkout"; "abc1234"; "--"; "data.csv"] Scenarios.ds;
            Print "Adding data.csv to git";
            Run ["git"; "add"; "data.csv"] Scenarios.ds]
           _ 0%Z "" "");
    reflexivity.
Defined.

(** X4. Every [git commit] and every [datalad save] that [restore] runs
    carries one and the same message: the supplied one when it is not
    empty, else "Restore <file> from commit <revision>". *)
Theorem restore_uses_one_message (w : world) (dp fp ch : string)
    (msg : option string) (e : event) :
  In e (snd (restore w dp fp ch msg)) ->
  (is_git_commit e = true ->
     e = Run ["git"; "commit"; "-m"; restore_message msg fp ch] dp)
  /\ (is_datalad_save e = true ->
      e = Run ["datalad"; "save"; "-m"; restore_message msg fp ch] dp).
Proof.
  unfold_restore. case_world; cbn; intros H.
  all: repeat (destruct H as [H|H]; [subst e; cbn; split; intros Hk;
                                     try discriminate Hk|]).
  all: try (destruct H).
  all: destruct msg as [[|c s]|]; reflexivity.
Qed.

Lemma restore_uses_one_message_witness :
  Run ["datalad"; "save"; "-m"; "Restore data.csv from commit abc1234"]
    Scenarios.ds
  = Run ["datalad"; "save"; "-m"; restore_message None "data.csv" "abc1234"]
      Scenarios.ds.
Proof.
  apply (restore_uses_one_message Scenarios.datalad_fails_world Scenarios.ds
           "data.csv" "abc1234" None
           (Run ["datalad"; "save"; "-m";
                 "Restore data.csv from commit abc1234"] Scenarios.ds)).
  - vm_compute. tauto.
  - reflexivity.
Defined.

End RestorerMore.

(* ===================================================================== *)
(** ** The restore route of [file_api.py] *)
(* ===================================================================== *)

Module RouteProofs.
Import Py GitOperations DataflowApi FileApi Traces TracesMore RestorerProofs.

#[local] Arguments str_or : simpl never.
#[local] Arguments String.append : simpl never.

Ltac unfold_route :=
  unfold restore_request, call, restore_file, restore_file_to_commit,
    check_file_exists_in_commit, try_except, bind, os_path_exists,
    subprocess_run, print, ret, raise, except_Exception,
    except_CalledProcessError; cbn.


(** X6. Asked for a file that is not part of the revision, the restore
    route answers 500 with the text "File ... does not exist in commit
    ..." after the read-only [git show] alone. *)
Theorem restore_request_file_not_in_revision (w : world)
    (fp ch dp : string) :
  PyStr.truthy fp = true -> PyStr.truthy ch = true ->
  PyStr.truthy dp = true ->
  path_exists w [] dp = true ->
  file_in_revision w dp fp ch = false ->
  restore_request w (Some fp) (Some ch) (Some dp) =
    (Return ([("error",
               JStr ("File " ++ fp ++ " does not exist in commit " ++ ch))],
             500%Z),
     [Run ["git"; "show"; ch ++ ":" ++ fp] dp]).
Proof.
  unfold file_in_revision. intros Hf Hc Hd Hex Hrev.
  unfold_route. rewrite Hf, Hc, Hd. cbn. rewrite Hex. cbn. rewrite Hex. cbn.
  destruct (respond w [] ["git"; "show"; ch ++ ":" ++ fp] dp); cbn.
  - rewrite Hrev. reflexivity.
  - reflexivity.
Qed.

Lemma restore_request_file_not_in_revision_witness :
  restore_request Scenarios.missing_file_world (Some "old.csv")
    (Some "abc1234") (Some Scenarios.ds) =
    (Return ([("error",
               JStr "File old.csv does not exist in commit abc1234")],
             500%Z),
     [Run ["git"; "show"; "abc1234:old.csv"] Scenarios.ds]).
Proof.
  apply (restore_request_file_not_in_revision Scenarios.missing_file_world
           "old.csv" "abc1234" Scenarios.ds);
    reflexivity.
Defined.

End RouteProofs.

(* ===================================================================== *)
(** ** More on [save_all_changes] *)
(* ===================================================================== *)

Module CommitterMore.
Import Py DataflowApi Traces.

#[local] Arguments String.append : simpl never.

(** *** Splitting at a separator that occurs *)

Lemma split_aux_nonempty sep s : forall skip cur,
  exists a r, PyStr.split_aux sep skip cur s = a :: r.
Proof.
  induction s as [|c s IH]; intros skip cur; cbn [PyStr.split_aux]; [eauto|].
  destruct skip; [|apply IH].
  destruct (prefix sep (String c s)); [eauto | apply IH].
Qed.

Lemma split_aux_two sep s : forall cur,
  sep <> "" -> PyStr.contains sep s = true ->
  exists a b r, PyStr.split_aux sep 0 cur s = a :: b :: r.
Proof.
  induction s as [|c s IH]; intros cur Hsep Hc.
  - destruct sep; [congruence | discriminate Hc].
  - change (PyStr.contains sep (String c s))
      with (prefix sep (String c s) || PyStr.contains sep s) in Hc.
    cbn [PyStr.split_aux].
    destruct (prefix sep (String c s)) eqn:Hp.
    + destruct (split_aux_nonempty sep s (String.length sep - 1) "")
        as (b & r & ->). eauto.
    + cbn [orb] in Hc. apply IH; assumption.
Qed.

(** [xs[1]] after [split] at a separator that occurs, and [xs[0]] after
    any [split], are in range: the status lines never raise
    [IndexError]. *)
Lemma subdataset_changes_returns (lines : list string) :
  forall l h, exists subs, subdataset_changes lines l h = (Return subs, l, h).
Proof.
  induction lines as [|line lines IH]; intros l h; cbn [subdataset_changes].
  - eexists. reflexivity.
  - destruct (PyStr.contains "modified:" line) eqn:Hm; cbn [andb]; [|apply IH].
    destruct (PyStr.contains "(dataset)" line) eqn:Hd; [|apply IH].
    destruct (split_aux_two "modified:" line "" ltac:(discriminate) Hm)
      as (a & b & r & Hs).
    unfold bind at 1. unfold PyStr.split. rewrite Hs. cbn [index nth_error ret].
    destruct (split_aux_nonempty "(dataset)" b 0 "") as (a' & r' & Hs').
    unfold bind at 1. rewrite Hs'. cbn [index nth_error ret].
    unfold bind at 1. destruct (IH l h) as (subs & ->).
    eexists. reflexivity.
Qed.

(** *** The loop over the nested units *)

(** Where every command can be started, the loop over the nested units
    runs to its end: it only adds entries to the attempt log and runs
    nothing but DataLad saves. *)
Lemma save_subdataset_returns (w : world) (dp msg sub : string) :
  always_launches w ->
  forall a h, exists a' t,
    save_subdataset w dp msg sub (Some a) h
      = (Return tt, Some (a ++ a')%list, (h ++ t)%list)
    /\ filter is_git_commit t = [].
Proof.
  intros HL a h.
  unfold save_subdataset, try_except, bind, os_path_exists, subprocess_run,
    append_attempt, get_local, set_local, ret, except_CalledProcessError.
  destruct (path_exists w h (PyStr.path_join dp sub)).
  2:{ exists [], []. now rewrite !app_nil_r. }
  destruct (HL h ["datalad"; "save"; "-m"; msg] (PyStr.path_join dp sub))
    as (rc & out & err & ->).
  destruct (rc =? 0)%Z; cbn.
  { eexists [_], [_]. split; reflexivity. }
  match goal with |- context [respond w ?h1 ?a1 ?d1] =>
    destruct (HL h1 a1 d1) as (rc2 & out2 & err2 & ->) end.
  destruct (rc2 =? 0)%Z; cbn; eexists [_], [_; _];
    rewrite <- app_assoc; split; reflexivity.
Qed.

Lemma save_subdatasets_returns (w : world) (dp msg : string)
    (subs : list string) :
  always_launches w ->
  forall a h, exists a' t,
    save_subdatasets w dp msg subs (Some a) h
      = (Return tt, Some (a ++ a')%list, (h ++ t)%list)
    /\ filter is_git_commit t = [].
Proof.
  intros HL. induction subs as [|s subs IH]; intros a h; cbn.
  - exists [], []. now rewrite !app_nil_r.
  - unfold bind at 1.
    destruct (save_subdataset_returns w dp msg s HL a h)
      as (a1 & t1 & -> & Ht1).
    destruct (IH (a ++ a1)%list (h ++ t1)%list) as (a2 & t2 & -> & Ht2).
    exists (a1 ++ a2)%list, (t1 ++ t2)%list.
    rewrite !app_assoc. split; [reflexivity|].
    now rewrite filter_app, Ht1, Ht2.
Qed.


(** X8. When the status query exits non-zero, [save_all_changes]
    answers 500 with "Failed to check dataset status: <stderr>" and has
    run nothing but that query. *)
Theorem commitAll_status_failure (w : world) (dp msg out err : string)
    (rc : Z) :
  PyStr.truthy dp = true ->
  respond w [] ["datalad"; "status"] dp = Completed rc out err ->
  rc <> 0%Z ->
  commitAll w (Some dp) msg =
    (Return ([("error", JStr ("Failed to check dataset status: " ++ err))],
             500%Z),
     [Run ["datalad"; "status"] dp]).
Proof.
  intros Hdp Hst Hrc. apply Z.eqb_neq in Hrc.
  unfold commitAll, call, save_all_changes, try_except.
  rewrite Hdp. cbn [negb].
  unfold save_all_changes_body, bind, subprocess_run.
  rewrite Hst. cbn. rewrite Hrc. reflexivity.
Qed.

Lemma commitAll_status_failure_witness :
  commitAll ScenariosMore.broken_status_world (Some Scenarios.ds) "nightly" =
    (Return ([("error",
               JStr "Failed to check dataset status: no installed dataset found")],
             500%Z),
     [Run ["datalad"; "status"] Scenarios.ds]).
Proof.
  apply (commitAll_status_failure ScenariosMore.broken_status_world
           Scenarios.ds "nightly" "" "no installed dataset found" 1%Z);
    try reflexivity.
  discriminate.
Defined.

(** X9. When the recursive save succeeds, [save_all_changes] stops
    there: two commands were run, the attempt log is the one entry
    "Recursive save: SUCCESS", and [output] is what the save printed. *)
Theorem commitAll_recursive_success (w : world)
    (dp msg out err out1 err1 : string) :
  PyStr.truthy dp = true ->
  respond w [] ["datalad"; "status"] dp = Completed 0 out err ->
  PyStr.truthy (PyStr.strip out) = true ->
  respond w [Run ["datalad"; "status"] dp]
    ["datalad"; "save"; "-r"; "-m"; msg] dp = Completed 0 out1 err1 ->
  commitAll w (Some dp) msg =
    (Return (jsonify
       [("success", JBool true);
        ("message", JStr "All changes have been saved to DataLad");
        ("commit_message", JStr msg);
        ("output", JStr out1);
        ("save_attempts", JStrs ["Recursive save: SUCCESS"])]),
     [Run ["datalad"; "status"] dp;
      Run ["datalad"; "save"; "-r"; "-m"; msg] dp]).
Proof.
  intros Hdp Hst Hdirty Hrec.
  unfold commitAll, call, save_all_changes, try_except.
  rewrite Hdp. cbn [negb].
  unfold save_all_changes_body, bind, subprocess_run.
  rewrite Hst. cbn. rewrite Hdirty. cbn.
  unfold recursive_save, try_except, bind, subprocess_run. cbn.
  rewrite Hrec. cbn. reflexivity.
Qed.

Lemma commitAll_recursive_success_witness :
  commitAll ScenariosMore.recursive_ok_world (Some Scenarios.ds)
    "Save all changes" =
    (Return (jsonify
       [("success", JBool true);
        ("message", JStr "All changes have been saved to DataLad");
        ("commit_message", JStr "Save all changes");
        ("output", JStr "save(ok): . (dataset)");
        ("save_attempts", JStrs ["Recursive save: SUCCESS"])]),
     [Run ["datalad"; "status"] Scenarios.ds;
      Run ["datalad"; "save"; "-r"; "-m"; "Save all changes"] Scenarios.ds]).
Proof.
  apply (commitAll_recursive_success ScenariosMore.recursive_ok_world
           Scenarios.ds "Save all changes"
           (" modified: results/out.csv (file)" ++ PyStr.nl) ""
           "save(ok): . (dataset)" "");
    reflexivity.
Defined.

(** What the run has reached when the recursive and the flat save both
    failed: approach 3 with two entries in the attempt log. *)
Lemma commitAll_after_two_failures (w : world)
    (dp msg out err out1 err1 out2 err2 : string) (rc1 rc2 : Z) :
  PyStr.truthy dp = true ->
  respond w [] ["datalad"; "status"] dp = Completed 0 out err ->
  PyStr.truthy (PyStr.strip out) = true ->
  respond w [Run ["datalad"; "status"] dp]
    ["datalad"; "save"; "-r"; "-m"; msg] dp = Completed rc1 out1 err1 ->
  rc1 <> 0%Z ->
  respond w [Run ["datalad"; "status"] dp;
             Run ["datalad"; "save"; "-r"; "-m"; msg] dp]
    ["datalad"; "save"; "-m"; msg] dp = Completed rc2 out2 err2 ->
  rc2 <> 0%Z ->
  recursive_save w dp msg out (Some []) [Run ["datalad"; "status"] dp]
  = individual_saves w dp msg out
      (Some ["Recursive save: FAILED - " ++ err1;
             "Regular save: FAILED - " ++ err2])
      [Run ["datalad"; "status"] dp;
       Run ["datalad"; "save"; "-r"; "-m"; msg] dp;
       Run ["datalad"; "save"; "-m"; msg] dp].
Proof.
  intros Hdp Hst Hdirty Hrec Hrc1 Hflat Hrc2.
  apply Z.eqb_neq in Hrc1, Hrc2.
  unfold recursive_save, try_except, bind, subprocess_run. cbn.
  rewrite Hrec. cbn. rewrite Hrc1. cbn.
  unfold regular_save, try_except, bind, subprocess_run. cbn.
  rewrite Hflat. cbn. rewrite Hrc2. cbn. reflexivity.
Qed.

Lemma commitAll_reduces (w : world) (dp msg out err : string) :
  PyStr.truthy dp = true ->
  respond w [] ["datalad"; "status"] dp = Completed 0 out err ->
  PyStr.truthy (PyStr.strip out) = true ->
  forall f l h,
    recursive_save w dp msg out (Some []) [Run ["datalad"; "status"] dp]
      = (Return f, l, h) ->
    commitAll w (Some dp) msg =
      (match f with
       | Returned r => Return r
       | Continue result =>
           Return (jsonify
             [("success", JBool true);
              ("message", JStr "All changes have been saved to DataLad");
              ("commit_message", JStr msg);
              ("output", JStr (match result with
                               | Some r => stdout r
                               | None => "No output available"
                               end));
              ("save_attempts", JStrs (attempts_or_empty l))])
       end, h).
Proof.
  intros Hdp Hst Hdirty f l h Hf.
  unfold commitAll, call, save_all_changes, try_except.
  rewrite Hdp. cbn [negb].
  unfold save_all_changes_body, bind, subprocess_run.
  rewrite Hst. cbn. rewrite Hdirty. cbn. rewrite Hf.
  destruct f as [r|result]; reflexivity.
Qed.

(** X10. Where every command can be started and the status report does
    not mention [r4]: when the recursive and the flat save both fail,
    [save_all_changes] still answers [success: True] with "All changes
    have been saved to DataLad" and no output, whatever became of the
    nested units. Its attempt log starts with the two failures. *)
Theorem commitAll_success_after_failures (w : world)
    (dp msg out err out1 err1 out2 err2 : string) (rc1 rc2 : Z) :
  always_launches w ->
  PyStr.truthy dp = true ->
  respond w [] ["datalad"; "status"] dp = Completed 0 out err ->
  PyStr.truthy (PyStr.strip out) = true ->
  PyStr.contains "r4" out = false ->
  respond w [Run ["datalad"; "status"] dp]
    ["datalad"; "save"; "-r"; "-m"; msg] dp = Completed rc1 out1 err1 ->
  rc1 <> 0%Z ->
  respond w [Run ["datalad"; "status"] dp;
             Run ["datalad"; "save"; "-r"; "-m"; msg] dp]
    ["datalad"; "save"; "-m"; msg] dp = Completed rc2 out2 err2 ->
  rc2 <> 0%Z ->
  exists more,
    fst (commitAll w (Some dp) msg) =
      Return (jsonify
        [("success", JBool true);
         ("message", JStr "All changes have been saved to DataLad");
         ("commit_message", JStr msg);
         ("output", JStr "No output available");
         ("save_attempts",
          JStrs (("Recursive save: FAILED - " ++ err1)%string
                 :: ("Regular save: FAILED - " ++ err2)%string :: more))]).
Proof.
  intros HL Hdp Hst Hdirty Hr4 Hrec Hrc1 Hflat Hrc2.
  pose proof (commitAll_after_two_failures w dp msg out err out1 err1 out2
                err2 rc1 rc2 Hdp Hst Hdirty Hrec Hrc1 Hflat Hrc2) as Hstep.
  assert (Hind : exists more h,
            individual_saves w dp msg out
              (Some ["Recursive save: FAILED - " ++ err1;
                     "Regular save: FAILED - " ++ err2])
              [Run ["datalad"; "status"] dp;
               Run ["datalad"; "save"; "-r"; "-m"; msg] dp;
               Run ["datalad"; "save"; "-m"; msg] dp]
            = (Return (Continue None),
               Some (("Recursive save: FAILED - " ++ err1)%string
                     :: ("Regular save: FAILED - " ++ err2)%string :: more), h)).
  { unfold individual_saves, try_except. unfold bind at 1.
    match goal with |- context [subdataset_changes ?ls ?l ?h] =>
      destruct (subdataset_changes_returns ls l h) as (subs & ->) end.
    unfold bind at 1.
    match goal with |- context [save_subdatasets w dp msg subs (Some ?a) ?h] =>
      destruct (save_subdatasets_returns w dp msg subs HL a h)
        as (more & t & -> & _) end.
    unfold force_git. rewrite Hr4. cbn. eauto. }
  destruct Hind as (more & h & Hind).
  rewrite Hind in Hstep.
  exists more.
  rewrite (commitAll_reduces w dp msg out err Hdp Hst Hdirty _ _ _ Hstep).
  reflexivity.
Qed.

Lemma commitAll_success_after_failures_witness :
  exists more,
    fst (commitAll ScenariosMore.nothing_saves_world (Some Scenarios.ds)
           "Save all changes") =
      Return (jsonify
        [("success", JBool true);
         ("message", JStr "All changes have been saved to DataLad");
         ("commit_message", JStr "Save all changes");
         ("output", JStr "No output available");
         ("save_attempts",
          JStrs (("Recursive save: FAILED - " ++ "save(error)")%string
                 :: ("Regular save: FAILED - " ++ "save(error)")%string :: more))]).
Proof.
  apply (commitAll_success_after_failures ScenariosMore.nothing_saves_world
           Scenarios.ds "Save all changes"
           (" modified: sub1 (dataset)" ++ PyStr.nl) ""
           "" "save(error)" "" "save(error)" 1%Z 1%Z);
    try reflexivity; try discriminate.
  apply RestorerProofs.scripted_always_launches.
  intros a r H. cbn in H.
  repeat (destruct H as [H|H]; [inversion H; subst; eauto|]). destruct H.
Defined.

(** X11. Where every command can be started and the status report
    mentions [r4]: when the recursive save, the flat save and the forced
    [git add r4] fail, [save_all_changes] answers [success: True] with a
    warning, and the last entry of its attempt log is the failure of the
    forced commit. *)
Theorem commitAll_degrades (w : world)
    (dp msg out err out1 err1 out2 err2 outa erra : string) (rc1 rc2 rca : Z) :
  always_launches w ->
  PyStr.truthy dp = true ->
  respond w [] ["datalad"; "status"] dp = Completed 0 out err ->
  PyStr.truthy (PyStr.strip out) = true ->
  PyStr.contains "r4" out = true ->
  respond w [Run ["datalad"; "status"] dp]
    ["datalad"; "save"; "-r"; "-m"; msg] dp = Completed rc1 out1 err1 ->
  rc1 <> 0%Z ->
  respond w [Run ["datalad"; "status"] dp;
             Run ["datalad"; "save"; "-r"; "-m"; msg] dp]
    ["datalad"; "save"; "-m"; msg] dp = Completed rc2 out2 err2 ->
  rc2 <> 0%Z ->
  (forall h, respond w h ["git"; "add"; "r4"] dp = Completed rca outa erra) ->
  rca <> 0%Z ->
  exists more,
    fst (commitAll w (Some dp) msg) =
      Return (jsonify
        [("success", JBool true);
         ("message", JStr "Some changes may not have been saved due to persistent subdataset issues. The dataset should be usable.");
         ("commit_message", JStr msg);
         ("warning", JStr "Persistent r4 subdataset changes detected");
         ("save_attempts",
          JStrs ((("Recursive save: FAILED - " ++ err1)%string
                  :: ("Regular save: FAILED - " ++ err2)%string :: more)
                 ++ [("Force git add/commit for r4: FAILED - " ++ erra)%string])%list);
         ("detailed_status", JStr out);
         ("suggestion", JStr "You may need to manually resolve subdataset issues")])
    /\ filter is_git_commit (snd (commitAll w (Some dp) msg)) = [].
Proof.
  intros HL Hdp Hst Hdirty Hr4 Hrec Hrc1 Hflat Hrc2 Hadd Hrca.
  apply Z.eqb_neq in Hrca.
  pose proof (commitAll_after_two_failures w dp msg out err out1 err1 out2
                err2 rc1 rc2 Hdp Hst Hdirty Hrec Hrc1 Hflat Hrc2) as Hstep.
  unfold individual_saves, try_except in Hstep. unfold bind at 1 in Hstep.
  match type of Hstep with context [subdataset_changes ?ls ?l ?h] =>
    destruct (subdataset_changes_returns ls l h) as (subs & Hsc) end.
  rewrite Hsc in Hstep. unfold bind at 1 in Hstep.
  match type of Hstep with
    context [save_subdatasets w dp msg subs (Some ?a) ?h] =>
      destruct (save_subdatasets_returns w dp msg subs HL a h)
        as (more & t & Hloop & Ht) end.
  rewrite Hloop in Hstep.
  unfold force_git in Hstep. rewrite Hr4 in Hstep.
  unfold try_except, bind, subprocess_run in Hstep.
  rewrite Hadd in Hstep. cbn in Hstep. rewrite Hrca in Hstep. cbn in Hstep.
  exists more.
  rewrite (commitAll_reduces w dp msg out err Hdp Hst Hdirty _ _ _ Hstep).
  cbn. split; [reflexivity|].
  rewrite filter_app, Ht. reflexivity.
Qed.

Lemma commitAll_degrades_witness :
  exists more,
    fst (commitAll ScenariosMore.stubborn_r4_world (Some Scenarios.ds)
           "Save all changes") =
      Return (jsonify
        [("success", JBool true);
         ("message", JStr "Some changes may not have been saved due to persistent subdataset issues. The dataset should be usable.");
         ("commit_message", JStr "Save all changes");
         ("warning", JStr "Persistent r4 subdataset changes detected");
         ("save_attempts",
          JStrs ((("Recursive save: FAILED - " ++ "save(error)")%string
                  :: ("Regular save: FAILED - " ++ "save(error)")%string :: more)
                 ++ ["Force git add/commit for r4: FAILED - fatal: in unpopulated submodule"])%list);
         ("detailed_status",
          JStr (" modified: r4 (dataset)" ++ PyStr.nl));
         ("suggestion", JStr "You may need to manually resolve subdataset issues")])
    /\ filter is_git_commit
         (snd (commitAll ScenariosMore.stubborn_r4_world (Some Scenarios.ds)
                 "Save all changes")) = [].
Proof.
  apply (commitAll_degrades ScenariosMore.stubborn_r4_world
           Scenarios.ds "Save all changes"
           (" modified: r4 (dataset)" ++ PyStr.nl) ""
           "" "save(error)" "" "save(error)"
           "" "fatal: in unpopulated submodule" 1%Z 1%Z 128%Z);
    try reflexivity; try discriminate.
  apply RestorerProofs.scripted_always_launches.
  intros a r H. cbn in H.
  repeat (destruct H as [H|H]; [inversion H; subst; eauto|]). destruct H.
Defined.

End CommitterMore.

(* ===================================================================== *)
(** ** More on the queries of [git_operations.py] *)
(* ===================================================================== *)

Module QueryProofs.
Import Py GitOperations GitQueries GitLog Traces TracesMore.

#[local] Arguments String.append : simpl never.

Ltac unfold_py :=
  unfold call, try_except, bind, os_path_exists, subprocess_run, print, ret,
    raise, except_Exception, except_CalledProcessError.

(** *** [get_detailed_git_log] *)



(** X13. [get_detailed_git_log] fails in two ways: on a dataset path
    that does not exist it raises [DatasetError] before any command; when
    [git log] exits non-zero it raises [GitOperationError] with the text
    git wrote to stderr. *)
Theorem detailed_log_failures (w : world) (dp : string) (limit : Z) :
  (path_exists w [] dp = false ->
   call (get_detailed_git_log w dp limit) tt
     = (Raise (DatasetError ("Dataset path does not exist: " ++ dp)), []))
  /\ (forall rc out err,
        path_exists w [] dp = true ->
        respond w [] (detailed_log_cmd limit) dp = Completed rc out err ->
        rc <> 0%Z ->
        call (get_detailed_git_log w dp limit) tt
          = (Raise (GitOperationError
                      ("Failed to get detailed git log: " ++ err)),
             [Run (detailed_log_cmd limit) dp])).
Proof.
  split.
  - intros Hex. unfold get_detailed_git_log. unfold_py. cbn.
    rewrite Hex. reflexivity.
  - intros rc out err Hex Hr Hrc. apply Z.eqb_neq in Hrc.
    unfold get_detailed_git_log. unfold_py. cbn.
    rewrite Hex. cbn. rewrite Hr. cbn. rewrite Hrc. reflexivity.
Qed.

Lemma detailed_log_failures_witness :
  call (get_detailed_git_log ScenariosMore.not_a_repository Scenarios.ds 20) tt
    = (Raise (GitOperationError
                "Failed to get detailed git log: fatal: not a git repository"),
       [Run (detailed_log_cmd 20) Scenarios.ds]).
Proof.
  apply (proj2 (detailed_log_failures ScenariosMore.not_a_repository
                  Scenarios.ds 20) 128%Z "" "fatal: not a git repository");
    try reflexivity.
  discriminate.
Defined.

(** *** [get_commit_history] *)

Lemma get_full_hash_returns (w : world) (dp short : string) :
  always_launches w ->
  forall l h, exists full h',
    _get_full_hash w dp short l h = (Return full, l, h').
Proof.
  intros HL l h. unfold _get_full_hash. unfold_py.
  destruct (HL h ["git"; "rev-parse"; short] dp) as (rc & out & err & ->).
  cbn. destruct (rc =? 0)%Z; cbn; eauto.
Qed.

Lemma oneline_commits_returns (w : world) (dp : string) (lines : list string) :
  always_launches w ->
  forall l h, exists res h',
    oneline_commits w dp lines l h = (Return res, l, h').
Proof.
  intros HL. induction lines as [|line lines IH]; intros l h;
    cbn [oneline_commits].
  - do 2 eexists. reflexivity.
  - destruct (PyStr.truthy (PyStr.strip line)); [|apply IH].
    destruct (PyStr.split1 " " line) as [|a [|b [|c rest]]]; try apply IH.
    unfold bind at 1.
    destruct (get_full_hash_returns w dp a HL l h) as (full & h1 & ->).
    unfold bind at 1.
    destruct (IH l h1) as (res & h2 & ->).
    do 2 eexists. reflexivity.
Qed.

(** X14. Where every command can be started, a dataset-wide
    [get_commit_history] whose [git log] exits 0 always returns: a
    failing [git rev-parse] never makes it fail. The hashes it returns
    are those of the log lines that hold a hash and a message, in the
    order of the lines. *)
Theorem commit_history_in_order (w : world) (dp out err : string) (limit : Z) :
  always_launches w ->
  path_exists w [] dp = true ->
  respond w [] ["git"; "log"; "--oneline"; "-n"; PyStr.str_of_Z limit] dp
    = Completed 0 out err ->
  exists res,
    fst (call (get_commit_history w dp None limit) tt) = Return res
    /\ map Oneline.hash res
       = flat_map oneline_hash (PyStr.split PyStr.nl (PyStr.strip out)).
Proof.
  intros HL Hex Hr.
  unfold get_commit_history. unfold_py. cbn. rewrite Hex. cbn.
  rewrite Hr. cbn.
  match goal with |- context [oneline_commits w dp ?ls ?l ?h] =>
    destruct (oneline_commits_returns w dp ls HL l h) as (res & h' & E) end.
  rewrite E. cbn. exists res. split; [reflexivity|].
  eapply HistoryProofs.oneline_commits_in_order, E.
Qed.

Lemma commit_history_in_order_witness :
  exists res,
    fst (call (get_commit_history ScenariosMore.short_history Scenarios.ds
                 None 10) tt) = Return res
    /\ map Oneline.hash res = ["9c1d5a7"; "4b8e2f6"].
Proof.
  apply (commit_history_in_order ScenariosMore.short_history Scenarios.ds
           ("9c1d5a7 Add summary table" ++ PyStr.nl ++ "4b8e2f6 Fit the model"
            ++ PyStr.nl) "" 10).
  - apply RestorerProofs.scripted_always_launches.
    intros a r H. cbn in H.
    repeat (destruct H as [H|H]; [inversion H; subst; eauto|]). destruct H.
  - reflexivity.
  - reflexivity.
Defined.

(** *** [check_file_exists_in_commit] and [get_file_content_at_commit] *)

(** X15. [check_file_exists_in_commit] never raises and never writes:
    it answers [True] exactly when the dataset path exists and [git show
    revision:path] exits 0, and runs at most that one read-only
    command. *)
Theorem check_file_exists_never_raises (w : world) (dp fp ch : string) :
  exists b t,
    call (check_file_exists_in_commit w dp fp ch) tt = (Return b, t)
    /\ filter is_write t = []
    /\ (List.length t <= 1)%nat
    /\ (b = true <->
        path_exists w [] dp = true /\ file_in_revision w dp fp ch = true).
Proof.
  unfold check_file_exists_in_commit, file_in_revision. unfold_py. cbn.
  destruct (path_exists w [] dp); cbn.
  - destruct (respond w [] ["git"; "show"; ch ++ ":" ++ fp] dp); cbn;
      do 2 eexists; (split; [reflexivity|]); repeat split; auto;
      intros; tauto.
  - do 2 eexists. split; [reflexivity|]. repeat split; auto;
      intros; try discriminate; tauto.
Qed.

(** X16. [get_file_content_at_commit] returns a text exactly when
    [check_file_exists_in_commit] answers [True] for the same dataset,
    file and revision: both ask [git show revision:path]. *)
Theorem content_readable_iff_exists (w : world) (dp fp ch : string) :
  (exists text,
     fst (call (get_file_content_at_commit w dp ch fp) tt) = Return text)
  <-> fst (call (check_file_exists_in_commit w dp fp ch) tt) = Return true.
Proof.
  unfold get_file_content_at_commit, check_file_exists_in_commit.
  unfold_py. cbn.
  destruct (path_exists w [] dp); cbn.
  2:{ split; [intros [text H]|intros H]; discriminate. }
  destruct (respond w [] ["git"; "show"; ch ++ ":" ++ fp] dp) as [rc out err|m];
    cbn.
  - destruct (rc =? 0)%Z; cbn; split; eauto;
      try (intros [text H]; discriminate); try discriminate.
  - split; [intros [text H]|intros H]; discriminate.
Qed.

(** *** [get_file_commit_history] *)

Lemma truthy_false (s : string) : PyStr.truthy s = false -> s = "".
Proof. destruct s; [reflexivity | discriminate]. Qed.

(** X17. When both [git log] queries of [get_file_commit_history] exit
    non-zero, the function returns the empty list and raises nothing:
    a directory that is no repository looks like a file without
    history. *)
Theorem file_history_failures_give_empty (w : world) (dp fp : string)
    (limit rc rc2 : Z) (out err out2 err2 : string) :
  path_exists w [] dp = true ->
  respond w [] (follow_cmd fp limit) dp = Completed rc out err ->
  rc <> 0%Z ->
  respond w [Run (follow_cmd fp limit) dp] (no_follow_cmd fp limit) dp
    = Completed rc2 out2 err2 ->
  rc2 <> 0%Z ->
  call (get_file_commit_history w dp fp limit) tt
    = (Return [],
       [Run (follow_cmd fp limit) dp; Run (no_follow_cmd fp limit) dp]).
Proof.
  intros Hex H1 Hrc H2 Hrc2.
  apply Z.eqb_neq in Hrc. apply Z.eqb_neq in Hrc2.
  unfold get_file_commit_history, log_entries. unfold_py. cbn.
  rewrite Hex. cbn. rewrite H1. cbn. rewrite Hrc. cbn.
  rewrite H2. cbn. rewrite Hrc2. reflexivity.
Qed.

Lemma file_history_failures_give_empty_witness :
  call (get_file_commit_history ScenariosMore.not_a_repository Scenarios.ds
          "data.csv" 10) tt
    = (Return [],
       [Run (follow_cmd "data.csv" 10) Scenarios.ds;
        Run (no_follow_cmd "data.csv" 10) Scenarios.ds]).
Proof.
  apply (file_history_failures_give_empty ScenariosMore.not_a_repository
           Scenarios.ds "data.csv" 10 128 128 "" "fatal: not a git repository"
           "" "fatal: not a git repository");
    try reflexivity; discriminate.
Defined.

Lemma get_full_hash_events (w : world) (dp short : string) l h :
  exists o t,
    _get_full_hash w dp short l h = (o, l, (h ++ t)%list)
    /\ filter is_git_log t = [].
Proof.
  unfold _get_full_hash. unfold_py.
  destruct (respond w h ["git"; "rev-parse"; short] dp) as [rc out err|m]; cbn.
  - destruct (rc =? 0)%Z; cbn; do 2 eexists; split; reflexivity.
  - do 2 eexists; split; reflexivity.
Qed.

Lemma oneline_commits_events (w : world) (dp : string) (lines : list string) :
  forall l h, exists o t,
    oneline_commits w dp lines l h = (o, l, (h ++ t)%list)
    /\ filter is_git_log t = [].
Proof.
  induction lines as [|line lines IH]; intros l h; cbn [oneline_commits].
  - exists (Return []), []. rewrite app_nil_r. split; reflexivity.
  - destruct (PyStr.truthy (PyStr.strip line)); [|apply IH].
    destruct (PyStr.split1 " " line) as [|a [|b [|c rest]]]; try apply IH.
    unfold bind at 1.
    destruct (get_full_hash_events w dp a l h) as (o1 & t1 & -> & F1).
    destruct o1 as [full|e].
    + unfold bind at 1.
      destruct (IH l (h ++ t1)%list) as (o2 & t2 & -> & F2).
      destruct o2 as [res|e]; cbn; do 2 eexists;
        (split; [rewrite <- app_assoc; reflexivity|]);
        rewrite filter_app, F1, F2; reflexivity.
    + do 2 eexists. split; [reflexivity | exact F1].
Qed.

Lemma log_entries_events (w : world) (dp : string) (r : CompletedProcess) :
  forall l h, exists o t,
    log_entries w dp r l h = (o, l, (h ++ t)%list)
    /\ filter is_git_log t = [].
Proof.
  intros l h. unfold log_entries.
  destruct ((returncode r =? 0)%Z && PyStr.truthy (PyStr.strip (stdout r))).
  - apply oneline_commits_events.
  - exists (Return []), []. rewrite app_nil_r. split; reflexivity.
Qed.

(** X18. [get_file_commit_history] runs [git log] at most twice, in
    every environment: the query with [--follow] first, and the one
    without it only after that. A missing dataset path runs none. *)
Theorem file_history_at_most_two_logs (w : world) (dp fp : string) (limit : Z) :
  let logs := filter is_git_log
                (snd (call (get_file_commit_history w dp fp limit) tt)) in
  (path_exists w [] dp = false -> logs = [])
  /\ (logs = []
      \/ logs = [Run (follow_cmd fp limit) dp]
      \/ logs = [Run (follow_cmd fp limit) dp;
                 Run (no_follow_cmd fp limit) dp]).
Proof.
  intros logs.
  assert (E : exists o t,
             call (get_file_commit_history w dp fp limit) tt = (o, t)
             /\ (path_exists w [] dp = false -> filter is_git_log t = [])
             /\ (filter is_git_log t = []
                 \/ filter is_git_log t = [Run (follow_cmd fp limit) dp]
                 \/ filter is_git_log t
                    = [Run (follow_cmd fp limit) dp;
                       Run (no_follow_cmd fp limit) dp])).
  2:{ destruct E as (o & t & E & H1 & H2). subst logs. rewrite E.
      split; assumption. }
  clear logs. unfold get_file_commit_history.
  unfold call, bind at 1, os_path_exists. cbv beta iota.
  destruct (path_exists w [] dp); cbn [negb].
  2:{ cbn. do 2 eexists. split; [reflexivity|].
      split; [intros _; reflexivity | left; reflexivity]. }
  unfold try_except, except_Exception, bind at 1, subprocess_run.
  cbn [app].
  destruct (respond w [] (follow_cmd fp limit) dp) as [rc out err|m];
    cbn [andb negb].
  2:{ destruct (_ || _); cbn; do 2 eexists; (split; [reflexivity|]);
        (split; [discriminate|]); right; left; reflexivity. }
  unfold bind at 1.
  destruct (log_entries_events w dp (mkCompleted rc out err) tt
              [Run (follow_cmd fp limit) dp]) as (o1 & t1 & -> & F1).
  destruct o1 as [[|c cs]|e].
  - unfold bind at 1, subprocess_run.
    destruct (respond w _ (no_follow_cmd fp limit) dp) as [rc2 out2 err2|m2];
      cbn [andb negb].
    + destruct (log_entries_events w dp (mkCompleted rc2 out2 err2) tt
                  (([Run (follow_cmd fp limit) dp] ++ t1)
                   ++ [Run (no_follow_cmd fp limit) dp])%list)
        as (o2 & t2 & -> & F2).
      destruct o2 as [res|e]; [|destruct (_ || _)]; cbn [ret raise];
        do 2 eexists; (split; [reflexivity|]); (split; [discriminate|]);
        right; right; cbn [app filter is_git_log follow_cmd];
        rewrite !filter_app, F1, F2; reflexivity.
    + destruct (_ || _); cbn [ret raise];
        do 2 eexists; (split; [reflexivity|]); (split; [discriminate|]);
        right; right; cbn [app filter is_git_log follow_cmd];
        rewrite !filter_app, F1; reflexivity.
  - cbn [ret]. do 2 eexists. split; [reflexivity|]. split; [discriminate|].
    right; left. cbn [app filter is_git_log follow_cmd].
    rewrite F1. reflexivity.
  - destruct (_ || _); cbn [ret raise];
      do 2 eexists; (split; [reflexivity|]); (split; [discriminate|]);
      right; left;
      cbn [app filter is_git_log follow_cmd]; rewrite F1; reflexivity.
Qed.

(** X19. Where every command can be started: when the [--follow]
    query exits 0 and at least one of its lines holds a hash and a
    message, [get_file_commit_history] returns the entries of those
    lines in order and does not run the second query. *)
Theorem file_history_no_fallback (w : world) (dp fp out err : string)
    (limit : Z) :
  always_launches w ->
  path_exists w [] dp = true ->
  respond w [] (follow_cmd fp limit) dp = Completed 0 out err ->
  flat_map oneline_hash (PyStr.split PyStr.nl (PyStr.strip out)) <> [] ->
  exists res,
    fst (call (get_file_commit_history w dp fp limit) tt) = Return res
    /\ map Oneline.hash res
       = flat_map oneline_hash (PyStr.split PyStr.nl (PyStr.strip out))
    /\ filter is_git_log
         (snd (call (get_file_commit_history w dp fp limit) tt))
       = [Run (follow_cmd fp limit) dp].
Proof.
  intros HL Hex Hr Hne.
  assert (Ht : PyStr.truthy (PyStr.strip out) = true).
  { destruct (PyStr.truthy (PyStr.strip out)) eqn:E; [reflexivity|].
    apply truthy_false in E. rewrite E in Hne. exfalso. apply Hne.
    reflexivity. }
  assert (E : exists res t,
             call (get_file_commit_history w dp fp limit) tt = (Return res, t)
             /\ map Oneline.hash res
                = flat_map oneline_hash
                    (PyStr.split PyStr.nl (PyStr.strip out))
             /\ filter is_git_log t = [Run (follow_cmd fp limit) dp]).
  2:{ destruct E as (res & t & E & H1 & H2). exists res. rewrite E.
      repeat split; assumption. }
  unfold get_file_commit_history.
  unfold call, bind at 1, os_path_exists. cbv beta iota.
  rewrite Hex. cbn [negb].
  unfold try_except, except_Exception, bind at 1, subprocess_run.
  cbn [app]. rewrite Hr. cbn [andb negb].
  unfold bind at 1, log_entries. cbn [returncode stdout Z.eqb andb].
  rewrite Ht.
  destruct (oneline_commits_returns w dp
              (PyStr.split PyStr.nl (PyStr.strip out)) HL tt
              [Run (follow_cmd fp limit) dp]) as (res & h' & E).
  destruct (oneline_commits_events w dp
              (PyStr.split PyStr.nl (PyStr.strip out)) tt
              [Run (follow_cmd fp limit) dp]) as (o & t & E' & F).
  rewrite E in E'. injection E' as <- ->.
  pose proof (HistoryProofs.oneline_commits_in_order _ _ _ _ _ _ _ _ E) as Hm.
  rewrite E. destruct res as [|c cs].
  { exfalso. apply Hne. rewrite <- Hm. reflexivity. }
  cbn [ret]. exists (c :: cs). eexists. split; [reflexivity|].
  split; [exact Hm|].
  cbn [app filter is_git_log follow_cmd]. rewrite F. reflexivity.
Qed.

Lemma file_history_no_fallback_witness :
  exists res,
    fst (call (get_file_commit_history ScenariosMore.file_history_world
                 Scenarios.ds "data.csv" 10) tt) = Return res
    /\ map Oneline.hash res = ["9c1d5a7"]
    /\ filter is_git_log
         (snd (call (get_file_commit_history ScenariosMore.file_history_world
                       Scenarios.ds "data.csv" 10) tt))
       = [Run (follow_cmd "data.csv" 10) Scenarios.ds].
Proof.
  apply (file_history_no_fallback ScenariosMore.file_history_world
           Scenarios.ds "data.csv"
           ("9c1d5a7 Add summary table" ++ PyStr.nl) "" 10).
  - apply RestorerProofs.scripted_always_launches.
    intros a r H. cbn in H.
    repeat (destruct H as [H|H]; [inversion H; subst; eauto|]). destruct H.
  - reflexivity.
  - reflexivity.
  - vm_compute. discriminate.
Defined.

(** *** [get_commit_files] *)

Section CommitFilesFacts.
Variable w : world.
Variable getsize : list event -> string -> Z.

Lemma commit_file_entries_spec (dp : string) (lines : list string) :
  forall l h, exists res,
    commit_file_entries w getsize dp lines l h = (Return res, l, h)
    /\ Forall (fun c => FileChange.status c = "D" ->
                        FileChange.size c = None
                        /\ FileChange.change_type c = "Deleted") res
    /\ (List.length res <= List.length lines)%nat.
Proof.
  induction lines as [|line lines IH]; intros l h;
    cbn [commit_file_entries].
  - exists []. repeat split; auto.
  - destruct (IH l h) as (res & E & F & Hlen).
    assert (Hskip : exists res0,
      commit_file_entries w getsize dp lines l h = (Return res0, l, h)
      /\ Forall (fun c => FileChange.status c = "D" ->
                          FileChange.size c = None
                          /\ FileChange.change_type c = "Deleted") res0
      /\ (List.length res0 <= List.length (line :: lines))%nat).
    { exists res. repeat split; auto. cbn. lia. }
    destruct (PyStr.truthy (PyStr.strip line)); [|exact Hskip].
    destruct (PyStr.split tab line) as [|st [|fp [|x rest]]]; try exact Hskip.
    unfold bind at 1.
    destruct (String.eqb st "D") eqn:Hd; cbn [negb].
    + unfold ret at 1. unfold bind at 1. rewrite E. unfold ret.
      eexists. split; [reflexivity|]. split; [|cbn; lia].
      constructor; [|exact F]. cbn. intros _.
      apply String.eqb_eq in Hd. subst st. split; reflexivity.
    + unfold bind at 1, os_path_exists.
      destruct (path_exists w h (PyStr.path_join dp fp)).
      * unfold bind at 1, os_path_getsize, ret at 1.
        unfold bind at 1. rewrite E. unfold ret.
        eexists. split; [reflexivity|]. split; [|cbn; lia].
        constructor; [|exact F]. cbn. intros ->. discriminate.
      * unfold ret at 1. unfold bind at 1. rewrite E. unfold ret.
        eexists. split; [reflexivity|]. split; [|cbn; lia].
        constructor; [|exact F]. cbn. intros ->. discriminate.
Qed.

(** X20. Whatever [get_commit_files] returns, it ran exactly one
    command, the read-only [git show --name-status]; an entry with
    status [D] has no size and the change type [Deleted]; and there are
    no more entries than lines in the command's output. *)
Theorem commit_files_deleted_have_no_size (dp ch : string)
    (res : list FileChange.t) :
  fst (call (get_commit_files w getsize dp ch) tt) = Return res ->
  snd (call (get_commit_files w getsize dp ch) tt)
    = [Run ["git"; "show"; "--name-status"; "--pretty=format:"; ch] dp]
  /\ Forall (fun c => FileChange.status c = "D" ->
                      FileChange.size c = None
                      /\ FileChange.change_type c = "Deleted") res.
Proof.
  destruct (call (get_commit_files w getsize dp ch) tt) as [o t] eqn:E.
  cbn [fst snd]. intros ->. revert E.
  unfold get_commit_files.
  unfold call, bind at 1, os_path_exists. cbv beta iota.
  destruct (path_exists w [] dp); cbn [negb]; [|discriminate].
  unfold try_except, except_CalledProcessError, bind at 1, subprocess_run.
  cbn [app].
  destruct (respond w [] _ dp) as [rc out err|m]; [|discriminate].
  cbn [andb]. destruct (rc =? 0)%Z; cbn [negb]; [|discriminate].
  cbn [stdout].
  destruct (commit_file_entries_spec dp
              (PyStr.split PyStr.nl (PyStr.strip out)) tt
              [Run ["git"; "show"; "--name-status"; "--pretty=format:"; ch] dp])
    as (res' & -> & F & _).
  intros [= <- <-]. split; [reflexivity | exact F].
Qed.

(** X21. A line of three tab-separated fields, which is how git
    prints a rename ([R100], old path, new path), is not reported by
    [get_commit_files]: the loop passes over it. *)
Theorem commit_files_skip_three_fields (dp a b c : string)
    (rest : list string) :
  free_of (ascii_of_nat 9) a = true ->
  free_of (ascii_of_nat 9) b = true ->
  free_of (ascii_of_nat 9) c = true ->
  commit_file_entries w getsize dp ((a ++ tab ++ b ++ tab ++ c) :: rest)
  = commit_file_entries w getsize dp rest.
Proof.
  intros Ha Hb Hc. cbn [commit_file_entries].
  unfold tab.
  change (a ++ String (ascii_of_nat 9) ""
            ++ b ++ String (ascii_of_nat 9) "" ++ c)
    with (a ++ String (ascii_of_nat 9)
                 (b ++ String (ascii_of_nat 9) c)).
  rewrite (StrFacts.split_piece _ a _ Ha).
  rewrite (StrFacts.split_piece _ b _ Hb).
  rewrite (StrFacts.split_last _ c Hc).
  destruct (PyStr.truthy _); reflexivity.
Qed.

End CommitFilesFacts.

Lemma commit_files_deleted_have_no_size_witness :
  snd (call (get_commit_files ScenariosMore.one_deletion (fun _ _ => 512%Z)
               Scenarios.ds "abc1234") tt)
    = [Run ["git"; "show"; "--name-status"; "--pretty=format:"; "abc1234"]
         Scenarios.ds]
  /\ Forall (fun c => FileChange.status c = "D" ->
                      FileChange.size c = None
                      /\ FileChange.change_type c = "Deleted")
       [FileChange.mk "old.csv" "D" "Deleted" None;
        FileChange.mk "new.csv" "A" "Added" (Some 512%Z)].
Proof.
  apply (commit_files_deleted_have_no_size ScenariosMore.one_deletion
           (fun _ _ => 512%Z) Scenarios.ds "abc1234").
  reflexivity.
Defined.

Lemma commit_files_skip_three_fields_witness :
  commit_file_entries ScenariosMore.one_deletion (fun _ _ => 512%Z)
    Scenarios.ds [("R100" ++ tab ++ "old.csv" ++ tab ++ "new.csv")%string]
  = commit_file_entries ScenariosMore.one_deletion (fun _ _ => 512%Z)
      Scenarios.ds [].
Proof.
  apply (commit_files_skip_three_fields ScenariosMore.one_deletion
           (fun _ _ => 512%Z) Scenarios.ds "R100" "old.csv" "new.csv" []);
    reflexivity.
Defined.

(** *** [get_current_branch] *)

Lemma substring_length_le (n m : nat) (s : string) :
  (String.length (substring n m s) <= m)%nat.
Proof.
  revert n m. induction s as [|x s IH]; intros [|n] [|m]; cbn; try lia.
  - specialize (IH 0%nat m). lia.
  - apply (IH n 0%nat).
  - apply (IH n (S m)).
Qed.

(** X22. Where every command can be started and the dataset path
    exists, [get_current_branch] always returns a name and runs at most
    two commands. When [git branch --show-current] exits non-zero, the
    name is [Unknown], or [HEAD (] followed by at most eight characters
    and [)]. *)
Theorem current_branch_never_raises (w : world) (dp : string) :
  always_launches w ->
  path_exists w [] dp = true ->
  exists name t,
    call (get_current_branch w dp) tt = (Return name, t)
    /\ (List.length t <= 2)%nat
    /\ filter is_write t = []
    /\ (forall rc out err,
          respond w [] ["git"; "branch"; "--show-current"] dp
            = Completed rc out err ->
          rc <> 0%Z ->
          name = "Unknown"
          \/ exists s, name = "HEAD (" ++ s ++ ")"
                       /\ (String.length s <= 8)%nat).
Proof.
  intros HL Hex. unfold get_current_branch. unfold_py. cbn.
  rewrite Hex. cbn.
  destruct (HL [] ["git"; "branch"; "--show-current"] dp)
    as (rc & out & err & E). rewrite E.
  destruct (rc =? 0)%Z eqn:Hrc; cbn.
  - do 2 eexists. split; [reflexivity|]. repeat split; auto.
    intros rc' out' err' [= <- _ _] Hne. apply Z.eqb_eq in Hrc. contradiction.
  - destruct (HL [Run ["git"; "branch"; "--show-current"] dp]
                ["git"; "rev-parse"; "HEAD"] dp) as (rc2 & out2 & err2 & E2).
    rewrite E2. destruct (rc2 =? 0)%Z; cbn.
    + do 2 eexists. split; [reflexivity|]. repeat split; auto.
      intros _ _ _ _ _. right. eexists. split; [reflexivity|].
      apply substring_length_le.
    + do 2 eexists. split; [reflexivity|]. repeat split; auto.
Qed.

Lemma current_branch_never_raises_witness :
  exists name t,
    call (get_current_branch ScenariosMore.detached_world Scenarios.ds) tt
      = (Return name, t)
    /\ (List.length t <= 2)%nat
    /\ filter is_write t = []
    /\ (forall rc out err,
          respond ScenariosMore.detached_world []
            ["git"; "branch"; "--show-current"] Scenarios.ds
            = Completed rc out err ->
          rc <> 0%Z ->
          name = "Unknown"
          \/ exists s, name = "HEAD (" ++ s ++ ")"
                       /\ (String.length s <= 8)%nat).
Proof.
  apply (current_branch_never_raises ScenariosMore.detached_world Scenarios.ds).
  - apply RestorerProofs.scripted_always_launches.
    intros a r H. cbn in H.
    repeat (destruct H as [H|H]; [inversion H; subst; eauto|]). destruct H.
  - reflexivity.
Defined.

(** *** [revert_commit] *)

(** X23. When [git revert] exits 0 and rewording the new commit with
    the given message fails, [revert_commit] raises
    [GitOperationError] with the text [Failed to revert commit:] and
    what [git commit --amend] wrote to stderr. Both commands were run
    and nothing is run after them: the revert commit stays. *)
Theorem revert_amend_failure (w : world) (dp ch : string) (c : ascii)
    (m out err out2 err2 : string) (rc2 : Z) :
  path_exists w [] dp = true ->
  respond w [] ["git"; "revert"; "--no-edit"; ch] dp = Completed 0 out err ->
  respond w [Run ["git"; "revert"; "--no-edit"; ch] dp]
    ["git"; "commit"; "--amend"; "-m"; String c m] dp
    = Completed rc2 out2 err2 ->
  rc2 <> 0%Z ->
  call (revert_commit w dp ch (Some (String c m))) tt
    = (Raise (GitOperationError ("Failed to revert commit: " ++ err2)),
       [Run ["git"; "revert"; "--no-edit"; ch] dp;
        Run ["git"; "commit"; "--amend"; "-m"; String c m] dp]).
Proof.
  intros Hex H1 H2 Hrc. apply Z.eqb_neq in Hrc.
  unfold revert_commit. unfold_py. cbn.
  rewrite Hex. cbn. rewrite H1. cbn. rewrite H2. cbn. rewrite Hrc.
  reflexivity.
Qed.

Lemma revert_amend_failure_witness :
  call (revert_commit ScenariosMore.amend_fails_world Scenarios.ds "abc1234"
          (Some "Undo the rescaling")) tt
    = (Raise (GitOperationError
                "Failed to revert commit: fatal: could not read commit message"),
       [Run ["git"; "revert"; "--no-edit"; "abc1234"] Scenarios.ds;
        Run ["git"; "commit"; "--amend"; "-m"; "Undo the rescaling"]
          Scenarios.ds]).
Proof.
  apply (revert_amend_failure ScenariosMore.amend_fails_world Scenarios.ds
           "abc1234" "U"%char "ndo the rescaling" "" "" ""
           "fatal: could not read commit message" 1);
    try reflexivity; discriminate.
Defined.

(** X24. [revert_commit] rewords the revert only for a non-empty
    message: without a message, or with the empty one, no [git commit]
    is run in any environment. *)
Theorem revert_without_message (w : world) (dp ch : string)
    (msg : option string) :
  msg = None \/ msg = Some "" ->
  filter is_git_commit (snd (call (revert_commit w dp ch msg) tt)) = []
  /\ (List.length (snd (call (revert_commit w dp ch msg) tt)) <= 1)%nat.
Proof.
  intros [-> | ->]; unfold revert_commit; unfold_py; cbn;
    destruct (path_exists w [] dp); cbn; auto;
    destruct (respond w [] _ dp) as [rc out err|m]; cbn; auto;
    destruct (rc =? 0)%Z; cbn; auto.
Qed.

Lemma revert_without_message_witness :
  filter is_git_commit
    (snd (call (revert_commit ScenariosMore.amend_fails_world Scenarios.ds
                  "abc1234" None) tt)) = []
  /\ (List.length
        (snd (call (revert_commit ScenariosMore.amend_fails_world Scenarios.ds
                      "abc1234" None) tt)) <= 1)%nat.
Proof.
  apply (revert_without_message ScenariosMore.amend_fails_world Scenarios.ds
           "abc1234" None).
  left. reflexivity.
Defined.

End QueryProofs.

(* ===================================================================== *)
(** ** More on the file tree and the graph synthesis *)
(* ===================================================================== *)

Module SynthesisMore.
Import Py FileOperations MetadataOperations Graphs TreeNames GraphsMore.
Import SynthesizerProofs.

(** *** [get_stage_files] *)

Lemma filter_partition_length (l : list bool) :
  List.length l
  = (List.length (filter (fun b => b) l) + List.length (filter negb l))%nat.
Proof. induction l as [|[|] l IH]; cbn; lia. Qed.

(** X25. The counts [get_stage_files] reports for a stage that
    exists add up: every counted file is either tracked or untracked,
    and [deleted_files] is the length of the list of deleted files. *)
Theorem stage_counts_add_up (s : snapshot) (stage_name : string)
    (deleted : list deleted_file) (m : stage_metadata) :
  get_stage_files s stage_name = Some (StagePresent deleted m) ->
  FileOperations.file_count m
    = (FileOperations.tracked_files m + FileOperations.untracked_files m)%nat
  /\ FileOperations.deleted_files m = List.length deleted.
Proof.
  unfold get_stage_files.
  destruct (dataset s) as [entries|]; [|discriminate].
  destruct (if String.eqb stage_name "." then _ else _) as [st|];
    [|discriminate].
  intros [= <- <-]. cbn. split; [|reflexivity].
  rewrite length_map. rewrite <- (length_map (_check_file_in_git s)).
  apply filter_partition_length.
Qed.

Lemma stage_counts_add_up_witness :
  (1 = 1 + 0)%nat /\ (1 = 1)%nat.
Proof.
  apply (stage_counts_add_up ScenariosMore.two_stages "results"
           [mkDeleted "old.csv" "results/old.csv"]
           (mkMetadata 1 1 0 1)).
  reflexivity.
Defined.

(** *** [get_file_tree] *)

Lemma fs_entry_nested_ind (P : fs_entry -> Prop) :
  (forall n sz, P (FsFile n sz)) ->
  (forall n r ch, Forall P ch -> P (FsDir n r ch)) ->
  forall e, P e.
Proof.
  intros Hf Hd. fix IH 1. intros [n sz|n r ch]; [apply Hf|apply Hd].
  induction ch as [|c ch IHch]; constructor; [apply IH | exact IHch].
Qed.

Lemma build_item_clean (e : fs_entry) :
  forall rel i, build_item rel e = Some i -> clean_names i.
Proof.
  induction e as [n sz|n r ch IH] using fs_entry_nested_ind; intros rel i.
  - cbn. destruct (String.eqb_spec n ".DS_Store") as [|Hne]; [discriminate|].
    intros [= <-]. unfold clean_names. cbn. intuition congruence.
  - cbn [build_item entry_name].
    destruct (str_in n [".git"; ".datalad"]) eqn:Hin; [discriminate|].
    intros [= <-].
    unfold str_in in Hin. cbn in Hin.
    destruct (String.eqb_spec n ".git") as [|Hg]; [discriminate|].
    destruct (String.eqb_spec n ".datalad") as [|Hd]; [discriminate|].
    clear Hin. destruct r.
    2:{ unfold clean_names. cbn. intuition congruence. }
    set (rp := if PyStr.truthy rel then PyStr.path_join rel n else n).
    clearbody rp.
    induction IH as [|c ch Hc _ IHch].
    + unfold clean_names. cbn. intuition congruence.
    + destruct IHch as (I1 & I2 & I3).
      unfold clean_names. cbn [item_dirs item_files].
      destruct (build_item rp c) as [ic|] eqn:Ec.
      * destruct (Hc rp ic Ec) as (C1 & C2 & C3).
        cbn [item_dirs item_files] in I1, I2, I3 |- *.
        repeat split; intros H.
        -- destruct H as [H|H]; [congruence|].
           apply in_app_or in H as [H|H]; [auto|]. apply I1. now right.
        -- destruct H as [H|H]; [congruence|].
           apply in_app_or in H as [H|H]; [auto|]. apply I2. now right.
        -- apply in_app_or in H as [H|H]; auto.
      * repeat split; assumption.
Qed.

Lemma build_tree_clean rel entries :
  Forall clean_names (build_tree rel entries).
Proof.
  induction entries as [|e entries IH]; cbn; [constructor|].
  destruct (build_item rel e) as [i|] eqn:E; [|apply IH].
  constructor; [|apply IH]. exact (build_item_clean e rel i E).
Qed.

(** X26. At no depth does the tree [get_file_tree] returns hold a
    directory named [.git] or [.datalad], or a file named
    [.DS_Store]. *)
Theorem file_tree_leaves_out_hidden (s : snapshot) (dp : string)
    (tree : list tree_item) :
  get_file_tree s dp = Return tree ->
  Forall (fun i => ~ In ".git" (item_dirs i)
                   /\ ~ In ".datalad" (item_dirs i)
                   /\ ~ In ".DS_Store" (item_files i)) tree.
Proof.
  unfold get_file_tree. destruct (dataset s) as [entries|]; [|discriminate].
  intros [= <-]. exact (build_tree_clean "" entries).
Qed.

Lemma file_tree_leaves_out_hidden_witness :
  Forall (fun i => ~ In ".git" (item_dirs i)
                   /\ ~ In ".datalad" (item_dirs i)
                   /\ ~ In ".DS_Store" (item_files i))
    [ItemDir "scripts" "scripts" [ItemFile "fit.py" "scripts/fit.py" 2048];
     ItemDir "results" "results" [ItemFile "out.csv" "results/out.csv" 120]].
Proof.
  apply (file_tree_leaves_out_hidden ScenariosMore.two_stages Scenarios.ds).
  reflexivity.
Defined.

(** *** [create_dataflow_from_dataset] always answers *)





(** *** One edge for every node but the root *)

Lemma dict_set_fresh {V} k (v : V) d :
  dict_get k d = None -> dict_set k v d = (d ++ [(k, v)])%list.
Proof.
  induction d as [|[k' v'] d IH]; cbn; [reflexivity|].
  destruct (String.eqb k k'); [discriminate|].
  intros H. now rewrite IH.
Qed.

Lemma tl_app_nonempty {A} (l l' : list A) :
  l <> [] -> tl (l ++ l') = (tl l ++ l')%list.
Proof. destruct l; [congruence | reflexivity]. Qed.

Lemma recorded_push b n k :
  recorded b -> id n = node_id b -> dict_get k (directory_nodes b) = None ->
  recorded (mkBuilder (b_nodes b ++ [n])%list (b_edges b)
              (dict_set k (node_id b) (directory_nodes b)) (S (node_id b))).
Proof.
  intros [Hne Hrec] Hid Hk. split; cbn.
  - destruct (b_nodes b); [congruence | discriminate].
  - rewrite (dict_set_fresh _ _ _ Hk), tl_app_nonempty by exact Hne.
    rewrite !map_app, Hrec. cbn. now rewrite Hid.
Qed.

Lemma directory_loop_recorded s tree : forall b b',
  NoDup (top_dirs tree) ->
  (forall k, In k (top_dirs tree) -> dict_get k (directory_nodes b) = None) ->
  recorded b ->
  directory_loop s b tree = Return b' ->
  recorded b'.
Proof.
  induction tree as [|item tree IH]; intros b b' Hnd Hfresh Hrec;
    cbn [directory_loop].
  - intros [= <-]. exact Hrec.
  - destruct item as [n p sz|n p ch]; cbn [directory_round].
    + apply IH; auto.
    + cbn in Hnd, Hfresh. inversion Hnd as [|? ? Hn Hnd']; subst.
      destruct (dict_get n directory_types).
      2:{ apply IH; auto. }
      destruct (stage_counts (get_stage_files s n)) as [[[t u] d]|];
        [|discriminate].
      apply IH; auto.
      * intros k Hk. cbn. rewrite dict_get_set_other.
        -- apply Hfresh. now right.
        -- intros ->. contradiction.
      * apply recorded_push; auto.
Qed.

Lemma missing_loop_recorded stages : forall b,
  recorded b -> recorded (missing_loop b stages).
Proof.
  induction stages as [|[name info] stages IH]; cbn; intros b Hrec; auto.
  destruct (dict_get name (directory_nodes b)) eqn:E; auto.
  apply IH. apply recorded_push; auto.
Qed.

Lemma top_dirs_names rel entries k :
  In k (top_dirs (build_tree rel entries)) -> In k (map entry_name entries).
Proof.
  induction entries as [|e entries IH]; cbn; [auto|].
  destruct (build_item rel e) as [i|] eqn:E; [|auto].
  cbn. intros H. apply in_app_or in H as [H|H]; [|auto].
  left. destruct e as [n sz|n r ch]; cbn in E;
    match type of E with
    | (if ?c then _ else _) = _ => destruct c; try discriminate
    end; injection E as <-; cbn in H; [destruct H|].
  destruct H as [H|[]]. exact H.
Qed.

Lemma top_dirs_nodup rel entries :
  NoDup (map entry_name entries) -> NoDup (top_dirs (build_tree rel entries)).
Proof.
  induction entries as [|e entries IH]; cbn; intros Hnd; [constructor|].
  inversion Hnd as [|? ? Hn Hnd']; subst.
  destruct (build_item rel e) as [i|] eqn:E; [|auto].
  cbn. destruct i as [n p sz|n p c]; cbn; [auto|].
  constructor; [|auto].
  intros H. apply top_dirs_names in H. apply Hn.
  destruct e as [n' sz|n' r ch]; cbn in E;
    match type of E with
    | (if ?c then _ else _) = _ => destruct c; try discriminate
    end; injection E as E1 _ _; subst; exact H.
Qed.

Lemma build_dataflow_metadata s dp g :
  build_dataflow s dp = Return g ->
  total_stages (metadata g) = List.length (nodes g)
  /\ total_connections (metadata g) = List.length (edges g).
Proof.
  unfold build_dataflow.
  destruct (get_file_tree s dp); [|discriminate].
  destruct (directory_loop s _ _); [|discriminate].
  intros [= <-]. split; reflexivity.
Qed.

(** X28. In a dataset whose root lists every name once, the graph
    has exactly one edge for every node but the root, in the order of
    the nodes; so [total_connections] is [total_stages] minus one. *)
Theorem synthesize_one_edge_per_stage (s : snapshot) (dp : string)
    (g : dataflow) (entries : list fs_entry) :
  dataset s = Some entries ->
  NoDup (map entry_name entries) ->
  create_dataflow_from_dataset s dp = Return g ->
  map to (edges g) = map id (tl (nodes g))
  /\ total_stages (metadata g) = S (total_connections (metadata g)).
Proof.
  intros Hds Hnd H. apply create_dataflow_shape in H.
  destruct (build_dataflow_metadata _ _ _ H) as (Hts & Htc).
  apply build_dataflow_shape in H.
  destruct H as (b & _ & Hn & He & tree & b1 & Htree & Hloop & ->).
  unfold get_file_tree in Htree. rewrite Hds in Htree. injection Htree as <-.
  assert (Hrec : recorded (missing_loop b1 missing_stages)).
  { apply missing_loop_recorded.
    eapply directory_loop_recorded; [| | |exact Hloop].
    - apply top_dirs_nodup, Hnd.
    - intros k _. reflexivity.
    - split; [discriminate | reflexivity]. }
  destruct Hrec as [Hne Hrec].
  assert (Hmap : map to (edges g) = map id (tl (nodes g))).
  { rewrite He, Hn, map_map, <- Hrec. apply map_ext. reflexivity. }
  split; [exact Hmap|].
  rewrite Hts, Htc. rewrite <- (length_map to), Hmap, length_map.
  rewrite Hn. destruct (b_nodes (missing_loop b1 missing_stages));
    [congruence | reflexivity].
Qed.

Lemma synthesize_one_edge_per_stage_witness :
  map to (edges Scenarios.results_only_graph)
    = map id (tl (nodes Scenarios.results_only_graph))
  /\ total_stages (metadata Scenarios.results_only_graph)
     = S (total_connections (metadata Scenarios.results_only_graph)).
Proof.
  apply (synthesize_one_edge_per_stage Scenarios.results_only Scenarios.ds
           Scenarios.results_only_graph Scenarios.results_only_listing).
  - reflexivity.
  - repeat constructor; cbn; intuition discriminate.
  - reflexivity.
Defined.

(** *** No placeholder for a stage that is there *)

Lemma dict_get_set_keeps {V} k k' (v : V) d :
  dict_get k d <> None -> dict_get k (dict_set k' v d) <> None.
Proof.
  intros H. destruct (string_dec k k') as [->|Hne].
  - rewrite dict_get_set_same. discriminate.
  - rewrite dict_get_set_other; auto.
Qed.

Lemma directory_loop_keeps_keys s tree : forall b b' k,
  directory_loop s b tree = Return b' ->
  dict_get k (directory_nodes b) <> None ->
  dict_get k (directory_nodes b') <> None.
Proof.
  induction tree as [|item tree IH]; cbn [directory_loop]; intros b b' k.
  - intros [= <-]. auto.
  - destruct (directory_round s b item) as [b1|] eqn:E; [|discriminate].
    intros H Hk. apply (IH _ _ _ H).
    unfold directory_round in E.
    destruct item as [n p sz|n p ch]; [injection E as <-; auto|].
    destruct (dict_get n directory_types); [|injection E as <-; auto].
    destruct (stage_counts (get_stage_files s n)) as [[[t u] d]|];
      [|discriminate].
    injection E as <-. cbn. apply dict_get_set_keeps, Hk.
Qed.

Lemma directory_loop_records s tree : forall b b' name p c,
  directory_loop s b tree = Return b' ->
  In (ItemDir name p c) tree ->
  dict_get name directory_types <> None ->
  dict_get name (directory_nodes b') <> None.
Proof.
  induction tree as [|item tree IH]; cbn [directory_loop In];
    intros b b' name p c; [intros _ []|].
  destruct (directory_round s b item) as [b1|] eqn:E; [|discriminate].
  intros H [Hi|Hi] Hk; [|eapply IH; eauto].
  subst item. apply (directory_loop_keeps_keys _ _ _ _ _ H).
  unfold directory_round in E.
  destruct (dict_get name directory_types); [|congruence].
  destruct (stage_counts (get_stage_files s name)) as [[[t u] d]|];
    [|discriminate].
  injection E as <-. cbn. rewrite dict_get_set_same. discriminate.
Qed.

Lemma directory_loop_tracked s tree : forall b b' n,
  directory_loop s b tree = Return b' ->
  In n (b_nodes b') ->
  In n (b_nodes b) \/ tracking_info n <> None.
Proof.
  induction tree as [|item tree IH]; cbn [directory_loop]; intros b b' n.
  - intros [= <-]. auto.
  - destruct (directory_round s b item) as [b1|] eqn:E; [|discriminate].
    intros H Hn. destruct (IH _ _ _ H Hn) as [Hb1|Ht]; [|auto].
    unfold directory_round in E.
    destruct item as [nm p sz|nm p ch]; [injection E as <-; auto|].
    destruct (dict_get nm directory_types); [|injection E as <-; auto].
    destruct (stage_counts (get_stage_files s nm)) as [[[t u] d]|];
      [|discriminate].
    injection E as <-. cbn in Hb1. apply in_app_or in Hb1 as [Hb|[<-|[]]];
      [auto|]. right. cbn. discriminate.
Qed.

Lemma missing_loop_only_absent name stages : forall b n,
  (forall k info, In (k, info) stages -> info_type info = k) ->
  dict_get name (directory_nodes b) <> None ->
  In n (b_nodes (missing_loop b stages)) ->
  type n = name ->
  In n (b_nodes b).
Proof.
  induction stages as [|[k info] stages IH]; cbn [missing_loop];
    intros b n Hty Hk Hn Htn; [exact Hn|].
  assert (Hty' : forall k0 info0, In (k0, info0) stages ->
                                  info_type info0 = k0)
    by (intros; apply Hty; right; assumption).
  destruct (dict_get k (directory_nodes b)) eqn:E; [eapply IH; eauto|].
  apply IH in Hn; auto.
  - cbn in Hn. apply in_app_or in Hn as [Hn|[<-|[]]]; [exact Hn|].
    exfalso. cbn in Htn. rewrite (Hty k info (or_introl eq_refl)) in Htn.
    subst k. congruence.
  - cbn. apply dict_get_set_keeps, Hk.
Qed.

Lemma build_tree_keeps_directory rel entries name r ch :
  In (FsDir name r ch) entries ->
  str_in name [".git"; ".datalad"] = false ->
  exists p c, In (ItemDir name p c) (build_tree rel entries).
Proof.
  intros Hin Hex. induction entries as [|e entries IH]; [destruct Hin|].
  cbn [build_tree]. destruct Hin as [->|Hin].
  - cbn [build_item entry_name]. rewrite Hex. do 2 eexists. left. reflexivity.
  - destruct (IH Hin) as (p & c & H).
    destruct (build_item rel e); do 2 eexists; [right|]; exact H.
Qed.

(** X29. A stage directory that is in the dataset root gets no
    placeholder: every node of the graph that has the type of that
    stage carries the tracking counts of the directory. *)
Theorem synthesize_no_placeholder_for_present (s : snapshot) (dp : string)
    (g : dataflow) (entries : list fs_entry) (name : string) (r : bool)
    (ch : list fs_entry) :
  dataset s = Some entries ->
  create_dataflow_from_dataset s dp = Return g ->
  In (FsDir name r ch) entries ->
  dict_get name directory_types <> None ->
  forall n, In n (nodes g) -> type n = name -> tracking_info n <> None.
Proof.
  intros Hds H Hin Hk n Hn Hty.
  apply create_dataflow_shape, build_dataflow_shape in H.
  destruct H as (b & _ & Hnodes & _ & tree & b1 & Htree & Hloop & ->).
  unfold get_file_tree in Htree. rewrite Hds in Htree. injection Htree as <-.
  assert (Hex : str_in name [".git"; ".datalad"] = false).
  { unfold str_in. cbn.
    destruct (String.eqb_spec name ".git") as [->|_]; [now cbn in Hk|].
    destruct (String.eqb_spec name ".datalad") as [->|_]; [now cbn in Hk|].
    reflexivity. }
  destruct (build_tree_keeps_directory "" entries name r ch Hin Hex)
    as (p & c & Hitem).
  pose proof (directory_loop_records _ _ _ _ _ _ _ Hloop Hitem Hk) as Hrec.
  rewrite Hnodes in Hn.
  apply (missing_loop_only_absent name) in Hn; auto.
  - destruct (directory_loop_tracked _ _ _ _ _ Hloop Hn) as [Hroot|Ht];
      [|exact Ht].
    cbn in Hroot. destruct Hroot as [<-|[]]. cbn in Hty. subst name.
    now cbn in Hk.
  - intros k info Hm. cbn in Hm.
    repeat (destruct Hm as [Hm|Hm]; [injection Hm as <- <-; reflexivity|]).
    destruct Hm.
Qed.

Lemma synthesize_no_placeholder_for_present_witness :
  Forall (fun n => type n = "results" -> tracking_info n <> None)
    (nodes Scenarios.results_only_graph).
Proof.
  apply Forall_forall.
  apply (synthesize_no_placeholder_for_present Scenarios.results_only
           Scenarios.ds Scenarios.results_only_graph
           Scenarios.results_only_listing "results" true
           [FsFile "summary.csv" 120; FsFile "draft.csv" 80]).
  - reflexivity.
  - reflexivity.
  - right. right. left. reflexivity.
  - discriminate.
Defined.

(** *** [_get_deleted_files] *)

Lemma lstrip_app_nonspace a x r :
  PyStr.is_space x = false ->
  PyStr.lstrip (a ++ String x r) = PyStr.lstrip a ++ String x r.
Proof.
  intros Hx. induction a as [|c a IH]; cbn.
  - now rewrite Hx.
  - destruct (PyStr.is_space c); [exact IH | reflexivity].
Qed.

Lemma lstrip_idempotent a : PyStr.lstrip (PyStr.lstrip a) = PyStr.lstrip a.
Proof.
  induction a as [|c a IH]; cbn; [reflexivity|].
  destruct (PyStr.is_space c) eqn:E; [exact IH|]. cbn. now rewrite E.
Qed.

Lemma rstrip_cons_nonspace x r :
  PyStr.is_space x = false ->
  PyStr.rstrip (String x r) = String x (PyStr.rstrip r).
Proof. intros H. cbn. destruct (PyStr.rstrip r); [now rewrite H | reflexivity]. Qed.

Lemma rstrip_idempotent s : PyStr.rstrip (PyStr.rstrip s) = PyStr.rstrip s.
Proof.
  induction s as [|c s IH]; [reflexivity|].
  cbn [PyStr.rstrip]. destruct (PyStr.rstrip s) as [|y r] eqn:E.
  - destruct (PyStr.is_space c) eqn:Hc; [reflexivity|].
    cbn. now rewrite Hc.
  - change (PyStr.rstrip (String c (String y r))) with
      (match PyStr.rstrip (String y r) with
       | "" => if PyStr.is_space c then "" else String c ""
       | String z q => String c (String z q)
       end).
    rewrite IH. reflexivity.
Qed.

Lemma free_of_lstrip c a :
  GitLog.free_of c a = true -> GitLog.free_of c (PyStr.lstrip a) = true.
Proof.
  induction a as [|x a IH]; cbn; [auto|].
  intros H. apply andb_prop in H as [Hx Ha].
  destruct (PyStr.is_space x); [auto|]. cbn. now rewrite Hx, Ha.
Qed.

Lemma contains_app_char a x r :
  PyStr.contains (String x "") (a ++ String x r) = true.
Proof.
  induction a as [|c a IH].
  - cbn [append].
    change (PyStr.contains (String x "") (String x r))
      with (prefix (String x "") (String x r)
            || PyStr.contains (String x "") r).
    now rewrite StrFacts.prefix_char_same.
  - cbn [append].
    change (PyStr.contains (String x "") (String c (a ++ String x r)))
      with (prefix (String x "") (String c (a ++ String x r))
            || PyStr.contains (String x "") (a ++ String x r)).
    rewrite IH. apply orb_true_r.
Qed.

Lemma prefix_nil s : prefix "" s = true.
Proof. destruct s; reflexivity. Qed.

Lemma split1_aux_other c cur x s :
  Ascii.eqb x c = false ->
  PyStr.split1_aux (String c "") cur (String x s)
  = PyStr.split1_aux (String c "") (String x cur) s.
Proof.
  intros H. cbn [PyStr.split1_aux].
  now rewrite (StrFacts.prefix_char_other c x s H).
Qed.

Lemma split1_aux_hit c cur s :
  PyStr.split1_aux (String c "") cur (String c s)
  = [PyStr.rev_acc "" cur; s].
Proof.
  cbn [PyStr.split1_aux]. now rewrite StrFacts.prefix_char_same.
Qed.

(** X30. A status line that reads [deleted:], a text and an opening
    parenthesis gives a deleted-file entry whose path is the text
    without the white space around it, and whose name is the last
    component of that path. What follows the first parenthesis is
    dropped, so a path that holds one is cut there. *)
Theorem deleted_line_cut_at_parenthesis (line a b : string) :
  PyStr.lstrip line = "deleted:" ++ a ++ "(" ++ b ->
  GitLog.free_of "("%char a = true ->
  deleted_of_line line
    = Some (mkDeleted (PyStr.basename (PyStr.strip a)) (PyStr.strip a)).
Proof.
  intros Hl Ha. unfold deleted_of_line.
  assert (Hs : PyStr.strip line = "deleted:" ++ a ++ "(" ++ PyStr.rstrip b).
  { unfold PyStr.strip. rewrite Hl.
    change ("deleted:" ++ a ++ "(" ++ b)
      with (String "d" (String "e" (String "l" (String "e" (String "t"
             (String "e" (String "d" (String ":" (a ++ String "(" b)))))))))%string.
    rewrite !rstrip_cons_nonspace by reflexivity.
    rewrite StrFacts.rstrip_app
      by (apply StrFacts.rstrip_nonspace; reflexivity).
    rewrite rstrip_cons_nonspace by reflexivity. reflexivity. }
  rewrite Hs.
  change ("deleted:" ++ a ++ "(" ++ PyStr.rstrip b)
    with (String "d" (String "e" (String "l" (String "e" (String "t"
           (String "e" (String "d" (String ":"
              (a ++ String "(" (PyStr.rstrip b))))))))))%string.
  unfold PyStr.startswith. cbn [prefix ascii_dec ascii_rec ascii_rect
    Bool.bool_dec bool_rec bool_rect sumbool_rec sumbool_rect].
  rewrite prefix_nil.
  unfold PyStr.split1.
  rewrite !split1_aux_other by reflexivity.
  rewrite split1_aux_hit. cbv iota.
  assert (Hf : PyStr.strip (a ++ String "(" (PyStr.rstrip b))
               = PyStr.lstrip a ++ String "(" (PyStr.rstrip b)).
  { unfold PyStr.strip. rewrite lstrip_app_nonspace by reflexivity.
    rewrite StrFacts.rstrip_app
      by (apply StrFacts.rstrip_nonspace; reflexivity).
    rewrite rstrip_cons_nonspace by reflexivity.
    now rewrite rstrip_idempotent. }
  rewrite Hf.
  rewrite (contains_app_char (PyStr.lstrip a) "("%char (PyStr.rstrip b)).
  rewrite (StrFacts.split_piece "("%char (PyStr.lstrip a) (PyStr.rstrip b))
    by (apply free_of_lstrip, Ha).
  cbn [hd]. unfold PyStr.strip at 1 2. rewrite lstrip_idempotent.
  reflexivity.
Qed.

Lemma deleted_line_cut_at_parenthesis_witness :
  deleted_of_line " deleted: results/old (v1).csv (file)"
    = Some (mkDeleted "old" "results/old").
Proof.
  apply (deleted_line_cut_at_parenthesis
           " deleted: results/old (v1).csv (file)"
           " results/old " "v1).csv (file)");
    reflexivity.
Defined.

End SynthesisMore.
